(** * Messaging core of the service-marketplace backend

    A shallow embedding of [models/Conversation.js], [models/Message.js] and
    [routes/messages.js]: the Mongoose models of two-party conversations and
    of their messages, and the Express routes that sequence them, with the
    [authenticateToken] middleware of [middleware/auth.js] that guards the
    routes.

    Conventions of the embedding.
    - An [ObjectId] is its canonical hexadecimal text, so [toString()] on an
      identifier is the identity and two identifiers are compared as texts.
      Mongoose casts the text of a request to an [ObjectId] before it looks
      a document up; the lookups of the model compare the text as it
      stands, and so follow the code on canonical texts only: a text with
      capital digits, which the cast reads as the same identifier, and a
      text that cannot be cast, on which the query throws, are not
      followed.
    - Text is a [string] with one [ascii] per character.
    - A JavaScript number is a [Z]; a [Date] is a [Z] (milliseconds).
    - A collection is the list of its documents in insertion order; a query
      without [sort] visits them in that order.
    - Every reading of the wall clock and every generated identifier is an
      input of the request ([Env]).
    - What the code leaves to the libraries and cannot be read off the source
      (how Mongoose prints a populated document, how MongoDB matches a
      [$regex]) is a field of the class [Platform].
    - The [updatedAt] stamps kept by the [timestamps] option are not part
      of the stored documents: only the conversation listing reads them, and
      it takes them as an input. *)

From stdpp Require Import base gmap strings list.
From Stdlib Require Import ZArith String Ascii List Lia Bool.
Import ListNotations.
Local Open Scope string_scope.
Local Open Scope list_scope.

(** ** Text helpers (String.prototype.trim / substring, validator.js) *)

Module Text.

(** [\s] restricted to ASCII: space, tab, line feed, vertical tab, form
    feed and carriage return. *)
Definition isWhitespace (c : ascii) : bool := Ascii.is_space c.

Fixpoint trimStart (s : string) : string :=
  match s with
  | EmptyString => EmptyString
  | String c s' => if isWhitespace c then trimStart s' else s
  end.

Fixpoint trimEnd (s : string) : string :=
  match s with
  | EmptyString => EmptyString
  | String c s' =>
      match trimEnd s' with
      | EmptyString => if isWhitespace c then EmptyString else String c EmptyString
      | r => String c r
      end
  end.

(** [trim()], both the validator.js sanitizer and the schema setter. *)
Definition trim (s : string) : string := trimEnd (trimStart s).

(** [content.substring(0, n)] *)
Definition substring0 (n : nat) (s : string) : string := String.substring 0 n s.

Definition toLower (c : ascii) : ascii :=
  let n := nat_of_ascii c in
  if (65 <=? n)%nat && (n <=? 90)%nat then ascii_of_nat (n + 32) else c.

Definition eqCI (a b : ascii) : bool := Ascii.eqb (toLower a) (toLower b).

Fixpoint startsWithCI (q s : string) : bool :=
  match q, s with
  | EmptyString, _ => true
  | String _ _, EmptyString => false
  | String a q', String b s' => eqCI a b && startsWithCI q' s'
  end.

(** [q] occurs in [s] as a substring, letter case ignored. *)
Fixpoint includesCI (q s : string) : bool :=
  startsWithCI q s ||
  match s with
  | EmptyString => false
  | String _ s' => includesCI q s'
  end.

Definition isHexDigit (c : ascii) : bool :=
  let n := nat_of_ascii c in
  ((48 <=? n)%nat && (n <=? 57)%nat) ||
  ((97 <=? n)%nat && (n <=? 102)%nat) ||
  ((65 <=? n)%nat && (n <=? 70)%nat).

Fixpoint allHex (s : string) : bool :=
  match s with
  | EmptyString => true
  | String c s' => isHexDigit c && allHex s'
  end.

(** validator.js [isMongoId]: 24 hexadecimal digits. *)
Definition isMongoId (s : string) : bool :=
  (String.length s =? 24)%nat && allHex s.

(** The characters a regular expression reads as operators. *)
Definition isRegexMeta (c : ascii) : bool :=
  match c with
  | "\" | "^" | "$" | "." | "|" | "?" | "*" | "+"
  | "(" | ")" | "[" | "]" | "{" | "}" => true
  | _ => false
  end%char.

Fixpoint isLiteralPattern (q : string) : bool :=
  match q with
  | EmptyString => true
  | String c q' => negb (isRegexMeta c) && isLiteralPattern q'
  end.

End Text.

(** ** Exceptions and results *)

Inductive Exception :=
| TypeError (what : string)
| MongooseValidationError (path : string)
| MapKeyError (key : string).

Inductive Outcome (A : Type) :=
| Return (a : A)
| Throw (e : Exception).
Arguments Return {A} a.
Arguments Throw {A} e.

(** ** models/User.js and models/Service.js (the fields the messaging core reads) *)

Module User.

Record t := mk {
  _id : string;
  firstName : string;
  lastName : string;
  avatar : option string;
  isActive : bool
}.

(** What [populate(path, 'firstName lastName avatar')] puts in place of an
    identifier. *)
Record Profile := mkProfile {
  p_id : string;
  p_firstName : string;
  p_lastName : string;
  p_avatar : option string
}.

Definition profile (u : t) : Profile :=
  {| p_id := _id u; p_firstName := firstName u;
     p_lastName := lastName u; p_avatar := avatar u |}.

(** The [id] virtual: the identifier as text. *)
Definition id (u : t) : string := _id u.

Definition fullName (u : t) : string := firstName u +:+ " " +:+ lastName u.

Definition findById (users : list t) (i : string) : option t :=
  List.find (fun u => String.eqb (_id u) i) users.

End User.

Module Service.

Record t := mk {
  _id : string;
  title : string;
  category : string;
  isActive : bool
}.

Definition findById (services : list t) (i : string) : option t :=
  List.find (fun s => String.eqb (_id s) i) services.

End Service.

(** ** Library behaviour the source relies on *)

Class Platform := {
  (** [toString()] of a populated user document, as Mongoose prints it. *)
  docString : User.Profile -> string;
  (** [{ $regex: pattern, $options: 'i' }] applied to a text. *)
  regexTest : string -> string -> bool
}.

(** ** Sequencing of computations that may throw *)

Definition bind {A B : Type} (m : Outcome A) (k : A -> Outcome B) : Outcome B :=
  match m with
  | Return a => k a
  | Throw e => Throw e
  end.

Notation "x <- m ;; k" := (bind m (fun x => k))
  (at level 100, m at next level, right associativity).

(** [Array.prototype.some] with a callback that may throw: left to right,
    stopping at the first hit. *)
Fixpoint arraySome {A : Type} (test : A -> Outcome bool) (l : list A) : Outcome bool :=
  match l with
  | [] => Return false
  | x :: l' =>
      hit <- test x ;;
      if hit : bool then Return true else arraySome test l'
  end.

(** [Array.prototype.filter] with a callback that may throw. *)
Fixpoint arrayFilter {A : Type} (test : A -> Outcome bool) (l : list A) : Outcome (list A) :=
  match l with
  | [] => Return []
  | x :: l' =>
      keep <- test x ;;
      rest <- arrayFilter test l' ;;
      Return (if keep : bool then x :: rest else rest)
  end.

(** An update of the first document a filter selects ([findByIdAndUpdate],
    and [save()] of a document that is already stored). *)
Fixpoint updateFirst {A : Type} (test : A -> bool) (f : A -> A) (l : list A) : list A :=
  match l with
  | [] => []
  | x :: l' => if test x then f x :: l' else x :: updateFirst test f l'
  end.

(** ** models/Conversation.js *)

Module Conversation.

Record Participant := mkParticipant {
  userId : string;
  userName : string
}.

Record LastMessage := mkLastMessage {
  content : string;
  senderId : option string;
  timestamp : Z
}.

Record t := mk {
  _id : string;
  participants : list Participant;
  serviceId : option string;
  serviceTitle : option string;
  lastMessage : LastMessage;
  isActive : bool;
  unreadCount : gmap string Z;
  createdAt : Z
}.

Definition setParticipants (ps : list Participant) (c : t) : t :=
  mk (_id c) ps (serviceId c) (serviceTitle c) (lastMessage c)
     (isActive c) (unreadCount c) (createdAt c).

Definition setLastMessage (lm : LastMessage) (c : t) : t :=
  mk (_id c) (participants c) (serviceId c) (serviceTitle c) lm
     (isActive c) (unreadCount c) (createdAt c).

Definition setUnreadCount (u : gmap string Z) (c : t) : t :=
  mk (_id c) (participants c) (serviceId c) (serviceTitle c) (lastMessage c)
     (isActive c) u (createdAt c).

(** A document held by a request: the stored fields, and, when the query
    ran [populate('participants.userId', ...)], the users collection the
    identifiers were resolved against.  In a populated document
    [participant.userId] is the user's profile, or [null] when no user has
    that identifier. *)
Record doc := mkDoc {
  fields : t;
  populated : option (list User.t)
}.

Definition onFields (f : t -> t) (d : doc) : doc :=
  mkDoc (f (fields d)) (populated d).

(** [participant.userId] of a populated document. *)
Definition populatedUser (users : list User.t) (p : Participant) : option User.Profile :=
  option_map User.profile (User.findById users (userId p)).

(** [participant.userId.toString()] *)
Definition userIdString `{Platform} (d : doc) (p : Participant) : Outcome string :=
  match populated d with
  | None => Return (userId p)
  | Some users =>
      match populatedUser users p with
      | Some profile => Return (docString profile)
      | None => Throw (TypeError "Cannot read properties of null (reading 'toString')")
      end
  end.

Definition sameUser `{Platform} (d : doc) (uid : string) (p : Participant) : Outcome bool :=
  s <- userIdString d p ;; Return (String.eqb s uid).

Definition otherUser `{Platform} (d : doc) (uid : string) (p : Participant) : Outcome bool :=
  s <- userIdString d p ;; Return (negb (String.eqb s uid)).

(** [conversationSchema.methods.addParticipant] *)
Definition addParticipant `{Platform} (uid name : string) (d : doc) : Outcome doc :=
  exists_ <- arraySome (sameUser d uid) (participants (fields d)) ;;
  Return (if exists_ : bool then d
          else onFields (fun c => setParticipants
                                    (participants c ++ [mkParticipant uid name]) c) d).

(** [conversationSchema.methods.removeParticipant] *)
Definition removeParticipant `{Platform} (uid : string) (d : doc) : Outcome doc :=
  kept <- arrayFilter (otherUser d uid) (participants (fields d)) ;;
  Return (onFields (setParticipants kept) d).

(** [conversationSchema.methods.hasParticipant] *)
Definition hasParticipant `{Platform} (d : doc) (uid : string) : Outcome bool :=
  arraySome (sameUser d uid) (participants (fields d)).

(** The paths of a document that [save()] writes back. *)
Inductive Path := LastMessagePath | UnreadCountPath.

Definition isLastMessagePath (p : Path) : bool :=
  match p with LastMessagePath => true | UnreadCountPath => false end.

Definition isUnreadCountPath (p : Path) : bool :=
  match p with UnreadCountPath => true | LastMessagePath => false end.

Definition writeModified (modified : list Path) (d : doc) (stored : t) : t :=
  let c1 := if existsb isLastMessagePath modified
            then setLastMessage (lastMessage (fields d)) stored else stored in
  if existsb isUnreadCountPath modified
  then setUnreadCount (unreadCount (fields d)) c1 else c1.

(** [this.save()] of a loaded document: the modified paths are written to
    the stored document with the same [_id]. *)
Definition save (modified : list Path) (d : doc) (conversations : list t) : list t :=
  updateFirst (fun c => String.eqb (_id c) (_id (fields d)))
              (writeModified modified d) conversations.

Fixpoint hasDot (s : string) : bool :=
  match s with
  | EmptyString => false
  | String c s' => Ascii.eqb c "."%char || hasDot s'
  end.

(** A key that a Mongoose [Map] accepts: it does not start with [$] and
    holds no dot. *)
Definition isMapKey (key : string) : bool :=
  match key with
  | EmptyString => true
  | String c _ => negb (Ascii.eqb c "$"%char) && negb (hasDot key)
  end.

(** [this.unreadCount.set(key, value)], which throws on a key the map
    does not accept.  In a document loaded without [populate] the key is the
    text of an [ObjectId], which the map accepts; in a populated document it
    is a printed user document. *)
Definition setCount (d : doc) (key : string) (value : Z) (counts : gmap string Z)
    : Outcome (gmap string Z) :=
  match populated d with
  | None => Return (<[key := value]> counts)
  | Some _ =>
      if isMapKey key then Return (<[key := value]> counts)
      else Throw (MapKeyError key)
  end.

(** The [forEach] of [updateLastMessage]:
    [currentCount = unreadCount.get(key) || 0; unreadCount.set(key, currentCount + 1)]
    for every participant whose key differs from the sender's. *)
Fixpoint bumpUnread `{Platform} (d : doc) (sender : string)
    (ps : list Participant) (counts : gmap string Z) : Outcome (gmap string Z) :=
  match ps with
  | [] => Return counts
  | p :: ps' =>
      key <- userIdString d p ;;
      if negb (String.eqb key sender)
      then
        let currentCount := default 0%Z (counts !! key) in
        counts' <- setCount d key (currentCount + 1)%Z counts ;;
        bumpUnread d sender ps' counts'
      else bumpUnread d sender ps' counts
  end.

(** [conversationSchema.methods.updateLastMessage]; [now] is [new Date()]. *)
Definition updateLastMessage `{Platform} (now : Z) (text sender : string)
    (d : doc) (conversations : list t) : Outcome (doc * list t) :=
  let d1 := onFields (setLastMessage
                        (mkLastMessage (Text.substring0 100 text) (Some sender) now)) d in
  counts <- bumpUnread d1 sender (participants (fields d1)) (unreadCount (fields d1)) ;;
  let d2 := onFields (setUnreadCount counts) d1 in
  Return (d2, save [LastMessagePath; UnreadCountPath] d2 conversations).

(** [conversationSchema.methods.markAsRead] *)
Definition markAsRead (uid : string) (d : doc) (conversations : list t) : doc * list t :=
  let d1 := onFields (fun c => setUnreadCount (<[uid := 0%Z]> (unreadCount c)) c) d in
  (d1, save [UnreadCountPath] d1 conversations).

(** [Conversation.findById] *)
Definition findById (conversations : list t) (i : string) : option doc :=
  option_map (fun c => mkDoc c None)
             (List.find (fun c => String.eqb (_id c) i) conversations).

Definition populateParticipants (users : list User.t) (d : doc) : doc :=
  mkDoc (fields d) (Some users).

Definition hasUserId (uid : string) (c : t) : bool :=
  existsb (fun p => String.eqb (userId p) uid) (participants c).

(** [conversationSchema.statics.findBetweenUsers] *)
Definition findBetweenUsers (users : list User.t) (conversations : list t)
    (userId1 userId2 : string) : option doc :=
  option_map (fun c => mkDoc c (Some users))
             (List.find (fun c => hasUserId userId1 c && hasUserId userId2 c && isActive c)
                        conversations).

(** [conversationSchema.statics.createConversation]; [oid] is the generated
    identifier, [tDefault] the reading of [Date.now] for the default of
    [lastMessage.timestamp] and [tCreated] the one for [createdAt]. *)
Definition createConversation (oid : string) (tDefault tCreated : Z)
    (user1 user2 : User.t) (service : option string) (title : option string)
    (conversations : list t) : doc * list t :=
  let c := mk oid
              [ mkParticipant (User.id user1) (User.fullName user1);
                mkParticipant (User.id user2) (User.fullName user2) ]
              service title
              (mkLastMessage "" None tDefault)
              true
              (<[User.id user2 := 0%Z]> (<[User.id user1 := 0%Z]> ∅))
              tCreated in
  (mkDoc c None, conversations ++ [c]).

End Conversation.

(** ** models/Message.js *)

Module Message.

Record Attachment := mkAttachment {
  a_type : option string;
  a_url : string;
  a_filename : string;
  a_size : Z
}.

Record t := mk {
  _id : string;
  conversationId : string;
  senderId : string;
  senderName : string;
  content : string;
  messageType : string;
  attachments : list Attachment;
  isRead : bool;
  readAt : option Z;
  isEdited : bool;
  editedAt : option Z;
  replyTo : option string;
  createdAt : Z
}.

Definition setCreatedAt (now : Z) (m : t) : t :=
  mk (_id m) (conversationId m) (senderId m) (senderName m) (content m)
     (messageType m) (attachments m) (isRead m) (readAt m) (isEdited m)
     (editedAt m) (replyTo m) now.

Definition setRead (now : Z) (m : t) : t :=
  mk (_id m) (conversationId m) (senderId m) (senderName m) (content m)
     (messageType m) (attachments m) true (Some now) (isEdited m)
     (editedAt m) (replyTo m) (createdAt m).

Definition setEdited (text : string) (now : Z) (m : t) : t :=
  mk (_id m) (conversationId m) (senderId m) (senderName m) text
     (messageType m) (attachments m) (isRead m) (readAt m) true
     (Some now) (replyTo m) (createdAt m).

(** [new Message({...})]: the schema's defaults, and the [trim] setter of
    [content].  [createdAt] is set by the first [save()]. *)
Definition new (oid conversation sender name text kind : string)
    (files : list Attachment) (reply : option string) : t :=
  mk oid conversation sender name (Text.trim text) kind files
     false None false None reply 0%Z.

Definition messageTypes : list string := ["text"; "image"; "file"; "system"].
Definition attachmentTypes : list string := ["image"; "file"].

Definition inEnum (values : list string) (v : string) : bool :=
  existsb (String.eqb v) values.

Definition attachmentOk (a : Attachment) : bool :=
  match a_type a with
  | None => true
  | Some k => inEnum attachmentTypes k
  end.

(** The paths the schema's validators reject: [required] (an empty text
    fails it), [maxlength] and [enum]. *)
Definition validationErrors (m : t) : list string :=
  (if String.eqb (senderName m) "" then ["senderName"] else []) ++
  (if String.eqb (content m) "" then ["content"]
   else if (1000 <? String.length (content m))%nat then ["content"] else []) ++
  (if inEnum messageTypes (messageType m) then [] else ["messageType"]) ++
  (if forallb attachmentOk (attachments m) then [] else ["attachments.type"]).

(** [messageSchema.post('save', ...)]: the stored conversation's summary is
    overwritten from the saved message; an unknown conversation is skipped. *)
Definition postSave (m : t) (conversations : list Conversation.t) : list Conversation.t :=
  updateFirst (fun c => String.eqb (Conversation._id c) (conversationId m))
              (Conversation.setLastMessage
                 (Conversation.mkLastMessage (content m) (Some (senderId m)) (createdAt m)))
              conversations.

(** [this.save()]: validation, then the insertion of a new document (which
    receives [createdAt]) or the update of the stored one, then the [post]
    hook.  [isNew] is Mongoose's flag: set on a document built by [new],
    clear on one read from the collection. *)
Definition save (isNew : bool) (now : Z) (m : t)
    (conversations : list Conversation.t) (messages : list t)
    : Outcome (t * list Conversation.t * list t) :=
  match validationErrors m with
  | path :: _ => Throw (MongooseValidationError path)
  | [] =>
      let m' := if isNew then setCreatedAt now m else m in
      let messages' :=
        if isNew then messages ++ [m']
        else updateFirst (fun x => String.eqb (_id x) (_id m)) (fun _ => m') messages in
      Return (m', postSave m' conversations, messages')
  end.

(** [messageSchema.methods.markAsRead] *)
Definition markAsRead (now : Z) (m : t)
    (conversations : list Conversation.t) (messages : list t)
    : Outcome (t * list Conversation.t * list t) :=
  save false now (setRead now m) conversations messages.

(** [messageSchema.methods.editContent] *)
Definition editContent (now : Z) (newContent : string) (m : t)
    (conversations : list Conversation.t) (messages : list t)
    : Outcome (t * list Conversation.t * list t) :=
  save false now (setEdited (Text.trim newContent) now m) conversations messages.

(** [.sort({ createdAt: -1 })]: newest first, equal dates in collection order. *)
Fixpoint insertNewestFirst (m : t) (l : list t) : list t :=
  match l with
  | [] => [m]
  | x :: l' =>
      if (createdAt x <=? createdAt m)%Z then m :: l
      else x :: insertNewestFirst m l'
  end.

Definition sortNewestFirst (l : list t) : list t :=
  fold_right insertNewestFirst [] l.

Definition inConversation (conversation : string) (m : t) : bool :=
  String.eqb (conversationId m) conversation.

(** [messageSchema.statics.getForConversation] (the documents; their
    populated paths are resolved where the route reads them). *)
Definition getForConversation (conversation : string) (limit skip : nat)
    (messages : list t) : list t :=
  firstn limit (skipn skip (sortNewestFirst (List.filter (inConversation conversation) messages))).

Definition unreadFrom (conversation reader : string) (m : t) : bool :=
  inConversation conversation m && negb (String.eqb (senderId m) reader) && negb (isRead m).

(** [messageSchema.statics.markConversationAsRead]: the [updateMany]. *)
Definition markConversationAsRead (now : Z) (conversation reader : string)
    (messages : list t) : list t :=
  List.map (fun m => if unreadFrom conversation reader m then setRead now m else m) messages.

(** The [$lookup] and [$match] stages of [getUnreadCount]. *)
Definition unreadFor (reader : string) (conversations : list Conversation.t) (m : t) : bool :=
  existsb (Conversation.hasUserId reader)
          (List.filter (fun c => String.eqb (Conversation._id c) (conversationId m)) conversations)
  && negb (String.eqb (senderId m) reader)
  && negb (isRead m).

(** [$group: { _id: '$conversationId', count: { $sum: 1 } }] *)
Fixpoint countInto (key : string) (groups : list (string * Z)) : list (string * Z) :=
  match groups with
  | [] => [(key, 1%Z)]
  | (k, n) :: rest =>
      if String.eqb k key then (k, (n + 1)%Z) :: rest
      else (k, n) :: countInto key rest
  end.

Definition groupByConversation (ms : list t) : list (string * Z) :=
  fold_left (fun groups m => countInto (conversationId m) groups) ms [].

(** [$group: { _id: null, totalUnread: { $sum: '$count' } }]: one document
    for a non-empty input, none for an empty one. *)
Definition groupAll (groups : list (string * Z)) : list Z :=
  match groups with
  | [] => []
  | _ :: _ => [fold_right (fun g acc => (snd g + acc)%Z) 0%Z groups]
  end.

(** [messageSchema.statics.getUnreadCount]: the [totalUnread] of each
    document the pipeline returns. *)
Definition getUnreadCount (reader : string)
    (conversations : list Conversation.t) (messages : list t) : list Z :=
  groupAll (groupByConversation (List.filter (unreadFor reader conversations) messages)).

(** [messageSchema.statics.searchInConversation] *)
Definition searchInConversation `{Platform} (conversation query : string)
    (messages : list t) : list t :=
  firstn 10 (sortNewestFirst
               (List.filter (fun m => inConversation conversation m
                                      && regexTest query (content m)) messages)).

End Message.

(** ** The database and the environment of a request *)

Record Store := mkStore {
  users : list User.t;
  services : list Service.t;
  conversations : list Conversation.t;
  messages : list Message.t
}.

Definition setConversations (cs : list Conversation.t) (st : Store) : Store :=
  mkStore (users st) (services st) cs (messages st).

Definition setMessages (ms : list Message.t) (st : Store) : Store :=
  mkStore (users st) (services st) (conversations st) ms.

(** [newId k] is the [k]-th identifier generated while the request runs and
    [clock k] the [k]-th reading of the wall clock. *)
Record Env := mkEnv {
  newId : nat -> string;
  clock : nat -> Z
}.

(** A handler threads the store and may throw; what it wrote before a throw
    stays written. *)
Definition Handler (A : Type) : Type := Store -> Outcome A * Store.

Definition ret {A : Type} (a : A) : Handler A := fun st => (Return a, st).

Definition andThen {A B : Type} (h : Handler A) (k : A -> Handler B) : Handler B :=
  fun st =>
    match h st with
    | (Return a, st') => k a st'
    | (Throw e, st') => (Throw e, st')
    end.

Definition await {A : Type} (o : Outcome A) : Handler A := fun st => (o, st).

Definition getStore : Handler Store := fun st => (Return st, st).

Definition putStore (st' : Store) : Handler unit := fun _ => (Return tt, st').

Notation "x <~ h ;; k" := (andThen h (fun x => k))
  (at level 100, h at next level, right associativity).

(** ** routes/messages.js: responses *)

Record FieldError := mkFieldError {
  path : string;
  msg : string
}.

Record Sender := mkSender {
  s_id : string;
  s_name : string;
  s_firstName : string;
  s_lastName : string;
  s_avatar : option string
}.

Record ServiceView := mkServiceView {
  sv_id : string;
  sv_title : string;
  sv_category : string
}.

Record ConversationView := mkConversationView {
  cv_id : string;
  cv_otherParticipant : Sender;
  cv_service : option ServiceView;
  cv_createdAt : Z
}.

Record ReplyView := mkReplyView {
  rv_id : string;
  rv_content : string;
  rv_senderName : string
}.

Record MessageView := mkMessageView {
  mv_id : string;
  mv_content : string;
  mv_messageType : string;
  mv_sender : Sender;
  mv_isFromCurrentUser : bool;
  mv_attachments : list Message.Attachment;
  mv_isRead : bool;
  mv_isEdited : bool;
  mv_replyTo : option ReplyView;
  mv_createdAt : Z;
  mv_readAt : option Z;
  mv_editedAt : option Z
}.

Record Pagination := mkPagination {
  pg_current : Z;
  pg_total : Z;
  pg_count : nat;
  pg_totalItems : nat
}.

Record SearchView := mkSearchView {
  sr_id : string;
  sr_content : string;
  sr_senderId : string;
  sr_senderName : string;
  sr_conversationId : string;
  sr_createdAt : Z
}.

Inductive Payload :=
| NoPayload
| ConversationPayload (conversation : ConversationView)
| MessagesPayload (page : list MessageView) (pagination : Pagination)
| MessageDataPayload (messageData : MessageView)
| CreatedPayload (id : string) (otherParticipant : Sender)
| UnreadCountPayload (unreadCount : Z)
| SearchPayload (found : list SearchView) (count : nat).

(** [res.status(s).json({...})]: [success] is [false] for a body with
    [error: true]; [details] is empty when the body has none. *)
Record Response := mkResponse {
  status : Z;
  success : bool;
  message : option string;
  details : list FieldError;
  payload : Payload
}.

Definition failure (code : Z) (text : string) : Response :=
  mkResponse code false (Some text) [] NoPayload.

Definition invalid (text : string) (errors : list FieldError) : Response :=
  mkResponse 400 false (Some text) errors NoPayload.

Definition conversationNotFound : Response := failure 404 "Conversation non trouvée".
Definition accessDenied : Response := failure 403 "Accès non autorisé à cette conversation".
Definition selfConversation : Response :=
  failure 400 "Vous ne pouvez pas créer une conversation avec vous-même".
Definition userNotFound : Response := failure 404 "Utilisateur non trouvé".
Definition serviceNotFound : Response := failure 404 "Service non trouvé".
Definition internalError : Response := failure 500 "Erreur interne du serveur".

(** The [try { ... } catch (error) { res.status(500)... }] around every route. *)
Definition respond (h : Handler Response) (st : Store) : Response * Store :=
  match h st with
  | (Return r, st') => (r, st')
  | (Throw _, st') => (internalError, st')
  end.

(** ** routes/messages.js: validation chains and views *)

Module Routes.

Record MessageBody := mkMessageBody {
  b_content : string;
  b_messageType : option string;
  b_attachments : option (list Message.Attachment);
  b_replyTo : option string
}.

Record ConversationBody := mkConversationBody {
  b_participantId : string;
  b_serviceId : option string;
  b_initialMessage : string
}.

(** [body(field).trim().notEmpty().withMessage(m1).isLength({ min: 1, max: 1000 }).withMessage(m2)]:
    every validator that fails adds its error. *)
Definition textErrors (field emptyMessage lengthMessage value : string) : list FieldError :=
  let v := Text.trim value in
  (if String.eqb v "" then [mkFieldError field emptyMessage] else []) ++
  (if (1 <=? String.length v)%nat && (String.length v <=? 1000)%nat then []
   else [mkFieldError field lengthMessage]).

Definition lengthMessage : string := "Le message doit contenir entre 1 et 1000 caractères".

(** [messageValidation] *)
Definition messageValidation (body : MessageBody) : list FieldError :=
  textErrors "content" "Le contenu du message est obligatoire" lengthMessage (b_content body) ++
  match b_messageType body with
  | None => []
  | Some k => if Message.inEnum Message.messageTypes k then []
              else [mkFieldError "messageType" "Type de message invalide"]
  end.

(** The chains of [POST /conversations]. *)
Definition conversationValidation (body : ConversationBody) : list FieldError :=
  (if String.eqb (b_participantId body) ""
   then [mkFieldError "participantId" "L'ID du participant est obligatoire"] else []) ++
  (if Text.isMongoId (b_participantId body) then []
   else [mkFieldError "participantId" "ID de participant invalide"]) ++
  match b_serviceId body with
  | None => []
  | Some s => if Text.isMongoId s then [] else [mkFieldError "serviceId" "ID de service invalide"]
  end ++
  textErrors "initialMessage" "Le message initial est obligatoire" lengthMessage
             (b_initialMessage body).

(** [query('page').optional().isInt({ min: 1 })] and
    [query('limit').optional().isInt({ min: 1, max: 100 })], on values
    already read as integers. *)
Definition pageValidation (page limit : option Z) : list FieldError :=
  match page with
  | Some p => if (1 <=? p)%Z then [] else [mkFieldError "page" "Invalid value"]
  | None => []
  end ++
  match limit with
  | Some l => if (1 <=? l)%Z && (l <=? 100)%Z then [] else [mkFieldError "limit" "Invalid value"]
  | None => []
  end.

(** The chains of [GET /search]. *)
Definition searchValidation (q : string) (conversation : option string) : list FieldError :=
  (if String.eqb (Text.trim q) "" then [mkFieldError "q" "Terme de recherche requis"] else []) ++
  match conversation with
  | None => []
  | Some c => if Text.isMongoId c then [] else [mkFieldError "conversationId" "ID de conversation invalide"]
  end.

Definition nullId : Exception := TypeError "Cannot read properties of null (reading '_id')".
Definition undefinedUserId : Exception :=
  TypeError "Cannot read properties of undefined (reading 'userId')".

(** A populated [senderId] (or [participants.userId]) read field by field. *)
Definition senderOf (users : list User.t) (uid name : string) : Outcome Sender :=
  match User.findById users uid with
  | Some u => Return (mkSender (User._id u) name (User.firstName u) (User.lastName u) (User.avatar u))
  | None => Throw nullId
  end.

(** [participants.find(p => p.userId._id.toString() !== req.user._id.toString())]
    on a populated document. *)
Fixpoint findOther (users : list User.t) (uid : string)
    (ps : list Conversation.Participant) : Outcome (option Conversation.Participant) :=
  match ps with
  | [] => Return None
  | p :: ps' =>
      match Conversation.populatedUser users p with
      | None => Throw nullId
      | Some profile =>
          if negb (String.eqb (User.p_id profile) uid) then Return (Some p)
          else findOther users uid ps'
      end
  end.

Definition otherParticipant (users : list User.t) (uid : string)
    (ps : list Conversation.Participant) : Outcome Sender :=
  found <- findOther users uid ps ;;
  match found with
  | None => Throw undefinedUserId
  | Some p => senderOf users (Conversation.userId p) (Conversation.userName p)
  end.

Definition serviceView (services : list Service.t) (sid : option string) : option ServiceView :=
  match sid with
  | None => None
  | Some i =>
      option_map (fun s => mkServiceView (Service._id s) (Service.title s) (Service.category s))
                 (Service.findById services i)
  end.

Definition replyView (messages : list Message.t) (m : Message.t) : option ReplyView :=
  match Message.replyTo m with
  | None => None
  | Some i =>
      option_map (fun r => mkReplyView (Message._id r) (Message.content r) (Message.senderName r))
                 (List.find (fun x => String.eqb (Message._id x) i) messages)
  end.

Definition formatMessage (users : list User.t) (messages : list Message.t)
    (requester : User.t) (m : Message.t) : Outcome MessageView :=
  sender <- senderOf users (Message.senderId m) (Message.senderName m) ;;
  Return (mkMessageView (Message._id m) (Message.content m) (Message.messageType m) sender
            (String.eqb (s_id sender) (User._id requester))
            (Message.attachments m) (Message.isRead m) (Message.isEdited m)
            (replyView messages m) (Message.createdAt m) (Message.readAt m) (Message.editedAt m)).

(** The [messageData] of [POST .../messages]: the fields the route lists,
    the others as the document holds them. *)
Definition formatSent (users : list User.t) (m : Message.t) : Outcome MessageView :=
  sender <- senderOf users (Message.senderId m) (Message.senderName m) ;;
  Return (mkMessageView (Message._id m) (Message.content m) (Message.messageType m) sender
            true (Message.attachments m) (Message.isRead m) (Message.isEdited m)
            None (Message.createdAt m) (Message.readAt m) (Message.editedAt m)).

Definition formatFound (users : list User.t) (m : Message.t) : Outcome SearchView :=
  match User.findById users (Message.senderId m) with
  | None => Throw nullId
  | Some u =>
      Return (mkSearchView (Message._id m) (Message.content m) (User._id u)
                (User.fullName u) (Message.conversationId m) (Message.createdAt m))
  end.

Fixpoint mapOutcome {A B : Type} (f : A -> Outcome B) (l : list A) : Outcome (list B) :=
  match l with
  | [] => Return []
  | x :: l' =>
      y <- f x ;;
      ys <- mapOutcome f l' ;;
      Return (y :: ys)
  end.

(** [!conversation || !conversation.hasParticipant(req.user._id)] *)
Definition missingOrOutsider `{Platform} (found : option Conversation.doc) (uid : string)
    : Outcome (option Conversation.doc) :=
  match found with
  | None => Return None
  | Some conversation =>
      member <- Conversation.hasParticipant conversation uid ;;
      Return (if member : bool then Some conversation else None)
  end.

(** ** routes/messages.js: the routes *)

(** [GET /conversations/:conversationId] *)
Definition getConversationHandler `{Platform} (requester : User.t) (conversationId : string)
    : Handler Response :=
  st <~ getStore ;;
  match option_map (Conversation.populateParticipants (users st))
                   (Conversation.findById (conversations st) conversationId) with
  | None => ret conversationNotFound
  | Some conversation =>
      if negb (Conversation.isActive (Conversation.fields conversation))
      then ret conversationNotFound
      else
        member <~ await (Conversation.hasParticipant conversation (User._id requester)) ;;
        if negb member then ret accessDenied
        else
          let '(marked, stored) :=
            Conversation.markAsRead (User._id requester) conversation (conversations st) in
          done <~ putStore (setConversations stored st) ;;
          other <~ await (otherParticipant (users st) (User._id requester)
                            (Conversation.participants (Conversation.fields marked))) ;;
          ret (mkResponse 200 true None []
                 (ConversationPayload
                    (mkConversationView
                       (Conversation._id (Conversation.fields marked)) other
                       (serviceView (services st)
                          (Conversation.serviceId (Conversation.fields marked)))
                       (Conversation.createdAt (Conversation.fields marked)))))
  end.

Definition getConversation `{Platform} (requester : User.t) (conversationId : string)
    (st : Store) : Response * Store :=
  respond (getConversationHandler requester conversationId) st.

(** [Math.ceil(total / limit)] for [limit >= 1] *)
Definition pages (total limit : Z) : Z := ((total + limit - 1) / limit)%Z.

(** [GET /conversations/:conversationId/messages] *)
Definition getMessagesHandler `{Platform} (env : Env) (requester : User.t)
    (conversationId : string) (page limit : option Z) : Handler Response :=
  match pageValidation page limit with
  | (_ :: _) as errors => ret (invalid "Paramètres invalides" errors)
  | [] =>
      let page := default 1%Z page in
      let limit := default 50%Z limit in
      st <~ getStore ;;
      found <~ await (missingOrOutsider (Conversation.findById (conversations st) conversationId)
                        (User._id requester)) ;;
      match found with
      | None => ret conversationNotFound
      | Some conversation =>
          let skip := ((page - 1) * limit)%Z in
          let fetched := Message.getForConversation conversationId
                           (Z.to_nat limit) (Z.to_nat skip) (messages st) in
          let total := length (List.filter (Message.inConversation conversationId) (messages st)) in
          done <~ putStore (setMessages
                              (Message.markConversationAsRead (clock env 0) conversationId
                                 (User._id requester) (messages st)) st) ;;
          formatted <~ await (mapOutcome (formatMessage (users st) (messages st) requester)
                                (rev fetched)) ;;
          ret (mkResponse 200 true None []
                 (MessagesPayload formatted
                    (mkPagination page (pages (Z.of_nat total) limit) (length fetched) total)))
      end
  end.

Definition getMessages `{Platform} (env : Env) (requester : User.t)
    (conversationId : string) (page limit : option Z) (st : Store) : Response * Store :=
  respond (getMessagesHandler env requester conversationId page limit) st.

(** [POST /conversations/:conversationId/messages] *)
Definition postMessageHandler `{Platform} (env : Env) (requester : User.t)
    (conversationId : string) (body : MessageBody) : Handler Response :=
  match messageValidation body with
  | (_ :: _) as errors => ret (invalid "Données invalides" errors)
  | [] =>
      let content := Text.trim (b_content body) in
      let messageType := default "text" (b_messageType body) in
      let attachments := default [] (b_attachments body) in
      st <~ getStore ;;
      found <~ await (missingOrOutsider (Conversation.findById (conversations st) conversationId)
                        (User._id requester)) ;;
      match found with
      | None => ret conversationNotFound
      | Some conversation =>
          let message := Message.new (newId env 0) conversationId (User._id requester)
                           (User.fullName requester) content messageType attachments
                           (b_replyTo body) in
          saved <~ await (Message.save true (clock env 0) message
                            (conversations st) (messages st)) ;;
          let '(message', synced, appended) := saved in
          done <~ putStore (setMessages appended (setConversations synced st)) ;;
          updated <~ await (Conversation.updateLastMessage (clock env 1) content
                              (User._id requester) conversation synced) ;;
          done' <~ putStore (setMessages appended (setConversations (snd updated) st)) ;;
          view <~ await (formatSent (users st) message') ;;
          ret (mkResponse 201 true (Some "Message envoyé avec succès") []
                 (MessageDataPayload view))
      end
  end.

Definition postMessage `{Platform} (env : Env) (requester : User.t)
    (conversationId : string) (body : MessageBody) (st : Store) : Response * Store :=
  respond (postMessageHandler env requester conversationId body) st.

(** The lookup-or-create step of [POST /conversations]: the conversation the
    request goes on with, or the response that ends it. *)
Definition findOrCreate (env : Env) (requester : User.t) (participantId : string)
    (other : User.t) (serviceId : option string) : Handler (Response + Conversation.doc) :=
  st <~ getStore ;;
  match Conversation.findBetweenUsers (users st) (conversations st)
          (User._id requester) participantId with
  | Some conversation => ret (inr conversation)
  | None =>
      let create (title : option string) : Handler (Response + Conversation.doc) :=
        let '(conversation, stored) :=
          Conversation.createConversation (newId env 0) (clock env 0) (clock env 1)
            requester other serviceId title (conversations st) in
        done <~ putStore (setConversations stored st) ;;
        ret (inr conversation) in
      match serviceId with
      | None => create None
      | Some sid =>
          match Service.findById (services st) sid with
          | None => ret (inl serviceNotFound)
          | Some service =>
              if Service.isActive service then create (Some (Service.title service))
              else ret (inl serviceNotFound)
          end
      end
  end.

(** The rest of [POST /conversations] once the conversation is known: the
    initial message is saved and the conversation's summary updated. *)
Definition openWith `{Platform} (env : Env) (requester otherUser : User.t)
    (initialMessage : string) (conversation : Conversation.doc) : Handler Response :=
  st <~ getStore ;;
  let message := Message.new (newId env 1)
                   (Conversation._id (Conversation.fields conversation))
                   (User._id requester) (User.fullName requester)
                   initialMessage "text" [] None in
  saved <~ await (Message.save true (clock env 2) message (conversations st) (messages st)) ;;
  let '(message', synced, appended) := saved in
  done <~ putStore (setMessages appended (setConversations synced st)) ;;
  updated <~ await (Conversation.updateLastMessage (clock env 3) initialMessage
                      (User._id requester) conversation synced) ;;
  done' <~ putStore (setMessages appended (setConversations (snd updated) st)) ;;
  ret (mkResponse 201 true (Some "Conversation créée avec succès") []
         (CreatedPayload
            (Conversation._id (Conversation.fields conversation))
            (mkSender (User._id otherUser) (User.fullName otherUser)
               (User.firstName otherUser) (User.lastName otherUser)
               (User.avatar otherUser)))).

(** [POST /conversations] *)
Definition postConversationHandler `{Platform} (env : Env) (requester : User.t)
    (body : ConversationBody) : Handler Response :=
  match conversationValidation body with
  | (_ :: _) as errors => ret (invalid "Données invalides" errors)
  | [] =>
      let initialMessage := Text.trim (b_initialMessage body) in
      if String.eqb (b_participantId body) (User._id requester) then ret selfConversation
      else
        st <~ getStore ;;
        match User.findById (users st) (b_participantId body) with
        | None => ret userNotFound
        | Some otherUser =>
            if negb (User.isActive otherUser) then ret userNotFound
            else
              chosen <~ findOrCreate env requester (b_participantId body) otherUser
                          (b_serviceId body) ;;
              match chosen with
              | inl response => ret response
              | inr conversation => openWith env requester otherUser initialMessage conversation
              end
        end
  end.

Definition postConversation `{Platform} (env : Env) (requester : User.t)
    (body : ConversationBody) (st : Store) : Response * Store :=
  respond (postConversationHandler env requester body) st.

(** [PUT /conversations/:conversationId/read] *)
Definition putReadHandler `{Platform} (env : Env) (requester : User.t)
    (conversationId : string) : Handler Response :=
  st <~ getStore ;;
  found <~ await (missingOrOutsider (Conversation.findById (conversations st) conversationId)
                    (User._id requester)) ;;
  match found with
  | None => ret conversationNotFound
  | Some conversation =>
      let '(marked, stored) :=
        Conversation.markAsRead (User._id requester) conversation (conversations st) in
      done <~ putStore (setConversations stored st) ;;
      done' <~ putStore (setMessages
                           (Message.markConversationAsRead (clock env 0) conversationId
                              (User._id requester) (messages st))
                           (setConversations stored st)) ;;
      ret (mkResponse 200 true (Some "Conversation marquée comme lue") [] NoPayload)
  end.

Definition putRead `{Platform} (env : Env) (requester : User.t)
    (conversationId : string) (st : Store) : Response * Store :=
  respond (putReadHandler env requester conversationId) st.

(** [GET /unread-count] *)
Definition getUnreadCountHandler (requester : User.t) : Handler Response :=
  st <~ getStore ;;
  let result := Message.getUnreadCount (User._id requester) (conversations st) (messages st) in
  let unreadCount := match result with
                     | totalUnread :: _ => totalUnread
                     | [] => 0%Z
                     end in
  ret (mkResponse 200 true None [] (UnreadCountPayload unreadCount)).

Definition getUnreadCount (requester : User.t) (st : Store) : Response * Store :=
  respond (getUnreadCountHandler requester) st.

(** The query of the second branch of [GET /search]: every active
    conversation of the user, twenty results at most. *)
Definition searchEverywhere `{Platform} (uid q : string) (st : Store) : list Message.t :=
  let mine := List.filter (fun c => Conversation.hasUserId uid c && Conversation.isActive c)
                          (conversations st) in
  let conversationIds := List.map Conversation._id mine in
  firstn 20 (Message.sortNewestFirst
               (List.filter (fun m => existsb (String.eqb (Message.conversationId m)) conversationIds
                                      && regexTest q (Message.content m))
                            (messages st))).

(** [GET /search] *)
Definition getSearchHandler `{Platform} (requester : User.t) (q : string)
    (conversationId : option string) : Handler Response :=
  match searchValidation q conversationId with
  | (_ :: _) as errors => ret (invalid "Paramètres invalides" errors)
  | [] =>
      let q := Text.trim q in
      st <~ getStore ;;
      let answer (found : list Message.t) : Handler Response :=
        formatted <~ await (mapOutcome (formatFound (users st)) found) ;;
        ret (mkResponse 200 true None [] (SearchPayload formatted (length found))) in
      match conversationId with
      | Some cid =>
          known <~ await (missingOrOutsider (Conversation.findById (conversations st) cid)
                            (User._id requester)) ;;
          match known with
          | None => ret conversationNotFound
          | Some conversation => answer (Message.searchInConversation cid q (messages st))
          end
      | None => answer (searchEverywhere (User._id requester) q st)
      end
  end.

Definition getSearch `{Platform} (requester : User.t) (q : string)
    (conversationId : option string) (st : Store) : Response * Store :=
  respond (getSearchHandler requester q conversationId) st.

End Routes.


(** ** models/Conversation.js: [getForUser]; routes/messages.js: [GET /conversations]

    The listing sorts the conversations by the [updatedAt] stamp that the
    [timestamps] option keeps.  The stamps are not part of [Conversation.t];
    the listing takes them as an input, [updatedAt i] being the stamp of the
    stored conversation whose identifier is [i]. *)

Module Listing.

(** [.sort({ updatedAt: -1 })]: latest first, equal stamps in collection order. *)
Fixpoint insertLatestFirst (updatedAt : string -> Z) (c : Conversation.t)
    (l : list Conversation.t) : list Conversation.t :=
  match l with
  | [] => [c]
  | x :: l' =>
      if (updatedAt (Conversation._id x) <=? updatedAt (Conversation._id c))%Z then c :: l
      else x :: insertLatestFirst updatedAt c l'
  end.

Definition sortLatestFirst (updatedAt : string -> Z) (l : list Conversation.t)
    : list Conversation.t :=
  fold_right (insertLatestFirst updatedAt) [] l.

(** The filter of [getForUser]: [{ 'participants.userId': userId, isActive: true }]. *)
Definition ofUser (userId : string) (c : Conversation.t) : bool :=
  Conversation.hasUserId userId c && Conversation.isActive c.

(** [conversationSchema.statics.getForUser] (the populated service is
    resolved where the route reads it). *)
Definition getForUser (updatedAt : string -> Z) (users : list User.t)
    (conversations : list Conversation.t) (userId : string) : list Conversation.doc :=
  List.map (fun c => Conversation.mkDoc c (Some users))
           (sortLatestFirst updatedAt (List.filter (ofUser userId) conversations)).

Record Summary := mkSummary {
  sm_content : string;
  sm_timestamp : Z;
  sm_isFromCurrentUser : bool
}.

Record Entry := mkEntry {
  e_id : string;
  e_otherParticipant : Sender;
  e_service : option ServiceView;
  e_lastMessage : Summary;
  e_unreadCount : Z;
  e_updatedAt : Z
}.

(** The callback of [conversations.map]. *)
Definition formatConversation (updatedAt : string -> Z) (requester : User.t) (st : Store)
    (conv : Conversation.doc) : Outcome Entry :=
  let c := Conversation.fields conv in
  otherParticipant <- Routes.otherParticipant (users st) (User._id requester)
                        (Conversation.participants c) ;;
  Return (mkEntry (Conversation._id c) otherParticipant
            (Routes.serviceView (services st) (Conversation.serviceId c))
            (mkSummary (Conversation.content (Conversation.lastMessage c))
               (Conversation.timestamp (Conversation.lastMessage c))
               (match Conversation.senderId (Conversation.lastMessage c) with
                | Some sender => String.eqb sender (User._id requester)
                | None => false
                end))
            (default 0%Z (Conversation.unreadCount c !! User._id requester))
            (updatedAt (Conversation._id c))).

(** What the route sends: [{ success: true, conversations }] with status
    200, or the answer of its [catch]. *)
Inductive Answer :=
| Listed (conversations : list Entry)
| Failed (response : Response).

(** [GET /conversations]; it reads the collections and writes nothing. *)
Definition getConversations (updatedAt : string -> Z) (requester : User.t) (st : Store) : Answer :=
  match Routes.mapOutcome (formatConversation updatedAt requester st)
          (getForUser updatedAt (users st) (conversations st) (User._id requester)) with
  | Return formattedConversations => Listed formattedConversations
  | Throw _ => Failed internalError
  end.

End Listing.

(** ** middleware/auth.js: [authenticateToken]

    [jwt.verify] is the library's: it gives back the payload of a token it
    accepts, which carries the user identifier [generateToken] signed, or
    throws an error with a [name]. *)

Module Auth.

Inductive Verdict :=
| Decoded (userId : string)
| Thrown (name : string).

Class Tokens := {
  (** [jwt.verify(token, JWT_SECRET)] *)
  verify : string -> Verdict
}.

(** [String.prototype.split] with a separator of one character. *)
Fixpoint split (separator : ascii) (s : string) : list string :=
  match s with
  | EmptyString => [EmptyString]
  | String c s' =>
      if Ascii.eqb c separator then EmptyString :: split separator s'
      else
        match split separator s' with
        | piece :: pieces => String c piece :: pieces
        | [] => [String c EmptyString]
        end
  end.

(** [authHeader && authHeader.split(' ')[1]], when it is truthy. *)
Definition token (authorization : option string) : option string :=
  match authorization with
  | None => None
  | Some EmptyString => None
  | Some authHeader =>
      match nth_error (split " "%char authHeader) 1 with
      | Some EmptyString => None
      | piece => piece
      end
  end.

(** The middleware either calls [next()] with [req.user] set, or answers. *)
Inductive Decision :=
| Next (user : User.t)
| Answered (response : Response).

Definition accessTokenRequired : Response := failure 401 "Token d'accès requis".
Definition unknownUser : Response := failure 401 "Utilisateur non trouvé".
Definition accountDisabled : Response := failure 401 "Compte désactivé".
Definition invalidToken : Response := failure 401 "Token invalide".
Definition expiredToken : Response := failure 401 "Token expiré".

(** [authenticateToken] *)
Definition authenticateToken `{Tokens} (authorization : option string) (users : list User.t)
    : Decision :=
  match token authorization with
  | None => Answered accessTokenRequired
  | Some t =>
      match verify t with
      | Decoded userId =>
          match User.findById users userId with
          | None => Answered unknownUser
          | Some user =>
              if negb (User.isActive user) then Answered accountDisabled else Next user
          end
      | Thrown name =>
          if String.eqb name "JsonWebTokenError" then Answered invalidToken
          else if String.eqb name "TokenExpiredError" then Answered expiredToken
          else Answered internalError
      end
  end.

(** [router.METHOD(path, authenticateToken, handler)]: the handler runs
    when the middleware calls [next()]. *)
Definition guarded `{Tokens} (authorization : option string)
    (handler : User.t -> Store -> Response * Store) (st : Store) : Response * Store :=
  match authenticateToken authorization (users st) with
  | Next user => handler user st
  | Answered response => (response, st)
  end.

End Auth.
(** * Statements: well-formedness, reachability and sample data *)

(** The counters after the [forEach] of [updateLastMessage] on a document
    whose participants are plain identifiers. *)
Fixpoint bumps (sender : string) (keys : list string) (counts : gmap string Z) : gmap string Z :=
  match keys with
  | [] => counts
  | k :: ks =>
      if negb (String.eqb k sender)
      then bumps sender ks (<[k := (default 0%Z (counts !! k) + 1)%Z]> counts)
      else bumps sender ks counts
  end.

(** A stored conversation, by identifier. *)
Definition stored (st : Store) (cid : string) : option Conversation.t :=
  List.find (fun c => String.eqb (Conversation._id c) cid) (conversations st).

Definition participantIds (c : Conversation.t) : list string :=
  List.map Conversation.userId (Conversation.participants c).

(** The message [POST .../messages] builds, and the one it stores. *)
Definition drafted (env : Env) (requester : User.t) (cid : string)
    (body : Routes.MessageBody) : Message.t :=
  Message.new (newId env 0) cid (User._id requester) (User.fullName requester)
    (Text.trim (Routes.b_content body))
    (default "text" (Routes.b_messageType body))
    (default [] (Routes.b_attachments body))
    (Routes.b_replyTo body).

Definition composed (env : Env) (requester : User.t) (cid : string)
    (body : Routes.MessageBody) : Message.t :=
  Message.setCreatedAt (clock env 0) (drafted env requester cid body).

(** What [updateLastMessage] leaves in a document loaded without [populate]. *)
Definition summarised (now : Z) (text sender : string) (c : Conversation.t) : Conversation.t :=
  Conversation.setUnreadCount
    (bumps sender (participantIds c) (Conversation.unreadCount c))
    (Conversation.setLastMessage
       (Conversation.mkLastMessage (Text.substring0 100 text) (Some sender) now) c).

(** The store after a message went through [POST .../messages]. *)
Definition afterSend (env : Env) (requester : User.t) (cid : string)
    (body : Routes.MessageBody) (c : Conversation.t) (st : Store) : Store :=
  setMessages (messages st ++ [composed env requester cid body])
    (setConversations
       (Conversation.save [Conversation.LastMessagePath; Conversation.UnreadCountPath]
          (Conversation.mkDoc
             (summarised (clock env 1) (Text.trim (Routes.b_content body))
                (User._id requester) c) None)
          (Message.postSave (composed env requester cid body) (conversations st)))
       st).

(** ** Sample data *)

(** A rendering of a populated user document in the manner of Node's
    [util.inspect]. *)
Definition inspectProfile (p : User.Profile) : string :=
  "{ _id: new ObjectId('" +:+ User.p_id p +:+ "'), firstName: '" +:+ User.p_firstName p
  +:+ "', lastName: '" +:+ User.p_lastName p +:+ "' }".

(** A matcher for the patterns made of ordinary characters and of [.],
    which stands for any character but a line feed; letter case is ignored
    and the match may start anywhere. *)
Fixpoint dotPrefix (pattern text : string) : bool :=
  match pattern, text with
  | EmptyString, _ => true
  | String _ _, EmptyString => false
  | String a pattern', String b text' =>
      (if Ascii.eqb a "."%char then negb (Ascii.eqb b "010"%char) else Text.eqCI a b)
      && dotPrefix pattern' text'
  end.

Fixpoint dotSearch (pattern text : string) : bool :=
  dotPrefix pattern text ||
  match text with
  | EmptyString => false
  | String _ text' => dotSearch pattern text'
  end.

#[export] Instance samplePlatform : Platform :=
  {| docString := inspectProfile; regexTest := dotSearch |}.

Definition alice : User.t := User.mk "a11ce0000000000000000001" "Alice" "Martin" None true.
Definition bob : User.t := User.mk "b0b000000000000000000002" "Bob" "Durand" None true.
Definition carol : User.t := User.mk "ca501000000000000000003c" "Carol" "Petit" None true.

Definition talkId : string := "c0ffee000000000000000010".

(** Alice and Bob share one conversation; Carol is a stranger to it. *)
Definition talk : Conversation.t :=
  Conversation.mk talkId
    [ Conversation.mkParticipant (User._id alice) "Alice Martin";
      Conversation.mkParticipant (User._id bob) "Bob Durand" ]
    None None (Conversation.mkLastMessage "" None 10) true
    (<[User._id bob := 0%Z]> (<[User._id alice := 0%Z]> ∅)) 10.

Definition sampleStore : Store := mkStore [alice; bob; carol] [] [talk] [].

Definition sampleEnv : Env :=
  mkEnv (fun k => if (k =? 0)%nat then "000000000000000000000e00" else "000000000000000000000e01")
        (fun k => (100 + Z.of_nat k)%Z).

Definition bonjour : Routes.MessageBody := Routes.mkMessageBody "  Bonjour " None None None.

(** The store after [PUT /conversations/:conversationId/read]. *)
Definition afterRead (env : Env) (requester : User.t) (cid : string)
    (c : Conversation.t) (st : Store) : Store :=
  setMessages
    (Message.markConversationAsRead (clock env 0) cid (User._id requester) (messages st))
    (setConversations
       (Conversation.save [Conversation.UnreadCountPath]
          (Conversation.mkDoc
             (Conversation.setUnreadCount
                (<[User._id requester := 0%Z]> (Conversation.unreadCount c)) c) None)
          (conversations st))
       st).

Definition markedRead : Response :=
  mkResponse 200 true (Some "Conversation marquée comme lue") [] NoPayload.

(** [populate] finds a user for every participant of [c]. *)
Definition resolves (us : list User.t) (c : Conversation.t) : Prop :=
  Forall (fun p => User.findById us (Conversation.userId p) <> None)
         (Conversation.participants c).

(** What is assumed of Mongoose's printing of a populated document when it
    is compared with the identifier [uid]: the two texts agree only if the
    document is the user [uid].  It holds if the document prints as its
    identifier, and also if it never prints as an identifier at all. *)
Definition printsOwnId `{Platform} (uid : string) : Prop :=
  forall profile : User.Profile, docString profile = uid -> User.p_id profile = uid.

(** The length of a text once trimmed lies in [1,1000]. *)
Definition lengthInRange (text : string) : Prop :=
  (1 <= String.length (Text.trim text) <= 1000)%nat.

(** ** The life of the collections *)

(** The requests of [routes/messages.js]. *)
Inductive Request :=
| GetConversation (cid : string)
| GetMessages (cid : string) (page limit : option Z)
| PostMessage (cid : string) (body : Routes.MessageBody)
| PostConversation (body : Routes.ConversationBody)
| PutRead (cid : string)
| GetUnreadCount
| GetSearch (q : string) (cid : option string).

Definition serve `{Platform} (env : Env) (requester : User.t) (r : Request) (st : Store)
    : Response * Store :=
  match r with
  | GetConversation cid => Routes.getConversation requester cid st
  | GetMessages cid page limit => Routes.getMessages env requester cid page limit st
  | PostMessage cid body => Routes.postMessage env requester cid body st
  | PostConversation body => Routes.postConversation env requester body st
  | PutRead cid => Routes.putRead env requester cid st
  | GetUnreadCount => Routes.getUnreadCount requester st
  | GetSearch q cid => Routes.getSearch requester q cid st
  end.

(** The database together with the latest reading of the clock. *)
Record World := mkWorld {
  db : Store;
  time : Z
}.

(** The clock of a request does not run backwards. *)
Definition ticking (now : Z) (env : Env) : Prop :=
  (now <= clock env 0)%Z /\ forall k, (clock env k <= clock env (S k))%Z.

(** The identifier generated for a new conversation is not in use. *)
Definition freshConversation (env : Env) (st : Store) : Prop :=
  ~ In (newId env 0) (List.map Conversation._id (conversations st)).

(** One request served, or a change made by the account and listing
    routes, which write to the users and services only. *)
Inductive step `{Platform} : World -> World -> Prop :=
| step_serve (env : Env) (requester : User.t) (r : Request) (w : World) :
    ticking (time w) env -> freshConversation env (db w) ->
    step w (mkWorld (snd (serve env requester r (db w))) (clock env 4))
| step_directory (us : list User.t) (ss : list Service.t) (w : World) :
    step w (mkWorld (mkStore us ss (conversations (db w)) (messages (db w))) (time w)).

(** The worlds the routes lead to from empty conversation and message
    collections. *)
Inductive reachable `{Platform} : World -> Prop :=
| reachable_start (us : list User.t) (ss : list Service.t) (t : Z) :
    reachable (mkWorld (mkStore us ss [] []) t)
| reachable_step (w w' : World) : reachable w -> step w w' -> reachable w'.

Definition countersCover (c : Conversation.t) : Prop :=
  forall uid, In uid (participantIds c) -> is_Some (Conversation.unreadCount c !! uid).

Definition nonNegative (counts : gmap string Z) : Prop :=
  forall uid n, counts !! uid = Some n -> (0 <= n)%Z.

(** Exactly two participants, and a non-negative counter for each. *)
Definition wellFormed (c : Conversation.t) : Prop :=
  length (Conversation.participants c) = 2%nat /\
  countersCover c /\
  nonNegative (Conversation.unreadCount c).

Definition lastTimestamp (c : Conversation.t) : Z :=
  Conversation.timestamp (Conversation.lastMessage c).

Definition wellFormedAt (now : Z) (c : Conversation.t) : Prop :=
  wellFormed c /\ (lastTimestamp c <= now)%Z.

Definition sound (now : Z) (cs : list Conversation.t) : Prop :=
  NoDup (List.map Conversation._id cs) /\ Forall (wellFormedAt now) cs.

Definition lookupConversation (cs : list Conversation.t) (cid : string) : option Conversation.t :=
  List.find (fun c => String.eqb (Conversation._id c) cid) cs.

(** Every conversation of [cs] is still in [cs'], with the same
    participants and a timestamp that is not older. *)
Definition grows (cs cs' : list Conversation.t) : Prop :=
  forall cid c, lookupConversation cs cid = Some c ->
    exists c', lookupConversation cs' cid = Some c' /\
               Conversation.participants c' = Conversation.participants c /\
               (lastTimestamp c <= lastTimestamp c')%Z.

(** From collections sound at [now], [cs'] is sound at [now'] and grows [cs]. *)
Definition leads (now now' : Z) (cs cs' : list Conversation.t) : Prop :=
  sound now cs -> sound now' cs' /\ grows cs cs'.

(** The content of a stored message is trimmed and 1 to 1000 characters long. *)
Definition contentOk (m : Message.t) : Prop :=
  Text.trim (Message.content m) = Message.content m /\
  (1 <= String.length (Message.content m) <= 1000)%nat.

(** The stored document that [save()] of [d] writes to has [d]'s participants. *)
Definition attached (cs : list Conversation.t) (d : Conversation.doc) : Prop :=
  forall c, In c cs -> Conversation._id c = Conversation._id (Conversation.fields d) ->
    Conversation.participants c = Conversation.participants (Conversation.fields d).

(** What [save()] may write: a summary stamped between [now] and [now'],
    counters that cover the document's participants and are not negative. *)
Definition writable (now now' : Z) (modified : list Conversation.Path) (d : Conversation.doc) : Prop :=
  (existsb Conversation.isLastMessagePath modified = true ->
   (now <= lastTimestamp (Conversation.fields d) <= now')%Z) /\
  (existsb Conversation.isUnreadCountPath modified = true ->
   countersCover (Conversation.fields d) /\
   nonNegative (Conversation.unreadCount (Conversation.fields d))).

(** The document and the collection [createConversation] returns in
    [POST /conversations]. *)
Definition made (env : Env) (requester other : User.t) (sid title : option string) (st : Store)
    : Conversation.doc * list Conversation.t :=
  Conversation.createConversation (newId env 0) (clock env 0) (clock env 1)
    requester other sid title (conversations st).

(** Alice opens a conversation with Bob in an empty database. *)
Definition emptyStore : Store := mkStore [alice; bob; carol] [] [] [].

Definition hello : Routes.ConversationBody :=
  Routes.mkConversationBody (User._id bob) None "Bonjour".

Definition firstContact : World :=
  mkWorld (snd (serve sampleEnv alice (PostConversation hello) emptyStore)) (clock sampleEnv 4).

(** The dates never increase along the list. *)
Fixpoint newestFirst (l : list Message.t) : Prop :=
  match l with
  | [] => True
  | m :: l' =>
      (forall x, In x l' -> (Message.createdAt x <= Message.createdAt m)%Z) /\ newestFirst l'
  end.

(** What is assumed of [$regex] for the amended search property: a pattern
    without operator characters is looked for as it is written. *)
Definition literalSearch `{Platform} : Prop :=
  forall pattern text, Text.isLiteralPattern pattern = true ->
    regexTest pattern text = Text.includesCI pattern text.

(** A message of Alice in her conversation with Bob. *)
Definition note : Message.t :=
  Message.mk "000000000000000000000a01" talkId (User._id alice) "Alice Martin" "abc" "text"
    [] false None false None None 50.

(** The conversation of Alice and Bob after two messages: "Bonjour" from
    Alice at 102, then "Salut" from Bob at 203. *)
Definition bonjourMessage : Message.t :=
  Message.mk "000000000000000000000e01" talkId (User._id alice) "Alice Martin" "Bonjour" "text"
    [] false None false None None 102.

Definition salutMessage : Message.t :=
  Message.mk "000000000000000000000f01" talkId (User._id bob) "Bob Durand" "Salut" "text"
    [] false None false None None 203.

Definition chatTalk : Conversation.t :=
  Conversation.mk talkId
    [ Conversation.mkParticipant (User._id alice) "Alice Martin";
      Conversation.mkParticipant (User._id bob) "Bob Durand" ]
    None None (Conversation.mkLastMessage "Salut" (Some (User._id bob)) 204) true
    (<[User._id bob := 1%Z]> (<[User._id alice := 1%Z]> ∅)) 101.

Definition chat : Store :=
  mkStore [alice; bob; carol] [] [chatTalk] [bonjourMessage; salutMessage].

Definition sumCounts (groups : list (string * Z)) : Z :=
  fold_right (fun g acc => (snd g + acc)%Z) 0%Z groups.

(** The answer of [GET /unread-count]. *)
Definition unreadTotal (n : Z) : Response :=
  mkResponse 200 true None [] (UnreadCountPayload n).

Fixpoint replicate (n : nat) (c : ascii) : string :=
  match n with
  | O => EmptyString
  | S n' => String c (replicate n' c)
  end.

(** A message of 150 characters. *)
Definition longBody : Routes.MessageBody :=
  Routes.mkMessageBody (replicate 150 "x"%char) None None None.

Definition summaryOf (cs : list Conversation.t) (cid : string) : option Conversation.LastMessage :=
  option_map Conversation.lastMessage (lookupConversation cs cid).

(** Two collections hold the same conversations, position by position:
    same identifier, same participants, same [isActive]. *)
Definition sameParties (c c' : Conversation.t) : Prop :=
  Conversation._id c' = Conversation._id c /\
  Conversation.participants c' = Conversation.participants c /\
  Conversation.isActive c' = Conversation.isActive c.

(** The filter of [findBetweenUsers]. *)
Definition between (userId1 userId2 : string) (c : Conversation.t) : bool :=
  Conversation.hasUserId userId1 c && Conversation.hasUserId userId2 c && Conversation.isActive c.

(** [populate] leaves no [null] among the participants of the document. *)
Definition ready (d : Conversation.doc) : Prop :=
  match Conversation.populated d with
  | None => True
  | Some us => resolves us (Conversation.fields d)
  end.

(** The counters accept the key under which [updateLastMessage] counts a
    message of [sender] for each participant of [d]: in a populated
    document that key is the printed document of the participant, and it is
    set unless it reads as [sender]. *)
Definition countable `{Platform} (sender : string) (d : Conversation.doc) : Prop :=
  match Conversation.populated d with
  | None => True
  | Some us =>
      Forall (fun p => forall profile, Conversation.populatedUser us p = Some profile ->
                docString profile = sender \/ Conversation.isMapKey (docString profile) = true)
             (Conversation.participants (Conversation.fields d))
  end.

(** The answer of [POST /conversations]. *)
Definition created (conversation : Conversation.t) (other : User.t) : Response :=
  mkResponse 201 true (Some "Conversation créée avec succès") []
    (CreatedPayload (Conversation._id conversation)
       (mkSender (User._id other) (User.fullName other) (User.firstName other)
          (User.lastName other) (User.avatar other))).

Definition laterEnv : Env :=
  mkEnv (fun k => if (k =? 0)%nat then "000000000000000000000f00" else "000000000000000000000f01")
        (fun k => (200 + Z.of_nat k)%Z).

Definition reply : Routes.ConversationBody :=
  Routes.mkConversationBody (User._id alice) None "Salut".

Definition toMyself : Routes.ConversationBody :=
  Routes.mkConversationBody (User._id alice) None "Bonjour".

(** * Further statements *)

(** A request of [routes/messages.js] as the server receives it, with its
    [Authorization] header. *)
Definition api `{Platform} `{Auth.Tokens} (env : Env) (authorization : option string)
    (r : Request) (st : Store) : Response * Store :=
  Auth.guarded authorization (fun user => serve env user r) st.

(** The messages of a conversation as every query of them sorts them. *)
Definition newestOf (cid : string) (ms : list Message.t) : list Message.t :=
  Message.sortNewestFirst (List.filter (Message.inConversation cid) ms).

(** The page [GET /conversations/:conversationId/messages] fetches:
    [Message.getForConversation(conversationId, limit, (page - 1) * limit)]. *)
Definition pageOf (cid : string) (limit : Z) (ms : list Message.t) (page : Z) : list Message.t :=
  Message.getForConversation cid (Z.to_nat limit) (Z.to_nat ((page - 1) * limit)) ms.

(** The number of messages of a conversation, as [countDocuments] gives it. *)
Definition totalOf (cid : string) (ms : list Message.t) : Z :=
  Z.of_nat (length (List.filter (Message.inConversation cid) ms)).

(** An identifier as a request carries it can be cast to an [ObjectId]. *)
Definition castable (reference : option string) : Prop :=
  match reference with
  | Some i => Text.isMongoId i = true
  | None => True
  end.

(** The message [POST /conversations] stores in the conversation [cid]. *)
Definition initial (env : Env) (requester : User.t) (cid text : string) : Message.t :=
  Message.setCreatedAt (clock env 2)
    (Message.new (newId env 1) cid (User._id requester) (User.fullName requester)
       text "text" [] None).

(** The store once [POST /conversations] has saved its message [m]: the
    message is appended and the hook has written the summary. *)
Definition afterInitial (m : Message.t) (st : Store) : Store :=
  setMessages (messages st ++ [m])
    (setConversations (Message.postSave m (conversations st)) st).

(** The answer of [POST /conversations/:conversationId/messages]. *)
Definition sent (view : MessageView) : Response :=
  mkResponse 201 true (Some "Message envoyé avec succès") [] (MessageDataPayload view).

(** The answer of [GET /conversations/:conversationId]. *)
Definition opened (c : Conversation.t) (other : Sender) (service : option ServiceView) : Response :=
  mkResponse 200 true None []
    (ConversationPayload
       (mkConversationView (Conversation._id c) other service (Conversation.createdAt c))).

(** The text of an [ObjectId]: 24 digits among [0-9a-f]. *)
Definition isLowerHex (c : ascii) : bool :=
  let n := nat_of_ascii c in
  ((48 <=? n)%nat && (n <=? 57)%nat) || ((97 <=? n)%nat && (n <=? 102)%nat).

Fixpoint allLowerHex (s : string) : bool :=
  match s with
  | EmptyString => true
  | String c s' => isLowerHex c && allLowerHex s'
  end.

Definition canonicalId (s : string) : bool :=
  (String.length s =? 24)%nat && allLowerHex s.

(** ** What the routes keep true of the two collections *)

(** The message belongs to a stored conversation, and its sender is a
    participant of that conversation. *)
Definition linked (cs : list Conversation.t) (m : Message.t) : Prop :=
  exists c, In c cs /\ Conversation._id c = Message.conversationId m /\
            In (Message.senderId m) (participantIds c).

(** An active conversation with two participant entries. *)
Definition pairOf (c : Conversation.t) : Prop :=
  Conversation.isActive c = true /\ exists a b, participantIds c = [a; b].

(** No two stored conversations join the same two different users. *)
Definition onePerPair (cs : list Conversation.t) : Prop :=
  forall c1 c2 a b, In c1 cs -> In c2 cs -> a <> b ->
    In a (participantIds c1) -> In b (participantIds c1) ->
    In a (participantIds c2) -> In b (participantIds c2) ->
    Conversation._id c1 = Conversation._id c2.

Definition tidy (cs : list Conversation.t) (ms : list Message.t) : Prop :=
  Forall pairOf cs /\ onePerPair cs /\ Forall (linked cs) ms.

(** A conversation of two users whom none of [cs] joins. *)
Definition startsBetween (cs : list Conversation.t) (c : Conversation.t) : Prop :=
  Conversation.isActive c = true /\
  exists a b, participantIds c = [a; b] /\ List.find (between a b) cs = None.

(** Two states of a message: same conversation, same sender. *)
Definition sameThread (m m' : Message.t) : Prop :=
  Message.conversationId m' = Message.conversationId m /\
  Message.senderId m' = Message.senderId m.

(** The filter of [removeParticipant] on plain identifiers. *)
Definition withoutUser (uid : string) (ps : list Conversation.Participant)
    : list Conversation.Participant :=
  List.filter (fun p => negb (String.eqb (Conversation.userId p) uid)) ps.

(** The stamps never increase along the list. *)
Fixpoint latestFirst (updatedAt : string -> Z) (l : list Conversation.t) : Prop :=
  match l with
  | [] => True
  | c :: l' =>
      (forall x, In x l' ->
         (updatedAt (Conversation._id x) <= updatedAt (Conversation._id c))%Z) /\
      latestFirst updatedAt l'
  end.

(** The entry of the listing shows the conversation to the user [uid]. *)
Definition shows (updatedAt : string -> Z) (uid : string) (c : Conversation.t)
    (entry : Listing.Entry) : Prop :=
  Listing.e_id entry = Conversation._id c /\
  s_id (Listing.e_otherParticipant entry) <> uid /\
  In (s_id (Listing.e_otherParticipant entry)) (participantIds c) /\
  Listing.e_unreadCount entry = default 0%Z (Conversation.unreadCount c !! uid) /\
  Listing.sm_content (Listing.e_lastMessage entry)
  = Conversation.content (Conversation.lastMessage c) /\
  (Listing.sm_isFromCurrentUser (Listing.e_lastMessage entry) = true <->
   Conversation.senderId (Conversation.lastMessage c) = Some uid) /\
  Listing.e_updatedAt entry = updatedAt (Conversation._id c).

(** The text has no space in it. *)
Fixpoint spaceless (s : string) : bool :=
  match s with
  | EmptyString => true
  | String c s' => negb (Ascii.eqb c " "%char) && spaceless s'
  end.

(** ** Further sample data *)

(** A message with an attachment of a type the schema does not list. *)
Definition withVideo : Routes.MessageBody :=
  Routes.mkMessageBody "Regarde"
    None (Some [Message.mkAttachment (Some "video") "/uploads/a.mp4" "a.mp4" 1024]) None.

Definition strayId : string := "0000000000000000000000ff".

(** Bob writes to Alice again, naming a service that is not stored. *)
Definition aboutNothing : Routes.ConversationBody :=
  Routes.mkConversationBody (User._id alice) (Some "5e5e5e5e5e5e5e5e5e5e5e5e") "  Salut ".

(** Dave closed his account. *)
Definition dave : User.t := User.mk "da7e00000000000000000004" "Dave" "Morel" None false.


Definition withDave : Store := mkStore [alice; bob; carol; dave] [] [talk] [].

(** The conversation of Alice and Bob as [GET /conversations] shows it to Alice. *)
Definition chatEntry : Listing.Entry :=
  Listing.mkEntry talkId (mkSender (User._id bob) "Bob Durand" "Bob" "Durand" None) None
    (Listing.mkSummary "Salut" 204 false) 1 0.

(** Bob is no longer a stored user. *)
Definition withoutBob : Store := mkStore [alice; carol] [] [chatTalk] [bonjourMessage; salutMessage].

(** A verifier that knows three tokens. *)
Definition sampleTokens : Auth.Tokens :=
  {| Auth.verify := fun t =>
       if String.eqb t "jeton-alice" then Auth.Decoded (User._id alice)
       else if String.eqb t "jeton-dave" then Auth.Decoded (User._id dave)
       else if String.eqb t "jeton-perime" then Auth.Thrown "TokenExpiredError"
       else Auth.Thrown "JsonWebTokenError" |}.

(** Bob answers Alice's first message by opening a conversation in his turn. *)
Definition secondContact : World :=
  mkWorld (snd (serve laterEnv bob (PostConversation reply) (db firstContact))) (clock laterEnv 4).

(** Eve's family name holds a dot. *)
Definition eve : User.t := User.mk "e5e000000000000000000005" "Eve" "St. Clair" None true.

Definition withEve : Store := mkStore [alice; bob; carol; eve] [] [] [].

Definition toEve : Routes.ConversationBody :=
  Routes.mkConversationBody (User._id eve) None "Bonjour".

(** Alice has written to Eve once. *)
Definition eveContact : Store := snd (Routes.postConversation sampleEnv alice toEve withEve).

(** The conversation of Alice and Eve, as that first call stored it. *)
Definition eveTalk : Conversation.t := hd talk (conversations eveContact).

(** The canonical text of the [ObjectId] that a text of 24 hexadecimal
    digits is cast to: its capital digits in small letters. *)
Fixpoint canonicalText (s : string) : string :=
  match s with
  | EmptyString => EmptyString
  | String c s' => String (Text.toLower c) (canonicalText s')
  end.

(** Alice names herself, the digits of her identifier in capitals. *)
Definition aloud : Routes.ConversationBody :=
  Routes.mkConversationBody "A11CE0000000000000000001" None "Bonjour".
(** * Properties *)

(** ** Text *)

Lemma trimEnd_idempotent (s : string) : Text.trimEnd (Text.trimEnd s) = Text.trimEnd s.
Proof.
  induction s as [|c s IH]; simpl; [reflexivity|].
  destruct (Text.trimEnd s) as [|c' r] eqn:E.
  - destruct (Text.isWhitespace c) eqn:W; simpl; [reflexivity|].
    rewrite W. reflexivity.
  - simpl in IH |- *. destruct (Text.trimEnd r) as [|c'' r'] eqn:E'.
    + destruct (Text.isWhitespace c') eqn:W'; [discriminate|].
      rewrite IH. reflexivity.
    + rewrite IH. reflexivity.
Qed.

Lemma trimStart_head (s : string) :
  match Text.trimStart s with
  | EmptyString => True
  | String c _ => Text.isWhitespace c = false
  end.
Proof.
  induction s as [|c s IH]; simpl; [exact I|].
  destruct (Text.isWhitespace c) eqn:W; [exact IH|exact W].
Qed.

Lemma trimStart_fixed (s : string) :
  match s with
  | EmptyString => True
  | String c _ => Text.isWhitespace c = false
  end -> Text.trimStart s = s.
Proof. destruct s as [|c s]; simpl; [reflexivity|]. intros ->. reflexivity. Qed.

Lemma trimEnd_head (s : string) :
  match s with
  | EmptyString => True
  | String c _ => Text.isWhitespace c = false
  end ->
  match Text.trimEnd s with
  | EmptyString => s = EmptyString
  | String c _ => Text.isWhitespace c = false
  end.
Proof.
  destruct s as [|c s]; simpl; [reflexivity|]. intros W.
  destruct (Text.trimEnd s); [rewrite W|]; exact W.
Qed.

Lemma trim_idempotent (s : string) : Text.trim (Text.trim s) = Text.trim s.
Proof.
  unfold Text.trim.
  pose proof (trimEnd_head _ (trimStart_head s)) as Hh.
  rewrite (trimStart_fixed (Text.trimEnd (Text.trimStart s))).
  - apply trimEnd_idempotent.
  - destruct (Text.trimEnd (Text.trimStart s)); [exact I|exact Hh].
Qed.

Lemma substring0_length (n : nat) (s : string) :
  String.length (Text.substring0 n s) = Nat.min n (String.length s).
Proof.
  unfold Text.substring0. revert n.
  induction s as [|c s IH]; intros [|n]; simpl; try reflexivity.
  rewrite IH. reflexivity.
Qed.

Lemma substring0_short (n : nat) (s : string) :
  (String.length s <= n)%nat -> Text.substring0 n s = s.
Proof.
  unfold Text.substring0. revert n.
  induction s as [|c s IH]; intros [|n] Hle; simpl in *; try reflexivity; try lia.
  rewrite IH by lia. reflexivity.
Qed.

(** ** Collections *)

Lemma find_updateFirst {A : Type} (test : A -> bool) (f : A -> A) (l : list A) :
  (forall x, test (f x) = test x) ->
  List.find test (updateFirst test f l) = option_map f (List.find test l).
Proof.
  intros Hf. induction l as [|x l IH]; simpl; [reflexivity|].
  destruct (test x) eqn:E; simpl.
  - rewrite Hf, E. reflexivity.
  - rewrite E. exact IH.
Qed.

Lemma updateFirst_length {A : Type} (test : A -> bool) (f : A -> A) (l : list A) :
  length (updateFirst test f l) = length l.
Proof.
  induction l as [|x l IH]; simpl; [reflexivity|].
  destruct (test x); simpl; congruence.
Qed.

Lemma updateFirst_Forall {A : Type} (P : A -> Prop) (test : A -> bool) (f : A -> A) (l : list A) :
  (forall x, P x -> P (f x)) -> Forall P l -> Forall P (updateFirst test f l).
Proof.
  intros Hf. induction 1 as [|x l Hx Hl IH]; simpl; [constructor|].
  destruct (test x); constructor; auto.
Qed.

Lemma updateFirst_map {A B : Type} (g : A -> B) (test : A -> bool) (f : A -> A) (l : list A) :
  (forall x, g (f x) = g x) -> List.map g (updateFirst test f l) = List.map g l.
Proof.
  intros Hf. induction l as [|x l IH]; simpl; [reflexivity|].
  destruct (test x); simpl; rewrite ?Hf, ?IH; reflexivity.
Qed.

(** ** Documents whose participants are plain identifiers *)

Section Plain.
Context `{Platform}.

Lemma hasParticipant_plain (c : Conversation.t) (uid : string) :
  Conversation.hasParticipant (Conversation.mkDoc c None) uid
  = Return (Conversation.hasUserId uid c).
Proof.
  unfold Conversation.hasParticipant, Conversation.hasUserId. simpl.
  induction (Conversation.participants c) as [|p ps IH]; simpl; [reflexivity|].
  unfold Conversation.sameUser at 1. simpl.
  destruct (String.eqb (Conversation.userId p) uid); simpl; [reflexivity|exact IH].
Qed.

Lemma bumpUnread_plain (c : Conversation.t) (sender : string)
    (ps : list Conversation.Participant) (counts : gmap string Z) :
  Conversation.bumpUnread (Conversation.mkDoc c None) sender ps counts
  = Return (bumps sender (List.map Conversation.userId ps) counts).
Proof.
  revert counts. induction ps as [|p ps IH]; intros counts; simpl; [reflexivity|].
  destruct (negb (String.eqb (Conversation.userId p) sender)); apply IH.
Qed.

End Plain.

Lemma bumps_absent (sender : string) (keys : list string) (counts : gmap string Z) (k : string) :
  ~ In k keys -> bumps sender keys counts !! k = counts !! k.
Proof.
  revert counts. induction keys as [|k' ks IH]; intros counts Hk; simpl; [reflexivity|].
  assert (k' <> k) by (intros ->; apply Hk; left; reflexivity).
  assert (~ In k ks) by (intros Hin; apply Hk; right; exact Hin).
  destruct (negb (String.eqb k' sender)); rewrite IH by assumption; [|reflexivity].
  apply lookup_insert_ne. assumption.
Qed.

Lemma bumps_sender (sender : string) (keys : list string) (counts : gmap string Z) :
  bumps sender keys counts !! sender = counts !! sender.
Proof.
  revert counts. induction keys as [|k ks IH]; intros counts; simpl; [reflexivity|].
  destruct (String.eqb k sender) eqn:E; simpl; rewrite IH; [reflexivity|].
  apply lookup_insert_ne. intros ->. rewrite String.eqb_refl in E. discriminate.
Qed.

Lemma bumps_recipient (sender : string) (keys : list string) (counts : gmap string Z) (k : string) :
  NoDup keys -> In k keys -> k <> sender ->
  bumps sender keys counts !! k = Some (default 0%Z (counts !! k) + 1)%Z.
Proof.
  intros Hnd. revert counts. induction Hnd as [|k' ks Hk' Hnd IH]; intros counts Hin Hne.
  - destruct Hin.
  - simpl. destruct Hin as [->|Hin].
    + apply String.eqb_neq in Hne. rewrite Hne. simpl.
      rewrite bumps_absent by exact Hk'.
      apply lookup_insert_eq.
    + assert (k' <> k) by (intros ->; apply Hk'; exact Hin).
      destruct (negb (String.eqb k' sender)); rewrite IH by assumption; [|reflexivity].
      rewrite lookup_insert_ne by assumption. reflexivity.
Qed.

(** ** The routes, case by case *)

Lemma stored_id (st : Store) (cid : string) (c : Conversation.t) :
  stored st cid = Some c -> Conversation._id c = cid.
Proof.
  unfold stored. intros Hc. apply List.find_some in Hc as [_ Hc].
  apply String.eqb_eq. exact Hc.
Qed.

Lemma findById_stored (st : Store) (cid : string) :
  Conversation.findById (conversations st) cid
  = option_map (fun c => Conversation.mkDoc c None) (stored st cid).
Proof. reflexivity. Qed.

Section RouteCases.
Context `{Platform}.

Lemma missingOrOutsider_plain (st : Store) (cid uid : string) :
  Routes.missingOrOutsider (Conversation.findById (conversations st) cid) uid
  = Return (match stored st cid with
            | Some c => if Conversation.hasUserId uid c
                        then Some (Conversation.mkDoc c None) else None
            | None => None
            end).
Proof.
  rewrite findById_stored. destruct (stored st cid) as [c|]; simpl; [|reflexivity].
  rewrite hasParticipant_plain. reflexivity.
Qed.

(** [POST .../messages], branch by branch. *)
Lemma postMessage_cases (env : Env) (requester : User.t) (cid : string)
    (body : Routes.MessageBody) (st : Store) :
  Routes.postMessage env requester cid body st =
  match Routes.messageValidation body with
  | (_ :: _) as errors => (invalid "Données invalides" errors, st)
  | [] =>
      match stored st cid with
      | None => (conversationNotFound, st)
      | Some c =>
          if Conversation.hasUserId (User._id requester) c then
            match Message.validationErrors (drafted env requester cid body) with
            | _ :: _ => (internalError, st)
            | [] =>
                match Routes.formatSent (users st) (composed env requester cid body) with
                | Return view =>
                    (mkResponse 201 true (Some "Message envoyé avec succès") []
                       (MessageDataPayload view),
                     afterSend env requester cid body c st)
                | Throw _ => (internalError, afterSend env requester cid body c st)
                end
            end
          else (conversationNotFound, st)
      end
  end.
Proof.
  unfold Routes.postMessage, respond, Routes.postMessageHandler.
  destruct (Routes.messageValidation body) as [|e errors]; [|reflexivity].
  cbn [andThen getStore]. rewrite missingOrOutsider_plain. cbn [await].
  destruct (stored st cid) as [c|]; [|reflexivity].
  destruct (Conversation.hasUserId (User._id requester) c); [|reflexivity].
  unfold Message.save. fold (drafted env requester cid body).
  destruct (Message.validationErrors (drafted env requester cid body)); [|reflexivity].
  cbn [andThen await putStore].
  unfold Conversation.updateLastMessage, Conversation.onFields.
  cbn [Conversation.fields Conversation.populated].
  rewrite bumpUnread_plain. cbn [bind andThen await putStore snd].
  fold (composed env requester cid body).
  unfold afterSend, summarised, participantIds.
  destruct (Routes.formatSent (users st) (composed env requester cid body)); reflexivity.
Qed.

End RouteCases.

Lemma stored_afterSend (env : Env) (requester : User.t) (cid : string)
    (body : Routes.MessageBody) (c : Conversation.t) (st : Store) :
  stored st cid = Some c ->
  stored (afterSend env requester cid body c st) cid
  = Some (summarised (clock env 1) (Text.trim (Routes.b_content body)) (User._id requester) c).
Proof.
  intros Hc. pose proof (stored_id _ _ _ Hc) as Hid.
  unfold stored, afterSend, Conversation.save, Message.postSave in *. simpl.
  rewrite Hid.
  rewrite find_updateFirst by (intros x; destruct x; reflexivity).
  rewrite find_updateFirst by (intros x; destruct x; reflexivity).
  rewrite Hc. simpl. destruct c; reflexivity.
Qed.

(** ** Sending a message *)

(** A message that [POST /conversations/:conversationId/messages]
    accepts (status 201) is appended to the collection; the conversation's
    [lastMessage] then holds the first 100 characters of its content, the
    sender's identifier and the reading of the clock taken by
    [updateLastMessage]; the counter of every participant other than the
    sender is its former value (0 when absent) plus one, and the sender's
    own entry is as before. *)
Theorem sent_message_updates_summary `{Platform} (env : Env) (requester : User.t)
    (cid : string) (body : Routes.MessageBody) (st st' : Store) (resp : Response)
    (c : Conversation.t) :
  stored st cid = Some c ->
  NoDup (participantIds c) ->
  Routes.postMessage env requester cid body st = (resp, st') ->
  status resp = 201%Z ->
  exists (m : Message.t) (c' : Conversation.t),
    messages st' = messages st ++ [m] /\
    Message.content m = Text.trim (Routes.b_content body) /\
    Message.senderId m = User._id requester /\
    stored st' cid = Some c' /\
    Conversation.lastMessage c'
    = Conversation.mkLastMessage (Text.substring0 100 (Message.content m))
        (Some (User._id requester)) (clock env 1) /\
    (String.length (Conversation.content (Conversation.lastMessage c')) <= 100)%nat /\
    (forall uid, In uid (participantIds c) -> uid <> User._id requester ->
       Conversation.unreadCount c' !! uid
       = Some (default 0 (Conversation.unreadCount c !! uid) + 1)%Z) /\
    Conversation.unreadCount c' !! User._id requester
    = Conversation.unreadCount c !! User._id requester.
Proof.
  intros Hc Hnd Hrun Hok.
  rewrite postMessage_cases, Hc in Hrun.
  destruct (Routes.messageValidation body); [|inversion Hrun; subst; discriminate].
  destruct (Conversation.hasUserId (User._id requester) c);
    [|inversion Hrun; subst; discriminate].
  destruct (Message.validationErrors _); [|inversion Hrun; subst; discriminate].
  destruct (Routes.formatSent _ _); inversion Hrun; subst; [clear Hok|discriminate].
  exists (composed env requester cid body),
         (summarised (clock env 1) (Text.trim (Routes.b_content body)) (User._id requester) c).
  assert (Hcontent : Message.content (composed env requester cid body)
                     = Text.trim (Routes.b_content body))
    by (simpl; apply trim_idempotent).
  repeat split.
  - exact Hcontent.
  - apply stored_afterSend. exact Hc.
  - rewrite Hcontent. reflexivity.
  - simpl. rewrite substring0_length. lia.
  - intros uid Hin Hne. simpl. apply bumps_recipient; assumption.
  - simpl. apply bumps_sender.
Qed.

Lemma sent_message_updates_summary_witness :
  stored sampleStore talkId = Some talk /\
  NoDup (participantIds talk) /\
  status (fst (Routes.postMessage sampleEnv alice talkId bonjour sampleStore)) = 201%Z /\
  exists (m : Message.t) (c' : Conversation.t),
    messages (snd (Routes.postMessage sampleEnv alice talkId bonjour sampleStore))
    = messages sampleStore ++ [m] /\
    Message.content m = Text.trim (Routes.b_content bonjour) /\
    Message.senderId m = User._id alice /\
    stored (snd (Routes.postMessage sampleEnv alice talkId bonjour sampleStore)) talkId
    = Some c' /\
    Conversation.lastMessage c'
    = Conversation.mkLastMessage (Text.substring0 100 (Message.content m))
        (Some (User._id alice)) (clock sampleEnv 1) /\
    (String.length (Conversation.content (Conversation.lastMessage c')) <= 100)%nat /\
    (forall uid, In uid (participantIds talk) -> uid <> User._id alice ->
       Conversation.unreadCount c' !! uid
       = Some (default 0 (Conversation.unreadCount talk !! uid) + 1)%Z) /\
    Conversation.unreadCount c' !! User._id alice
    = Conversation.unreadCount talk !! User._id alice.
Proof.
  assert (Hnd : NoDup (participantIds talk)).
  { repeat constructor; simpl; intuition discriminate. }
  repeat split; [exact Hnd|].
  apply (sent_message_updates_summary sampleEnv alice talkId bonjour sampleStore
           (snd (Routes.postMessage sampleEnv alice talkId bonjour sampleStore))
           (fst (Routes.postMessage sampleEnv alice talkId bonjour sampleStore)) talk).
  - reflexivity.
  - exact Hnd.
  - apply surjective_pairing.
  - reflexivity.
Defined.

(** ** Marking a conversation read *)

Lemma hasUserId_In (uid : string) (c : Conversation.t) :
  Conversation.hasUserId uid c = true <-> In uid (participantIds c).
Proof.
  unfold Conversation.hasUserId, participantIds. rewrite existsb_exists. split.
  - intros (p & Hp & Heq). apply String.eqb_eq in Heq. subst uid.
    apply in_map. exact Hp.
  - intros Hin. apply in_map_iff in Hin as (p & Heq & Hp).
    exists p. split; [exact Hp|]. apply String.eqb_eq. exact Heq.
Qed.

Lemma putRead_cases `{Platform} (env : Env) (requester : User.t) (cid : string) (st : Store) :
  Routes.putRead env requester cid st =
  match stored st cid with
  | None => (conversationNotFound, st)
  | Some c =>
      if Conversation.hasUserId (User._id requester) c
      then (markedRead, afterRead env requester cid c st)
      else (conversationNotFound, st)
  end.
Proof.
  unfold Routes.putRead, respond, Routes.putReadHandler.
  cbn [andThen getStore]. rewrite missingOrOutsider_plain. cbn [await].
  destruct (stored st cid) as [c|]; [|reflexivity].
  destruct (Conversation.hasUserId (User._id requester) c); reflexivity.
Qed.

Lemma stored_afterRead (env : Env) (requester : User.t) (cid : string)
    (c : Conversation.t) (st : Store) :
  stored st cid = Some c ->
  stored (afterRead env requester cid c st) cid
  = Some (Conversation.setUnreadCount
            (<[User._id requester := 0%Z]> (Conversation.unreadCount c)) c).
Proof.
  intros Hc. pose proof (stored_id _ _ _ Hc) as Hid.
  unfold stored, afterRead, Conversation.save in *. simpl. rewrite Hid.
  rewrite find_updateFirst by (intros x; destruct x; reflexivity).
  rewrite Hc. simpl. destruct c; reflexivity.
Qed.

Lemma markConversationAsRead_pointwise (now : Z) (cid uid : string) (ms : list Message.t) :
  Forall2 (fun m m' =>
             (Message.senderId m = uid -> m' = m) /\
             (Message.conversationId m <> cid -> m' = m) /\
             (Message.isRead m = true -> m' = m) /\
             Message.conversationId m' = Message.conversationId m /\
             Message.senderId m' = Message.senderId m)
          ms (Message.markConversationAsRead now cid uid ms).
Proof.
  induction ms as [|m ms IH]; simpl; constructor; [|exact IH].
  unfold Message.unreadFrom, Message.inConversation.
  destruct (String.eqb (Message.conversationId m) cid) eqn:Ec;
    destruct (String.eqb (Message.senderId m) uid) eqn:Es;
    destruct (Message.isRead m) eqn:Er; simpl; repeat split; try reflexivity;
    intros Hx; try discriminate;
    try (apply String.eqb_neq in Es; contradiction);
    try (apply String.eqb_eq in Ec; contradiction).
Qed.

Lemma markConversationAsRead_done (now : Z) (cid uid : string) (ms : list Message.t) (m : Message.t) :
  In m (Message.markConversationAsRead now cid uid ms) ->
  Message.conversationId m = cid -> Message.senderId m <> uid ->
  Message.isRead m = true.
Proof.
  unfold Message.markConversationAsRead. intros Hin Hc Hs.
  apply in_map_iff in Hin as (m0 & Hm & _).
  unfold Message.unreadFrom, Message.inConversation in Hm.
  destruct (String.eqb (Message.conversationId m0) cid) eqn:Ec;
    destruct (String.eqb (Message.senderId m0) uid) eqn:Es;
    destruct (Message.isRead m0) eqn:Er; simpl in Hm; subst m; simpl in *;
    try reflexivity; try assumption.
  - apply String.eqb_eq in Es. contradiction.
  - apply String.eqb_eq in Es. contradiction.
  - apply String.eqb_neq in Ec. contradiction.
Qed.

(** C3. For a participant [requester] of the conversation [cid],
    [PUT /conversations/:conversationId/read] succeeds; afterwards the
    conversation's counter for the requester is 0 and the other counters are
    as before, every message of the conversation sent by someone else is
    read, and the messages the requester sent (as those of other
    conversations and those already read) are unchanged. *)
Theorem mark_conversation_read `{Platform} (env : Env) (requester : User.t)
    (cid : string) (st st' : Store) (resp : Response) (c : Conversation.t) :
  stored st cid = Some c ->
  In (User._id requester) (participantIds c) ->
  Routes.putRead env requester cid st = (resp, st') ->
  status resp = 200%Z /\
  (exists c', stored st' cid = Some c' /\
     Conversation.unreadCount c' !! User._id requester = Some 0%Z /\
     (forall uid, uid <> User._id requester ->
        Conversation.unreadCount c' !! uid = Conversation.unreadCount c !! uid)) /\
  (forall m, In m (messages st') -> Message.conversationId m = cid ->
     Message.senderId m <> User._id requester -> Message.isRead m = true) /\
  Forall2 (fun m m' =>
             (Message.senderId m = User._id requester -> m' = m) /\
             (Message.conversationId m <> cid -> m' = m) /\
             (Message.isRead m = true -> m' = m) /\
             Message.conversationId m' = Message.conversationId m /\
             Message.senderId m' = Message.senderId m)
          (messages st) (messages st').
Proof.
  intros Hc Hin Hrun.
  rewrite putRead_cases, Hc in Hrun.
  apply hasUserId_In in Hin. rewrite Hin in Hrun.
  inversion Hrun; subst resp st'; clear Hrun.
  split; [reflexivity|]. split; [|split].
  - eexists. split; [apply stored_afterRead; exact Hc|]. simpl. split.
    + apply lookup_insert_eq.
    + intros uid Hne. apply lookup_insert_ne. congruence.
  - intros m Hm. simpl in Hm. apply markConversationAsRead_done with (1 := Hm).
  - simpl. apply markConversationAsRead_pointwise.
Qed.

(** ** Requests from outside a conversation *)

Lemma outsider_hasUserId (uid : string) (c : Conversation.t) :
  ~ In uid (participantIds c) -> Conversation.hasUserId uid c = false.
Proof.
  intros Hout. destruct (Conversation.hasUserId uid c) eqn:E; [|reflexivity].
  apply hasUserId_In in E. contradiction.
Qed.

Lemma findById_id (us : list User.t) (i : string) (u : User.t) :
  User.findById us i = Some u -> User._id u = i.
Proof.
  unfold User.findById. intros Hu. apply List.find_some in Hu as [_ Hu].
  apply String.eqb_eq. exact Hu.
Qed.

Section Outsiders.
Context `{Platform}.

Lemma hasParticipant_populated_outsider (us : list User.t) (c : Conversation.t) (uid : string) :
  printsOwnId uid -> resolves us c -> ~ In uid (participantIds c) ->
  Conversation.hasParticipant (Conversation.mkDoc c (Some us)) uid = Return false.
Proof.
  intros Hprint Hres Hout.
  unfold Conversation.hasParticipant, resolves, participantIds in *. simpl.
  induction (Conversation.participants c) as [|p ps IH]; simpl; [reflexivity|].
  inversion Hres as [|? ? Hp Hps]; subst.
  unfold Conversation.sameUser at 1, Conversation.userIdString, Conversation.populatedUser.
  simpl. destruct (User.findById us (Conversation.userId p)) as [u|] eqn:Hu; [|contradiction].
  simpl. destruct (String.eqb (docString (User.profile u)) uid) eqn:E.
  - exfalso. apply String.eqb_eq in E. apply Hprint in E. simpl in E.
    apply findById_id in Hu. apply Hout. left. simpl. congruence.
  - apply IH; [exact Hps|]. intros Hin. apply Hout. right. exact Hin.
Qed.

Lemma getConversation_outsider (requester : User.t) (cid : string) (st : Store)
    (c : Conversation.t) :
  stored st cid = Some c ->
  printsOwnId (User._id requester) -> resolves (users st) c ->
  ~ In (User._id requester) (participantIds c) ->
  Routes.getConversation requester cid st
  = (if Conversation.isActive c then accessDenied else conversationNotFound, st).
Proof.
  intros Hc Hprint Hres Hout.
  unfold Routes.getConversation, respond, Routes.getConversationHandler.
  cbn [andThen getStore]. rewrite findById_stored, Hc. simpl.
  destruct (Conversation.isActive c); simpl; [|reflexivity].
  unfold Conversation.populateParticipants. simpl.
  rewrite hasParticipant_populated_outsider by assumption. reflexivity.
Qed.

Lemma getMessages_outsider (env : Env) (requester : User.t) (cid : string)
    (page limit : option Z) (st : Store) (c : Conversation.t) :
  stored st cid = Some c ->
  Routes.pageValidation page limit = [] ->
  ~ In (User._id requester) (participantIds c) ->
  Routes.getMessages env requester cid page limit st = (conversationNotFound, st).
Proof.
  intros Hc Hv Hout.
  unfold Routes.getMessages, respond, Routes.getMessagesHandler. rewrite Hv.
  cbn [andThen getStore]. rewrite missingOrOutsider_plain, Hc.
  rewrite outsider_hasUserId by exact Hout. reflexivity.
Qed.

Lemma getSearch_outsider (requester : User.t) (q cid : string) (st : Store)
    (c : Conversation.t) :
  stored st cid = Some c ->
  Routes.searchValidation q (Some cid) = [] ->
  ~ In (User._id requester) (participantIds c) ->
  Routes.getSearch requester q (Some cid) st = (conversationNotFound, st).
Proof.
  intros Hc Hv Hout.
  unfold Routes.getSearch, respond, Routes.getSearchHandler. rewrite Hv.
  cbn [andThen getStore]. rewrite missingOrOutsider_plain, Hc.
  rewrite outsider_hasUserId by exact Hout. reflexivity.
Qed.

End Outsiders.

(** C4, as the routes behave.  For a requester who is not a participant of
    the stored conversation [cid], listing its messages, sending to it,
    marking it read and searching in it answer 404 "Conversation non
    trouvée" (once the request passes the route's field validation), while
    opening it answers 403 "Accès non autorisé à cette conversation" when
    the conversation is active and 404 when it is not.  No route changes
    the store. *)
Theorem outsider_is_refused `{Platform} (env : Env) (requester : User.t) (cid : string)
    (st : Store) (c : Conversation.t) (page limit : option Z)
    (body : Routes.MessageBody) (q : string) :
  stored st cid = Some c ->
  ~ In (User._id requester) (participantIds c) ->
  (Routes.pageValidation page limit = [] ->
   Routes.getMessages env requester cid page limit st = (conversationNotFound, st)) /\
  (Routes.messageValidation body = [] ->
   Routes.postMessage env requester cid body st = (conversationNotFound, st)) /\
  Routes.putRead env requester cid st = (conversationNotFound, st) /\
  (Routes.searchValidation q (Some cid) = [] ->
   Routes.getSearch requester q (Some cid) st = (conversationNotFound, st)) /\
  (printsOwnId (User._id requester) -> resolves (users st) c ->
   Routes.getConversation requester cid st
   = (if Conversation.isActive c then accessDenied else conversationNotFound, st)) /\
  status conversationNotFound = 404%Z /\ status accessDenied = 403%Z.
Proof.
  intros Hc Hout. repeat split.
  - intros Hv. apply getMessages_outsider with c; assumption.
  - intros Hv. rewrite postMessage_cases, Hv, Hc.
    rewrite outsider_hasUserId by exact Hout. reflexivity.
  - rewrite putRead_cases, Hc. rewrite outsider_hasUserId by exact Hout. reflexivity.
  - intros Hv. apply getSearch_outsider with c; assumption.
  - intros Hprint Hres. apply getConversation_outsider; assumption.
Qed.

(** C4 as stated fails on [GET /conversations/:conversationId]: Carol, who
    is no participant of Alice and Bob's conversation, is answered 403. *)
Lemma outsider_opening_is_forbidden :
  stored sampleStore talkId = Some talk /\
  Conversation.hasUserId (User._id carol) talk = false /\
  Routes.getConversation carol talkId sampleStore = (accessDenied, sampleStore) /\
  status accessDenied = 403%Z.
Proof. repeat split. Qed.

(** ** Field validation *)

Lemma textErrors_outOfRange (field emptyMessage tooLong value : string) :
  ~ lengthInRange value ->
  In (mkFieldError field tooLong) (Routes.textErrors field emptyMessage tooLong value).
Proof.
  unfold lengthInRange, Routes.textErrors. intros Hout. cbv zeta.
  apply in_or_app. right.
  destruct (1 <=? String.length (Text.trim value))%nat eqn:E1;
    destruct (String.length (Text.trim value) <=? 1000)%nat eqn:E2; simpl; auto.
  apply Nat.leb_le in E1. apply Nat.leb_le in E2. lia.
Qed.

Lemma textErrors_nil (field emptyMessage tooLong value : string) :
  Routes.textErrors field emptyMessage tooLong value = [] -> lengthInRange value.
Proof.
  unfold lengthInRange, Routes.textErrors. cbv zeta. intros Herr.
  apply app_eq_nil in Herr as [_ Herr].
  destruct (1 <=? String.length (Text.trim value))%nat eqn:E1;
    destruct (String.length (Text.trim value) <=? 1000)%nat eqn:E2;
    simpl in Herr; try discriminate.
  apply Nat.leb_le in E1. apply Nat.leb_le in E2. lia.
Qed.

Lemma messageValidation_outOfRange (body : Routes.MessageBody) :
  ~ lengthInRange (Routes.b_content body) ->
  In (mkFieldError "content" Routes.lengthMessage) (Routes.messageValidation body).
Proof.
  intros Hout. unfold Routes.messageValidation. apply in_or_app. left.
  apply textErrors_outOfRange. exact Hout.
Qed.

Lemma conversationValidation_outOfRange (body : Routes.ConversationBody) :
  ~ lengthInRange (Routes.b_initialMessage body) ->
  In (mkFieldError "initialMessage" Routes.lengthMessage) (Routes.conversationValidation body).
Proof.
  intros Hout. unfold Routes.conversationValidation.
  apply in_or_app. right. apply in_or_app. right. apply in_or_app. right.
  apply textErrors_outOfRange. exact Hout.
Qed.

Lemma postConversation_invalid `{Platform} (env : Env) (requester : User.t)
    (body : Routes.ConversationBody) (st : Store) :
  Routes.conversationValidation body <> [] ->
  Routes.postConversation env requester body st
  = (invalid "Données invalides" (Routes.conversationValidation body), st).
Proof.
  intros Hne. unfold Routes.postConversation, respond, Routes.postConversationHandler.
  destruct (Routes.conversationValidation body); [contradiction|reflexivity].
Qed.

Lemma postConversation_self `{Platform} (env : Env) (requester : User.t)
    (body : Routes.ConversationBody) (st : Store) :
  Routes.conversationValidation body = [] ->
  Routes.b_participantId body = User._id requester ->
  Routes.postConversation env requester body st = (selfConversation, st).
Proof.
  intros Hv Hself. unfold Routes.postConversation, respond, Routes.postConversationHandler.
  rewrite Hv, Hself, String.eqb_refl. reflexivity.
Qed.

(** [POST /conversations] with the text of the requester's own identifier
    as [participantId] answers with an error of status 400 and leaves every
    collection as it was; when the request passes the field validation the
    answer is the self-conversation refusal, "Vous ne pouvez pas créer une
    conversation avec vous-même". *)
Lemma self_conversation_refused `{Platform} (env : Env) (requester : User.t)
    (body : Routes.ConversationBody) (st : Store) :
  Routes.b_participantId body = User._id requester ->
  snd (Routes.postConversation env requester body st) = st /\
  status (fst (Routes.postConversation env requester body st)) = 400%Z /\
  success (fst (Routes.postConversation env requester body st)) = false /\
  (Routes.conversationValidation body = [] ->
   fst (Routes.postConversation env requester body st) = selfConversation).
Proof.
  intros Hself.
  destruct (Routes.conversationValidation body) as [|e errors] eqn:Hv.
  - rewrite postConversation_self by assumption. repeat split.
  - rewrite postConversation_invalid by (rewrite Hv; discriminate).
    repeat split. discriminate.
Qed.

(** ** How the conversations collection evolves *)

Lemma wellFormedAt_later (now now' : Z) (c : Conversation.t) :
  (now <= now')%Z -> wellFormedAt now c -> wellFormedAt now' c.
Proof. unfold wellFormedAt. intros Hle [Hwf Hts]. split; [exact Hwf|lia]. Qed.

Lemma sound_later (now now' : Z) (cs : list Conversation.t) :
  (now <= now')%Z -> sound now cs -> sound now' cs.
Proof.
  intros Hle [Hnd Hall]. split; [exact Hnd|].
  eapply Forall_impl; [|exact Hall]. intros c. apply wellFormedAt_later. exact Hle.
Qed.

Lemma grows_refl (cs : list Conversation.t) : grows cs cs.
Proof. intros cid c Hc. exists c. repeat split; [exact Hc|lia]. Qed.

Lemma grows_trans (cs1 cs2 cs3 : list Conversation.t) :
  grows cs1 cs2 -> grows cs2 cs3 -> grows cs1 cs3.
Proof.
  intros H12 H23 cid c Hc.
  destruct (H12 cid c Hc) as (c2 & Hc2 & Hp2 & Ht2).
  destruct (H23 cid c2 Hc2) as (c3 & Hc3 & Hp3 & Ht3).
  exists c3. repeat split; [exact Hc3|congruence|lia].
Qed.

Lemma leads_refl (now now' : Z) (cs : list Conversation.t) :
  (now <= now')%Z -> leads now now' cs cs.
Proof. intros Hle Hs. split; [eapply sound_later; eauto|apply grows_refl]. Qed.

Lemma leads_trans (t1 t2 t3 : Z) (cs1 cs2 cs3 : list Conversation.t) :
  leads t1 t2 cs1 cs2 -> leads t2 t3 cs2 cs3 -> leads t1 t3 cs1 cs3.
Proof.
  intros H12 H23 Hs. destruct (H12 Hs) as [Hs2 Hg2]. destruct (H23 Hs2) as [Hs3 Hg3].
  split; [exact Hs3|eapply grows_trans; eauto].
Qed.

Lemma leads_updateFirst (now now' : Z) (test : Conversation.t -> bool)
    (f : Conversation.t -> Conversation.t) (cs : list Conversation.t) :
  (now <= now')%Z ->
  (forall c, In c cs -> test c = true -> wellFormedAt now c ->
     wellFormedAt now' (f c) /\
     Conversation._id (f c) = Conversation._id c /\
     Conversation.participants (f c) = Conversation.participants c /\
     (lastTimestamp c <= lastTimestamp (f c))%Z) ->
  leads now now' cs (updateFirst test f cs).
Proof.
  intros Hle Hf [Hnd Hall].
  assert (Hids : List.map Conversation._id (updateFirst test f cs)
                 = List.map Conversation._id cs).
  { clear Hnd. induction cs as [|x cs IH]; simpl; [reflexivity|].
    inversion Hall; subst.
    destruct (test x) eqn:E; simpl.
    - destruct (Hf x (or_introl eq_refl) E) as (_ & Hid & _); [assumption|]. congruence.
    - rewrite IH; [reflexivity| |assumption].
      intros c Hin. apply Hf. right. exact Hin. }
  split; [split|].
  - rewrite Hids. exact Hnd.
  - clear Hnd Hids. induction cs as [|x cs IH]; simpl; [constructor|].
    inversion Hall; subst.
    destruct (test x) eqn:E; constructor.
    + apply Hf; [left; reflexivity|exact E|assumption].
    + eapply Forall_impl; [|eassumption]. intros c. apply wellFormedAt_later. exact Hle.
    + eapply wellFormedAt_later; eauto.
    + apply IH; [|assumption]. intros c Hin. apply Hf. right. exact Hin.
  - clear Hnd Hids. intros cid. unfold lookupConversation.
    induction cs as [|x cs IH]; simpl; intros c Hc; [discriminate|].
    inversion Hall; subst.
    destruct (test x) eqn:E; simpl.
    + destruct (Hf x (or_introl eq_refl) E) as (_ & Hid & Hp & Ht); [assumption|].
      rewrite Hid. destruct (String.eqb (Conversation._id x) cid).
      * inversion Hc; subst c. exists (f x). repeat split; assumption.
      * exists c. repeat split; [exact Hc|lia].
    + destruct (String.eqb (Conversation._id x) cid).
      * inversion Hc; subst c. exists x. repeat split. lia.
      * apply IH; [|assumption|exact Hc]. intros c0 Hin. apply Hf. right. exact Hin.
Qed.

Lemma leads_postSave (now now' : Z) (m : Message.t) (cs : list Conversation.t) :
  (now <= Message.createdAt m <= now')%Z ->
  leads now now' cs (Message.postSave m cs).
Proof.
  intros Hm. unfold Message.postSave. apply leads_updateFirst; [lia|].
  intros c _ _ [Hwf Hts]. unfold wellFormedAt, wellFormed, countersCover, participantIds,
    lastTimestamp in *. destruct c; simpl in *. repeat split; try tauto; lia.
Qed.

Lemma leads_save (now now' : Z) (modified : list Conversation.Path)
    (d : Conversation.doc) (cs : list Conversation.t) :
  (now <= now')%Z -> attached cs d -> writable now now' modified d ->
  leads now now' cs (Conversation.save modified d cs).
Proof.
  intros Hle Hatt [Hlm Huc]. unfold Conversation.save. apply leads_updateFirst; [exact Hle|].
  intros c Hin Hid [(Hlen & Hcov & Hnn) Hts]. apply String.eqb_eq in Hid.
  specialize (Hatt c Hin Hid).
  unfold Conversation.writeModified, wellFormedAt, wellFormed, countersCover, participantIds,
    lastTimestamp in *.
  destruct (existsb Conversation.isLastMessagePath modified);
    destruct (existsb Conversation.isUnreadCountPath modified);
    destruct c; simpl in *; subst;
    repeat match goal with
           | H : true = true -> _ |- _ => specialize (H eq_refl)
           | H : _ /\ _ |- _ => destruct H
           end;
    repeat split; auto; try lia.
Qed.

Lemma lookup_app_fresh (cs : list Conversation.t) (c : Conversation.t) (cid : string) :
  lookupConversation (cs ++ [c]) cid
  = match lookupConversation cs cid with
    | Some x => Some x
    | None => if String.eqb (Conversation._id c) cid then Some c else None
    end.
Proof.
  unfold lookupConversation. induction cs as [|x cs IH]; simpl; [reflexivity|].
  destruct (String.eqb (Conversation._id x) cid); [reflexivity|exact IH].
Qed.

Lemma leads_append (now now' : Z) (c : Conversation.t) (cs : list Conversation.t) :
  (now <= now')%Z -> ~ In (Conversation._id c) (List.map Conversation._id cs) ->
  wellFormedAt now' c ->
  leads now now' cs (cs ++ [c]).
Proof.
  intros Hle Hfresh Hc [Hnd Hall]. split; [split|].
  - rewrite List.map_app. simpl. apply NoDup_app.
    + exact Hnd.
    + repeat constructor. intros [].
    + intros x Hx [Hy|[]]. subst. contradiction.
  - apply Forall_app. split; [|constructor; [exact Hc|constructor]].
    eapply Forall_impl; [|exact Hall]. intros x. apply wellFormedAt_later. exact Hle.
  - intros cid x Hx. rewrite lookup_app_fresh, Hx. exists x. repeat split. lia.
Qed.

Lemma NoDup_map_same {A B : Type} (f : A -> B) (l : list A) (x y : A) :
  NoDup (List.map f l) -> In x l -> In y l -> f x = f y -> x = y.
Proof.
  induction l as [|a l IH]; simpl; intros Hnd Hx Hy Hf; [contradiction|].
  inversion Hnd as [|? ? Ha Hl]; subst.
  destruct Hx as [->|Hx], Hy as [->|Hy]; auto.
  - exfalso. apply Ha. rewrite Hf. apply in_map. exact Hy.
  - exfalso. apply Ha. rewrite <- Hf. apply in_map. exact Hx.
Qed.

Lemma attached_loaded (now : Z) (cs : list Conversation.t) (c : Conversation.t)
    (view : option (list User.t)) :
  sound now cs -> In c cs -> attached cs (Conversation.mkDoc c view).
Proof.
  intros [Hnd _] Hin c' Hin' Hid. simpl in *.
  rewrite (NoDup_map_same Conversation._id cs c' c Hnd Hin' Hin Hid). reflexivity.
Qed.

Lemma In_updateFirst {A : Type} (test : A -> bool) (f : A -> A) (l : list A) (y : A) :
  In y (updateFirst test f l) -> In y l \/ exists x, In x l /\ y = f x.
Proof.
  induction l as [|a l IH]; simpl; [tauto|].
  destruct (test a); simpl.
  - intros [<-|Hy]; [right; exists a; auto|left; auto].
  - intros [<-|Hy]; [left; auto|].
    destruct (IH Hy) as [Hin|(x & Hx & ->)]; [left; auto|right; exists x; auto].
Qed.

Lemma attached_updateFirst (test : Conversation.t -> bool) (f : Conversation.t -> Conversation.t)
    (cs : list Conversation.t) (d : Conversation.doc) :
  (forall c, Conversation._id (f c) = Conversation._id c /\
             Conversation.participants (f c) = Conversation.participants c) ->
  attached cs d -> attached (updateFirst test f cs) d.
Proof.
  intros Hf Hatt c Hin Hid.
  apply In_updateFirst in Hin as [Hin|(x & Hx & ->)]; [apply Hatt; assumption|].
  destruct (Hf x) as [Hi Hp]. rewrite Hp. apply Hatt; [exact Hx|congruence].
Qed.

Lemma attached_postSave (m : Message.t) (cs : list Conversation.t) (d : Conversation.doc) :
  attached cs d -> attached (Message.postSave m cs) d.
Proof.
  apply attached_updateFirst. intros c. destruct c; split; reflexivity.
Qed.

Lemma attached_same (cs : list Conversation.t) (d d' : Conversation.doc) :
  Conversation._id (Conversation.fields d') = Conversation._id (Conversation.fields d) ->
  Conversation.participants (Conversation.fields d')
  = Conversation.participants (Conversation.fields d) ->
  attached cs d -> attached cs d'.
Proof. unfold attached. intros Hi Hp Hatt c Hin Hid. rewrite Hp. apply Hatt; congruence. Qed.

Lemma save_new (now : Z) (m m' : Message.t) (cs cs' : list Conversation.t)
    (ms ms' : list Message.t) :
  Message.save true now m cs ms = Return (m', cs', ms') ->
  Message.validationErrors m = [] /\
  m' = Message.setCreatedAt now m /\
  cs' = Message.postSave m' cs /\
  ms' = ms ++ [m'].
Proof.
  unfold Message.save. destruct (Message.validationErrors m); [|discriminate].
  intros Hret. inversion Hret; subst. repeat split.
Qed.

Lemma nonNegative_insert (counts : gmap string Z) (k : string) (n : Z) :
  (0 <= n)%Z -> nonNegative counts -> nonNegative (<[k := n]> counts).
Proof.
  intros Hn Hnn uid v. destruct (decide (k = uid)) as [->|Hne].
  - rewrite lookup_insert_eq. intros Hv. inversion Hv; subst. exact Hn.
  - rewrite lookup_insert_ne by exact Hne. apply Hnn.
Qed.

Lemma is_Some_insert (counts : gmap string Z) (k uid : string) (n : Z) :
  is_Some (counts !! uid) -> is_Some (<[k := n]> counts !! uid).
Proof.
  intros Hs. destruct (decide (k = uid)) as [->|Hne].
  - rewrite lookup_insert_eq. eexists. reflexivity.
  - rewrite lookup_insert_ne by exact Hne. exact Hs.
Qed.

Lemma default_nonNegative (counts : gmap string Z) (k : string) :
  nonNegative counts -> (0 <= default 0 (counts !! k))%Z.
Proof.
  intros Hnn. destruct (counts !! k) as [n|] eqn:E; simpl; [eapply Hnn; eauto|lia].
Qed.

Lemma bumpUnread_keeps `{Platform} (d : Conversation.doc) (sender : string)
    (ps : list Conversation.Participant) (counts counts' : gmap string Z) :
  Conversation.bumpUnread d sender ps counts = Return counts' ->
  (forall uid, is_Some (counts !! uid) -> is_Some (counts' !! uid)) /\
  (nonNegative counts -> nonNegative counts').
Proof.
  revert counts. induction ps as [|p ps IH]; simpl; intros counts Hret.
  - inversion Hret; subst. auto.
  - destruct (Conversation.userIdString d p) as [key|e]; simpl in Hret; [|discriminate].
    destruct (negb (String.eqb key sender)).
    + assert (Hset : Conversation.setCount d key (default 0 (counts !! key) + 1)%Z counts
                     = Return (<[key := (default 0 (counts !! key) + 1)%Z]> counts) \/
                     exists e, Conversation.setCount d key (default 0 (counts !! key) + 1)%Z counts
                               = Throw e).
      { unfold Conversation.setCount. destruct (Conversation.populated d); [|left; reflexivity].
        destruct (Conversation.isMapKey key); [left; reflexivity|right; eexists; reflexivity]. }
      destruct Hset as [Hset|[e Hset]]; rewrite Hset in Hret; simpl in Hret; [|discriminate].
      apply IH in Hret as [Hkeep Hnn]. split.
      * intros uid Hs. apply Hkeep. apply is_Some_insert. exact Hs.
      * intros Hc. apply Hnn. apply nonNegative_insert; [|exact Hc].
        pose proof (default_nonNegative counts key Hc). lia.
    + apply IH. exact Hret.
Qed.

Lemma leads_updateLastMessage `{Platform} (now now' t : Z) (text sender : string)
    (d d' : Conversation.doc) (cs cs' : list Conversation.t) :
  Conversation.updateLastMessage t text sender d cs = Return (d', cs') ->
  (now <= t <= now')%Z -> attached cs d ->
  countersCover (Conversation.fields d) ->
  nonNegative (Conversation.unreadCount (Conversation.fields d)) ->
  leads now now' cs cs'.
Proof.
  unfold Conversation.updateLastMessage. intros Hret Ht Hatt Hcov Hnn.
  destruct (Conversation.bumpUnread _ _ _ _) as [counts|e] eqn:Hb; simpl in Hret; [|discriminate].
  inversion Hret; subst d' cs'; clear Hret.
  apply bumpUnread_keeps in Hb as [Hkeep Hnn'].
  apply leads_save; [lia| |].
  - eapply attached_same; [| |exact Hatt]; destruct d as [c v]; destruct c; reflexivity.
  - destruct d as [c v]. destruct c. unfold writable, countersCover, participantIds, lastTimestamp in *.
    simpl in *. split; intros _; [lia|]. split; [|apply Hnn'; exact Hnn].
    intros uid Hin. apply Hkeep. apply Hcov. exact Hin.
Qed.

Lemma leads_markAsRead (now now' : Z) (uid : string) (d : Conversation.doc)
    (cs : list Conversation.t) :
  (now <= now')%Z -> attached cs d ->
  countersCover (Conversation.fields d) ->
  nonNegative (Conversation.unreadCount (Conversation.fields d)) ->
  leads now now' cs (snd (Conversation.markAsRead uid d cs)).
Proof.
  intros Hle Hatt Hcov Hnn. unfold Conversation.markAsRead. simpl.
  apply leads_save; [exact Hle| |].
  - eapply attached_same; [| |exact Hatt]; destruct d as [c v]; destruct c; reflexivity.
  - destruct d as [c v]. destruct c. unfold writable, countersCover, participantIds in *.
    simpl in *. split; [discriminate|]. intros _. split.
    + intros k Hin. apply is_Some_insert. apply Hcov. exact Hin.
    + apply nonNegative_insert; [lia|exact Hnn].
Qed.

Lemma leads_createConversation (now now' : Z) (oid : string) (t0 t1 : Z) (u1 u2 : User.t)
    (service title : option string) (cs : list Conversation.t) :
  (now <= t0 <= now')%Z -> ~ In oid (List.map Conversation._id cs) ->
  leads now now' cs (snd (Conversation.createConversation oid t0 t1 u1 u2 service title cs)).
Proof.
  intros Ht Hfresh. unfold Conversation.createConversation. simpl.
  apply leads_append; [lia|exact Hfresh|].
  unfold wellFormedAt, wellFormed, countersCover, participantIds, lastTimestamp. simpl.
  repeat split; try lia.
  - intros uid [<-|[<-|[]]].
    + apply is_Some_insert. rewrite lookup_insert_eq. eexists. reflexivity.
    + rewrite lookup_insert_eq. eexists. reflexivity.
  - apply nonNegative_insert; [lia|]. apply nonNegative_insert; [lia|].
    intros uid n Hn. rewrite lookup_empty in Hn. discriminate.
Qed.

(** ** The routes keep the conversations sound *)

Lemma ticking_start (now : Z) (env : Env) (k : nat) :
  ticking now env -> (now <= clock env k)%Z.
Proof.
  intros [H0 Hs]. induction k as [|k IH]; [exact H0|]. specialize (Hs k). lia.
Qed.

Lemma ticking_mono (now : Z) (env : Env) (i j : nat) :
  ticking now env -> (i <= j)%nat -> (clock env i <= clock env j)%Z.
Proof.
  intros [_ Hs] Hij. induction Hij as [|j Hij IH]; [lia|]. specialize (Hs j). lia.
Qed.

Section Evolution.
Context `{Platform}.

Lemma getMessages_conversations (env : Env) (requester : User.t) (cid : string)
    (page limit : option Z) (st : Store) :
  conversations (snd (Routes.getMessages env requester cid page limit st)) = conversations st.
Proof.
  unfold Routes.getMessages, respond, Routes.getMessagesHandler.
  destruct (Routes.pageValidation page limit); [|reflexivity].
  cbn [andThen getStore]. rewrite missingOrOutsider_plain. cbn [await].
  destruct (stored st cid) as [c|]; [|reflexivity].
  destruct (Conversation.hasUserId (User._id requester) c); [|reflexivity].
  cbn [andThen putStore await].
  destruct (Routes.mapOutcome _ _); reflexivity.
Qed.

Lemma getSearch_store (requester : User.t) (q : string) (cid : option string) (st : Store) :
  snd (Routes.getSearch requester q cid st) = st.
Proof.
  unfold Routes.getSearch, respond, Routes.getSearchHandler.
  destruct (Routes.searchValidation q cid); [|reflexivity].
  cbn [andThen getStore]. destruct cid as [cid|].
  - rewrite missingOrOutsider_plain. cbn [await andThen].
    destruct (stored st cid) as [c|]; [|reflexivity].
    destruct (Conversation.hasUserId (User._id requester) c); [|reflexivity].
    cbn [andThen await]. destruct (Routes.mapOutcome _ _); reflexivity.
  - cbn [andThen await]. destruct (Routes.mapOutcome _ _); reflexivity.
Qed.

Lemma stored_In (st : Store) (cid : string) (c : Conversation.t) :
  stored st cid = Some c -> In c (conversations st).
Proof. unfold stored. intros Hc. apply List.find_some in Hc as [Hc _]. exact Hc. Qed.

Lemma sound_wellFormed (now : Z) (cs : list Conversation.t) (c : Conversation.t) :
  sound now cs -> In c cs -> wellFormed c.
Proof.
  intros [_ Hall] Hin. rewrite Forall_forall in Hall. apply Hall in Hin as [Hwf _]. exact Hwf.
Qed.

Lemma getConversation_leads (now now' : Z) (requester : User.t) (cid : string) (st : Store) :
  (now <= now')%Z ->
  leads now now' (conversations st) (conversations (snd (Routes.getConversation requester cid st))).
Proof.
  intros Hle.
  unfold Routes.getConversation, respond, Routes.getConversationHandler.
  cbn [andThen getStore]. rewrite findById_stored.
  destruct (stored st cid) as [c|] eqn:Hc; simpl; [|apply leads_refl; assumption].
  destruct (Conversation.isActive c); simpl; [|apply leads_refl; assumption].
  destruct (Conversation.hasParticipant _ _) as [[|]|e]; simpl; try (apply leads_refl; assumption).
  cbn [andThen await negb putStore].
  intros Hs. generalize Hs.
  assert (Hwf : wellFormed c) by (eapply sound_wellFormed; [exact Hs|eapply stored_In; eauto]).
  assert (Hgoal : leads now now' (conversations st)
            (snd (Conversation.markAsRead (User._id requester)
                    (Conversation.mkDoc c (Some (users st))) (conversations st)))).
  { apply leads_markAsRead; [exact Hle| |apply Hwf|apply Hwf].
    eapply attached_loaded; [exact Hs|eapply stored_In; eauto]. }
  destruct (Routes.otherParticipant _ _ _); exact Hgoal.
Qed.

Lemma putRead_leads (now now' : Z) (env : Env) (requester : User.t) (cid : string) (st : Store) :
  (now <= now')%Z ->
  leads now now' (conversations st) (conversations (snd (Routes.putRead env requester cid st))).
Proof.
  intros Hle. rewrite putRead_cases.
  destruct (stored st cid) as [c|] eqn:Hc; [|apply leads_refl; assumption].
  destruct (Conversation.hasUserId _ _); [|apply leads_refl; assumption].
  intros Hs. generalize Hs.
  assert (Hwf : wellFormed c) by (eapply sound_wellFormed; [exact Hs|eapply stored_In; eauto]).
  apply (leads_markAsRead now now' (User._id requester) (Conversation.mkDoc c None));
    [exact Hle| |apply Hwf|apply Hwf].
  eapply attached_loaded; [exact Hs|eapply stored_In; eauto].
Qed.

Lemma postMessage_leads (now : Z) (env : Env) (requester : User.t) (cid : string)
    (body : Routes.MessageBody) (st : Store) :
  ticking now env ->
  leads now (clock env 4) (conversations st)
    (conversations (snd (Routes.postMessage env requester cid body st))).
Proof.
  intros Htick. pose proof (ticking_start now env 4 Htick) as Hle.
  rewrite postMessage_cases.
  destruct (Routes.messageValidation body); [|apply leads_refl; assumption].
  destruct (stored st cid) as [c|] eqn:Hc; [|apply leads_refl; assumption].
  destruct (Conversation.hasUserId _ _); [|apply leads_refl; assumption].
  destruct (Message.validationErrors _); [|apply leads_refl; assumption].
  assert (Hgoal : leads now (clock env 4) (conversations st)
                    (conversations (afterSend env requester cid body c st))).
  { intros Hs. generalize Hs.
    assert (Hwf : wellFormed c) by (eapply sound_wellFormed; [exact Hs|eapply stored_In; eauto]).
    unfold afterSend. simpl.
    apply leads_trans with (t2 := clock env 0)
                           (cs2 := Message.postSave (composed env requester cid body) (conversations st)).
    - apply leads_postSave. simpl. pose proof (ticking_start now env 0 Htick). lia.
    - destruct (Conversation.updateLastMessage (clock env 1)
                  (Text.trim (Routes.b_content body)) (User._id requester)
                  (Conversation.mkDoc c None)
                  (Message.postSave (composed env requester cid body) (conversations st)))
        as [[d' cs']|e] eqn:Hupd.
      + pose proof Hupd as Hupd'.
        unfold Conversation.updateLastMessage, Conversation.onFields in Hupd'.
        cbn [Conversation.fields Conversation.populated] in Hupd'.
        rewrite bumpUnread_plain in Hupd'. cbn [bind] in Hupd'.
        inversion Hupd'; subst d' cs'.
        eapply leads_updateLastMessage; [exact Hupd| | |apply Hwf|apply Hwf].
        * pose proof (ticking_mono now env 0 1 Htick). pose proof (ticking_mono now env 1 4 Htick). lia.
        * apply attached_postSave. eapply attached_loaded; [exact Hs|eapply stored_In; eauto].
      + unfold Conversation.updateLastMessage, Conversation.onFields in Hupd.
        cbn [Conversation.fields Conversation.populated] in Hupd.
        rewrite bumpUnread_plain in Hupd. discriminate. }
  destruct (Routes.formatSent _ _); exact Hgoal.
Qed.
End Evolution.

Section Creation.
Context `{Platform}.

Lemma respond_snd (h : Handler Response) (st : Store) : snd (respond h st) = snd (h st).
Proof. unfold respond. destruct (h st) as [[r|e] st']; reflexivity. Qed.

Lemma findBetweenUsers_In (us : list User.t) (cs : list Conversation.t) (u1 u2 : string)
    (d : Conversation.doc) :
  Conversation.findBetweenUsers us cs u1 u2 = Some d ->
  In (Conversation.fields d) cs /\ Conversation.populated d = Some us.
Proof.
  unfold Conversation.findBetweenUsers.
  destruct (List.find _ cs) as [c|] eqn:Hc; simpl; [|discriminate].
  intros Hd. inversion Hd; subst. simpl. split; [|reflexivity].
  apply List.find_some in Hc as [Hc _]. exact Hc.
Qed.

Lemma openWith_leads (start now : Z) (env : Env) (requester otherUser : User.t) (text : string)
    (d : Conversation.doc) (st : Store) :
  (now <= clock env 2)%Z -> ticking start env ->
  attached (conversations st) d ->
  countersCover (Conversation.fields d) ->
  nonNegative (Conversation.unreadCount (Conversation.fields d)) ->
  leads now (clock env 4) (conversations st)
    (conversations (snd (Routes.openWith env requester otherUser text d st))).
Proof.
  intros Hnow Htick Hatt Hcov Hnn.
  pose proof (ticking_mono start env 2 3 Htick). pose proof (ticking_mono start env 3 4 Htick).
  unfold Routes.openWith. cbn [andThen getStore await].
  destruct (Message.save _ _ _ _ _) as [[[m' synced] appended]|e] eqn:Hsave;
    [|apply leads_refl; lia].
  apply save_new in Hsave as (_ & Hm & Hsynced & _).
  cbn [andThen putStore await].
  assert (Hhook : leads now (clock env 2) (conversations st) synced).
  { subst synced. apply leads_postSave. subst m'. simpl. lia. }
  destruct (Conversation.updateLastMessage _ _ _ _ _) as [[d' cs']|e] eqn:Hupd.
  - cbn [andThen putStore snd ret]. simpl.
    eapply leads_trans; [exact Hhook|].
    eapply leads_updateLastMessage; [exact Hupd| | |exact Hcov|exact Hnn]; [lia|].
    subst synced. apply attached_postSave. exact Hatt.
  - simpl. eapply leads_trans; [exact Hhook|]. apply leads_refl. lia.
Qed.

Lemma created_ready (oid : string) (t0 t1 : Z) (u1 u2 : User.t)
    (service title : option string) (cs : list Conversation.t) :
  ~ In oid (List.map Conversation._id cs) ->
  attached (snd (Conversation.createConversation oid t0 t1 u1 u2 service title cs))
           (fst (Conversation.createConversation oid t0 t1 u1 u2 service title cs)) /\
  countersCover (Conversation.fields
                   (fst (Conversation.createConversation oid t0 t1 u1 u2 service title cs))) /\
  nonNegative (Conversation.unreadCount
                 (Conversation.fields
                    (fst (Conversation.createConversation oid t0 t1 u1 u2 service title cs)))).
Proof.
  intros Hfresh. unfold Conversation.createConversation. simpl. repeat split.
  - intros c Hin Hid. simpl in *. apply in_app_or in Hin as [Hin|[<-|[]]]; [|reflexivity].
    exfalso. apply Hfresh. rewrite <- Hid. apply in_map. exact Hin.
  - unfold countersCover, participantIds. simpl. intros uid [<-|[<-|[]]].
    + apply is_Some_insert. rewrite lookup_insert_eq. eexists. reflexivity.
    + rewrite lookup_insert_eq. eexists. reflexivity.
  - apply nonNegative_insert; [lia|]. apply nonNegative_insert; [lia|].
    intros uid n Hn. rewrite lookup_empty in Hn. discriminate.
Qed.

Lemma andThen_snd {A B : Type} (h : Handler A) (k : A -> Handler B) (st : Store) :
  snd (andThen h k st)
  = match h st with
    | (Return a, st') => snd (k a st')
    | (Throw _, st') => st'
    end.
Proof. unfold andThen. destruct (h st) as [[a|e] st']; reflexivity. Qed.

Lemma findOrCreate_cases (env : Env) (requester : User.t) (pid : string) (other : User.t)
    (sid : option string) (st : Store) :
  Routes.findOrCreate env requester pid other sid st =
  match Conversation.findBetweenUsers (users st) (conversations st) (User._id requester) pid with
  | Some d => (Return (inr d), st)
  | None =>
      match sid with
      | None => (Return (inr (fst (made env requester other sid None st))),
                 setConversations (snd (made env requester other sid None st)) st)
      | Some i =>
          match Service.findById (services st) i with
          | None => (Return (inl serviceNotFound), st)
          | Some service =>
              if Service.isActive service
              then (Return (inr (fst (made env requester other sid (Some (Service.title service)) st))),
                    setConversations
                      (snd (made env requester other sid (Some (Service.title service)) st)) st)
              else (Return (inl serviceNotFound), st)
          end
      end
  end.
Proof.
  unfold Routes.findOrCreate. cbn [andThen getStore].
  destruct (Conversation.findBetweenUsers _ _ _ _); [reflexivity|].
  destruct sid as [i|]; [|reflexivity].
  destruct (Service.findById (services st) i) as [service|]; [|reflexivity].
  destruct (Service.isActive service); reflexivity.
Qed.

Lemma postConversation_leads (now : Z) (env : Env) (requester : User.t)
    (body : Routes.ConversationBody) (st : Store) :
  ticking now env -> freshConversation env st ->
  leads now (clock env 4) (conversations st)
    (conversations (snd (Routes.postConversation env requester body st))).
Proof.
  intros Htick Hfresh.
  pose proof (ticking_start now env 4 Htick) as Hle.
  unfold Routes.postConversation. rewrite respond_snd.
  unfold Routes.postConversationHandler.
  destruct (Routes.conversationValidation body); [|apply leads_refl; exact Hle].
  destruct (String.eqb _ _); [apply leads_refl; exact Hle|].
  cbn [andThen getStore].
  destruct (User.findById _ _) as [other|]; [|apply leads_refl; exact Hle].
  destruct (User.isActive other); cbn [negb]; [|apply leads_refl; exact Hle].
  rewrite andThen_snd, findOrCreate_cases.
  assert (Hcreate : forall title,
    leads now (clock env 4) (conversations st)
      (conversations
         (snd (Routes.openWith env requester other (Text.trim (Routes.b_initialMessage body))
                 (fst (made env requester other (Routes.b_serviceId body) title st))
                 (setConversations
                    (snd (made env requester other (Routes.b_serviceId body) title st)) st))))).
  { intros title. unfold made.
    destruct (created_ready (newId env 0) (clock env 0) (clock env 1) requester other
                (Routes.b_serviceId body) title (conversations st) Hfresh) as (Hatt & Hcov & Hnn).
    pose proof (leads_createConversation now (clock env 1) (newId env 0) (clock env 0)
                  (clock env 1) requester other (Routes.b_serviceId body) title
                  (conversations st)) as Hmade.
    destruct (Conversation.createConversation _ _ _ _ _ _ _ _) as [d cs1].
    cbn [fst snd] in *.
    eapply leads_trans with (cs2 := cs1).
    - apply Hmade; [|exact Hfresh].
      pose proof (ticking_start now env 0 Htick). pose proof (ticking_mono now env 0 1 Htick). lia.
    - apply (openWith_leads now (clock env 1) env requester other _ d (setConversations cs1 st));
        [apply (ticking_mono now env 1 2 Htick); lia|exact Htick|exact Hatt|exact Hcov|exact Hnn]. }
  destruct (Conversation.findBetweenUsers _ _ _ _) as [d|] eqn:Hfind.
  - intros Hs. generalize Hs.
    apply findBetweenUsers_In in Hfind as [Hin _].
    assert (Hwf : wellFormed (Conversation.fields d)) by (eapply sound_wellFormed; eauto).
    apply openWith_leads with (start := now);
      [apply ticking_start; exact Htick|exact Htick| |apply Hwf|apply Hwf].
    destruct d as [c v]. eapply attached_loaded; [exact Hs|exact Hin].
  - destruct (Routes.b_serviceId body) as [sid|] eqn:Hsid.
    + destruct (Service.findById _ _) as [service|]; [|apply leads_refl; exact Hle].
      destruct (Service.isActive service); [|apply leads_refl; exact Hle].
      apply Hcreate.
    + apply Hcreate.
Qed.
End Creation.

(** ** Stored messages *)

Lemma validated_contentOk (m : Message.t) :
  Message.validationErrors m = [] ->
  Text.trim (Message.content m) = Message.content m ->
  contentOk m.
Proof.
  unfold Message.validationErrors, contentOk. intros Hv Htrim. split; [exact Htrim|].
  apply app_eq_nil in Hv as [_ Hv]. apply app_eq_nil in Hv as [Hv _].
  destruct (String.eqb (Message.content m) "") eqn:E; [discriminate|].
  destruct (1000 <? String.length (Message.content m))%nat eqn:E2; [discriminate|].
  apply Nat.ltb_ge in E2. apply String.eqb_neq in E.
  destruct (Message.content m); [contradiction|]. simpl in *. lia.
Qed.

Lemma save_new_contentOk (now : Z) (m m' : Message.t) (cs cs' : list Conversation.t)
    (ms ms' : list Message.t) :
  Message.save true now m cs ms = Return (m', cs', ms') ->
  Text.trim (Message.content m) = Message.content m ->
  Forall contentOk ms -> Forall contentOk ms'.
Proof.
  intros Hsave Htrim Hall. apply save_new in Hsave as (Hv & -> & _ & ->).
  apply Forall_app. split; [exact Hall|]. constructor; [|constructor].
  apply validated_contentOk in Hv; [|exact Htrim]. exact Hv.
Qed.

Lemma markConversationAsRead_contentOk (now : Z) (cid uid : string) (ms : list Message.t) :
  Forall contentOk ms -> Forall contentOk (Message.markConversationAsRead now cid uid ms).
Proof.
  unfold Message.markConversationAsRead. intros Hall. apply Forall_map.
  eapply Forall_impl; [|exact Hall]. intros m Hm.
  destruct (Message.unreadFrom cid uid m); [|exact Hm]. exact Hm.
Qed.

Section Served.
Context `{Platform}.

Lemma getConversation_messages (requester : User.t) (cid : string) (st : Store) :
  messages (snd (Routes.getConversation requester cid st)) = messages st.
Proof.
  unfold Routes.getConversation. rewrite respond_snd.
  unfold Routes.getConversationHandler. cbn [andThen getStore].
  destruct (option_map _ _) as [d|]; [|reflexivity].
  destruct (Conversation.isActive _); cbn [negb]; [|reflexivity].
  rewrite andThen_snd. cbn [await].
  destruct (Conversation.hasParticipant _ _) as [[|]|e]; cbn [negb]; try reflexivity.
  destruct (Conversation.markAsRead _ _ _) as [marked cs'].
  rewrite andThen_snd. cbn [putStore]. rewrite andThen_snd. cbn [await].
  destruct (Routes.otherParticipant _ _ _); reflexivity.
Qed.

Lemma openWith_contentOk (env : Env) (requester otherUser : User.t) (text : string)
    (d : Conversation.doc) (st : Store) :
  Forall contentOk (messages st) ->
  Forall contentOk (messages (snd (Routes.openWith env requester otherUser (Text.trim text) d st))).
Proof.
  intros Hall. unfold Routes.openWith. cbn [andThen getStore await].
  destruct (Message.save _ _ _ _ _) as [[[m' synced] appended]|e] eqn:Hsave; [|exact Hall].
  apply save_new_contentOk in Hsave; [|simpl; apply trim_idempotent|exact Hall].
  cbn [andThen putStore await].
  destruct (Conversation.updateLastMessage _ _ _ _ _) as [[d' cs']|e]; exact Hsave.
Qed.

Lemma serve_contentOk (env : Env) (requester : User.t) (r : Request) (st : Store) :
  Forall contentOk (messages st) ->
  Forall contentOk (messages (snd (serve env requester r st))).
Proof.
  intros Hall. destruct r as [cid|cid page limit|cid body|body|cid| |q cid]; simpl.
  - rewrite getConversation_messages. exact Hall.
  - unfold Routes.getMessages. rewrite respond_snd. unfold Routes.getMessagesHandler.
    destruct (Routes.pageValidation page limit); [|exact Hall].
    cbn [andThen getStore]. rewrite missingOrOutsider_plain. cbn [await].
    destruct (stored st cid) as [c|]; [|exact Hall].
    destruct (Conversation.hasUserId _ _); [|exact Hall].
    cbn [andThen putStore await].
    destruct (Routes.mapOutcome _ _); simpl; apply markConversationAsRead_contentOk; exact Hall.
  - rewrite postMessage_cases.
    destruct (Routes.messageValidation body); [|exact Hall].
    destruct (stored st cid) as [c|]; [|exact Hall].
    destruct (Conversation.hasUserId _ _); [|exact Hall].
    destruct (Message.validationErrors _) eqn:Hv; [|exact Hall].
    assert (Hsent : Forall contentOk (messages (afterSend env requester cid body c st))).
    { simpl. apply Forall_app. split; [exact Hall|]. constructor; [|constructor].
      apply (validated_contentOk (composed env requester cid body)); [exact Hv|].
      simpl. apply trim_idempotent. }
    destruct (Routes.formatSent _ _); exact Hsent.
  - unfold Routes.postConversation. rewrite respond_snd.
    unfold Routes.postConversationHandler.
    destruct (Routes.conversationValidation body); [|exact Hall].
    destruct (String.eqb _ _); [exact Hall|].
    cbn [andThen getStore].
    destruct (User.findById _ _) as [other|]; [|exact Hall].
    destruct (User.isActive other); cbn [negb]; [|exact Hall].
    rewrite andThen_snd, findOrCreate_cases.
    destruct (Conversation.findBetweenUsers _ _ _ _) as [d|].
    + apply openWith_contentOk. exact Hall.
    + destruct (Routes.b_serviceId body) as [sid|].
      * destruct (Service.findById _ _) as [service|]; [|exact Hall].
        destruct (Service.isActive service); [|exact Hall].
        apply openWith_contentOk. exact Hall.
      * apply openWith_contentOk. exact Hall.
  - rewrite putRead_cases.
    destruct (stored st cid) as [c|]; [|exact Hall].
    destruct (Conversation.hasUserId _ _); [|exact Hall].
    simpl. apply markConversationAsRead_contentOk. exact Hall.
  - exact Hall.
  - rewrite getSearch_store. exact Hall.
Qed.

Lemma serve_leads (now : Z) (env : Env) (requester : User.t) (r : Request) (st : Store) :
  ticking now env -> freshConversation env st ->
  leads now (clock env 4) (conversations st) (conversations (snd (serve env requester r st))).
Proof.
  intros Htick Hfresh. pose proof (ticking_start now env 4 Htick) as Hle.
  destruct r as [cid|cid page limit|cid body|body|cid| |q cid]; simpl.
  - apply getConversation_leads. exact Hle.
  - rewrite getMessages_conversations. apply leads_refl. exact Hle.
  - apply postMessage_leads. exact Htick.
  - apply postConversation_leads; assumption.
  - apply putRead_leads. exact Hle.
  - apply leads_refl. exact Hle.
  - rewrite getSearch_store. apply leads_refl. exact Hle.
Qed.

End Served.

(** ** Invariants of the reachable worlds *)

Lemma step_keeps `{Platform} (w w' : World) :
  step w w' ->
  leads (time w) (time w') (conversations (db w)) (conversations (db w')) /\
  (Forall contentOk (messages (db w)) -> Forall contentOk (messages (db w'))).
Proof.
  intros Hstep. destruct Hstep as [env requester r w Htick Hfresh|us ss w]; simpl.
  - split; [apply serve_leads; assumption|apply serve_contentOk].
  - split; [apply leads_refl; lia|auto].
Qed.

Lemma reachable_keeps `{Platform} (w : World) :
  reachable w ->
  sound (time w) (conversations (db w)) /\ Forall contentOk (messages (db w)).
Proof.
  induction 1 as [us ss t|w w' Hw [Hs Hm] Hstep]; simpl.
  - split; [split|]; constructor.
  - apply step_keeps in Hstep as [Hlead Hmsg]. split; [apply Hlead; exact Hs|auto].
Qed.

(** C5. In every world the routes reach from empty collections, each
    stored conversation has exactly two participants and a non-negative
    counter for each of them; and whatever happens next, a stored
    conversation stays stored with a [lastMessage.timestamp] that is not
    older.  The clock of a request is taken not to run backwards
    ([ticking]). *)
Theorem conversations_stay_well_formed `{Platform} (w : World) :
  reachable w ->
  (forall c, In c (conversations (db w)) ->
     length (Conversation.participants c) = 2%nat /\
     forall uid, In uid (participantIds c) ->
       exists n, Conversation.unreadCount c !! uid = Some n /\ (0 <= n)%Z) /\
  (forall w' cid c, step w w' -> stored (db w) cid = Some c ->
     exists c', stored (db w') cid = Some c' /\
       (Conversation.timestamp (Conversation.lastMessage c)
        <= Conversation.timestamp (Conversation.lastMessage c'))%Z).
Proof.
  intros Hreach. apply reachable_keeps in Hreach as [Hs _]. split.
  - intros c Hin. destruct (sound_wellFormed _ _ _ Hs Hin) as (Hlen & Hcov & Hnn).
    split; [exact Hlen|]. intros uid Huid. destruct (Hcov uid Huid) as [n Hn].
    exists n. split; [exact Hn|]. eapply Hnn. exact Hn.
  - intros w' cid c Hstep Hc. apply step_keeps in Hstep as [Hlead _].
    destruct (Hlead Hs) as [_ Hgrow]. destruct (Hgrow cid c Hc) as (c' & Hc' & _ & Hts).
    exists c'. split; [exact Hc'|exact Hts].
Qed.

Lemma firstContact_reachable : reachable firstContact.
Proof.
  unfold firstContact.
  apply (reachable_step (mkWorld emptyStore 0) _ (reachable_start _ _ _)).
  apply (step_serve sampleEnv alice (PostConversation hello) (mkWorld emptyStore 0)).
  - split; [simpl; lia|]. intros k. simpl. lia.
  - intros Hin. exact Hin.
Qed.

Lemma conversations_stay_well_formed_witness :
  (forall c, In c (conversations (db firstContact)) ->
     length (Conversation.participants c) = 2%nat /\
     forall uid, In uid (participantIds c) ->
       exists n, Conversation.unreadCount c !! uid = Some n /\ (0 <= n)%Z) /\
  (forall w' cid c, step firstContact w' -> stored (db firstContact) cid = Some c ->
     exists c', stored (db w') cid = Some c' /\
       (Conversation.timestamp (Conversation.lastMessage c)
        <= Conversation.timestamp (Conversation.lastMessage c'))%Z).
Proof. exact (conversations_stay_well_formed firstContact firstContact_reachable). Defined.

(** C6. A message whose trimmed content is not 1 to 1000 characters long
    is refused by [POST /conversations/:conversationId/messages] and by
    [POST /conversations] with status 400, "Données invalides" and an error
    on the field that carries the content ([content], respectively
    [initialMessage]); the collections are left as they were.  In every
    world the routes reach, the content of each stored message is 1 to
    1000 characters long after trimming. *)
Theorem content_length_is_enforced `{Platform} (env : Env) (requester : User.t)
    (cid : string) (body : Routes.MessageBody) (opening : Routes.ConversationBody)
    (st : Store) (w : World) :
  (~ lengthInRange (Routes.b_content body) ->
   Routes.postMessage env requester cid body st
   = (invalid "Données invalides" (Routes.messageValidation body), st) /\
   In (mkFieldError "content" Routes.lengthMessage) (Routes.messageValidation body)) /\
  (~ lengthInRange (Routes.b_initialMessage opening) ->
   Routes.postConversation env requester opening st
   = (invalid "Données invalides" (Routes.conversationValidation opening), st) /\
   In (mkFieldError "initialMessage" Routes.lengthMessage)
      (Routes.conversationValidation opening)) /\
  (reachable w -> forall m, In m (messages (db w)) -> lengthInRange (Message.content m)) /\
  (forall errors, status (invalid "Données invalides" errors) = 400%Z).
Proof.
  split; [|split; [|split]].
  - intros Hout. pose proof (messageValidation_outOfRange body Hout) as Hin.
    split; [|exact Hin]. rewrite postMessage_cases.
    destruct (Routes.messageValidation body); [destruct Hin|reflexivity].
  - intros Hout. pose proof (conversationValidation_outOfRange opening Hout) as Hin.
    split; [|exact Hin]. apply postConversation_invalid.
    intros Hnil. rewrite Hnil in Hin. destruct Hin.
  - intros Hreach m Hm. apply reachable_keeps in Hreach as [_ Hall].
    rewrite Forall_forall in Hall. apply Hall in Hm as [Htrim Hlen].
    unfold lengthInRange. rewrite Htrim. exact Hlen.
  - reflexivity.
Qed.

(** ** Searching a conversation *)

Lemma insertNewestFirst_In (m x : Message.t) (l : list Message.t) :
  In x (Message.insertNewestFirst m l) <-> x = m \/ In x l.
Proof.
  induction l as [|y l IH]; simpl; [intuition congruence|].
  destruct (Message.createdAt y <=? Message.createdAt m)%Z; simpl; [intuition congruence|].
  rewrite IH. intuition congruence.
Qed.

Lemma insertNewestFirst_sorted (m : Message.t) (l : list Message.t) :
  newestFirst l -> newestFirst (Message.insertNewestFirst m l).
Proof.
  induction l as [|y l IH]; simpl; intros Hl; [split; [intros x []|exact I]|].
  destruct Hl as [Hy Hl].
  destruct (Message.createdAt y <=? Message.createdAt m)%Z eqn:E; simpl.
  - apply Z.leb_le in E. split; [|split; assumption].
    intros x [<-|Hx]; [exact E|]. specialize (Hy x Hx). lia.
  - apply Z.leb_gt in E. split; [|apply IH; exact Hl].
    intros x Hx. apply insertNewestFirst_In in Hx as [->|Hx]; [lia|apply Hy; exact Hx].
Qed.

Lemma sortNewestFirst_In (x : Message.t) (l : list Message.t) :
  In x (Message.sortNewestFirst l) <-> In x l.
Proof.
  unfold Message.sortNewestFirst. induction l as [|y l IH]; simpl; [tauto|].
  rewrite insertNewestFirst_In, IH. intuition congruence.
Qed.

Lemma sortNewestFirst_sorted (l : list Message.t) : newestFirst (Message.sortNewestFirst l).
Proof.
  unfold Message.sortNewestFirst. induction l as [|y l IH]; simpl; [exact I|].
  apply insertNewestFirst_sorted. exact IH.
Qed.

Lemma firstn_subset {A : Type} (n : nat) (l : list A) (x : A) : In x (firstn n l) -> In x l.
Proof.
  revert n. induction l as [|y l IH]; intros [|n]; simpl; try tauto.
  intros [->|Hx]; [left; reflexivity|right; eapply IH; exact Hx].
Qed.

Lemma firstn_newestFirst (n : nat) (l : list Message.t) :
  newestFirst l -> newestFirst (firstn n l).
Proof.
  revert n. induction l as [|y l IH]; intros [|n]; simpl; try tauto.
  intros [Hy Hl]. split; [|apply IH; exact Hl].
  intros x Hx. apply Hy. eapply firstn_subset. exact Hx.
Qed.

(** C8, as the code behaves.  [searchInConversation] returns at most 10
    messages (so at most 20), all of the conversation asked for, newest
    first, and each matches the query read as a case-insensitive regular
    expression; when the query holds no operator character of regular
    expressions, each result's content contains the query as a substring,
    letter case ignored. *)
Theorem search_in_conversation `{Platform} (cid q : string) (ms : list Message.t) :
  (length (Message.searchInConversation cid q ms) <= 10)%nat /\
  (length (Message.searchInConversation cid q ms) <= 20)%nat /\
  newestFirst (Message.searchInConversation cid q ms) /\
  (forall m, In m (Message.searchInConversation cid q ms) ->
     In m ms /\ Message.conversationId m = cid /\ regexTest q (Message.content m) = true) /\
  (literalSearch -> Text.isLiteralPattern q = true ->
   forall m, In m (Message.searchInConversation cid q ms) ->
     Text.includesCI q (Message.content m) = true).
Proof.
  assert (Hin : forall m, In m (Message.searchInConversation cid q ms) ->
            In m ms /\ Message.conversationId m = cid /\ regexTest q (Message.content m) = true).
  { unfold Message.searchInConversation. intros m Hm.
    apply firstn_subset in Hm. rewrite sortNewestFirst_In in Hm.
    apply List.filter_In in Hm as [Hm Htest]. apply andb_true_iff in Htest as [Hc Hr].
    unfold Message.inConversation in Hc. apply String.eqb_eq in Hc. auto. }
  assert (Hlen : (length (Message.searchInConversation cid q ms) <= 10)%nat).
  { unfold Message.searchInConversation. rewrite List.length_firstn. lia. }
  repeat split; try lia; try (apply Hin; assumption).
  - unfold Message.searchInConversation. apply firstn_newestFirst, sortNewestFirst_sorted.
  - intros Hlit Hq m Hm. rewrite <- Hlit by exact Hq. apply Hin. exact Hm.
Qed.

(** C8 as stated fails: the query [.] finds "abc", which does not contain
    a dot. *)
Lemma search_reads_query_as_pattern :
  Message.searchInConversation talkId "." [note] = [note] /\
  Text.includesCI "." (Message.content note) = false.
Proof. split; reflexivity. Qed.

Lemma dotPrefix_literal (pattern text : string) :
  Text.isLiteralPattern pattern = true -> dotPrefix pattern text = Text.startsWithCI pattern text.
Proof.
  revert text. induction pattern as [|a pattern IH]; intros text Hlit; [destruct text; reflexivity|].
  simpl in Hlit. apply andb_true_iff in Hlit as [Ha Hlit].
  destruct text as [|b text]; simpl; [reflexivity|].
  rewrite IH by exact Hlit.
  destruct (Ascii.eqb a ".") eqn:E; [|reflexivity].
  apply Ascii.eqb_eq in E. subst a. discriminate.
Qed.

Lemma samplePlatform_literalSearch : literalSearch.
Proof.
  intros pattern text Hlit. simpl. induction text as [|b text IH]; simpl.
  - rewrite dotPrefix_literal by exact Hlit. reflexivity.
  - rewrite dotPrefix_literal by exact Hlit. rewrite IH. reflexivity.
Qed.

(** ** Counting unread messages *)

Lemma countInto_sum (key : string) (groups : list (string * Z)) :
  sumCounts (Message.countInto key groups) = (sumCounts groups + 1)%Z.
Proof.
  unfold sumCounts. induction groups as [|[k n] groups IH]; simpl; [reflexivity|].
  destruct (String.eqb k key); simpl; [lia|]. rewrite IH. lia.
Qed.

Lemma countInto_nonempty (key : string) (groups : list (string * Z)) :
  Message.countInto key groups <> [].
Proof. destruct groups as [|[k n] groups]; simpl; [|destruct (String.eqb k key)]; discriminate. Qed.

Lemma group_sum (ms : list Message.t) (groups : list (string * Z)) :
  sumCounts (fold_left (fun g m => Message.countInto (Message.conversationId m) g) ms groups)
  = (sumCounts groups + Z.of_nat (length ms))%Z.
Proof.
  revert groups. induction ms as [|m ms IH]; intros groups; simpl length; simpl fold_left; [lia|].
  rewrite IH, countInto_sum. lia.
Qed.

Lemma group_nonempty (ms : list Message.t) (groups : list (string * Z)) :
  groups <> [] ->
  fold_left (fun g m => Message.countInto (Message.conversationId m) g) ms groups <> [].
Proof.
  revert groups. induction ms as [|m ms IH]; intros groups Hne; simpl; [exact Hne|].
  apply IH. apply countInto_nonempty.
Qed.

(** The two [$group] stages add up to the number of matching messages. *)
Lemma getUnreadCount_counts (requester : User.t) (st : Store) :
  Routes.getUnreadCount requester st
  = (unreadTotal
       (Z.of_nat (length (List.filter (Message.unreadFor (User._id requester) (conversations st))
                                      (messages st)))), st).
Proof.
  unfold Routes.getUnreadCount, respond, Routes.getUnreadCountHandler, Message.getUnreadCount,
    Message.groupByConversation.
  cbn [andThen getStore ret].
  destruct (List.filter _ (messages st)) as [|m ms] eqn:Hf; [reflexivity|].
  pose proof (group_sum (m :: ms) []) as Hsum.
  pose proof (group_nonempty ms (Message.countInto (Message.conversationId m) [])
                (countInto_nonempty _ _)) as Hne.
  simpl fold_left in *.
  destruct (fold_left _ ms _) as [|g groups] eqn:Hg; [contradiction|].
  unfold Message.groupAll. fold (sumCounts (g :: groups)). rewrite Hsum. reflexivity.
Qed.

(** C10. For a user none of whose conversations holds an unread message
    from someone else (in particular a user of no conversation), the
    aggregation of [getUnreadCount] returns no document and
    [GET /unread-count] answers 200 with [unreadCount] 0. *)
Theorem unread_total_is_zero (requester : User.t) (st : Store) :
  (forall m c, In m (messages st) -> In c (conversations st) ->
     Conversation._id c = Message.conversationId m ->
     In (User._id requester) (participantIds c) ->
     Message.senderId m <> User._id requester -> Message.isRead m = true) ->
  Message.getUnreadCount (User._id requester) (conversations st) (messages st) = [] /\
  Routes.getUnreadCount requester st = (unreadTotal 0, st).
Proof.
  intros Hnone.
  assert (Hf : List.filter (Message.unreadFor (User._id requester) (conversations st))
                           (messages st) = []).
  { induction (messages st) as [|m ms IH]; simpl; [reflexivity|].
    destruct (Message.unreadFor _ _ m) eqn:E.
    - exfalso. unfold Message.unreadFor in E.
      apply andb_true_iff in E as [E Hread]. apply andb_true_iff in E as [Hpart Hsender].
      apply existsb_exists in Hpart as (c & Hc & Hmem).
      apply List.filter_In in Hc as [Hc Hid]. apply String.eqb_eq in Hid.
      apply hasUserId_In in Hmem. apply negb_true_iff in Hsender, Hread.
      apply String.eqb_neq in Hsender.
      rewrite (Hnone m c) in Hread; auto; [discriminate|left; reflexivity].
    - apply IH. intros m' c Hm'. apply Hnone. right. exact Hm'. }
  split.
  - unfold Message.getUnreadCount. rewrite Hf. reflexivity.
  - rewrite getUnreadCount_counts, Hf. reflexivity.
Qed.

Lemma unread_total_is_zero_witness :
  Message.getUnreadCount (User._id carol) (conversations chat) (messages chat) = [] /\
  Routes.getUnreadCount carol chat = (unreadTotal 0, chat).
Proof.
  apply (unread_total_is_zero carol chat).
  intros m c _ [<-|[]] _ Hin. simpl in Hin. intuition discriminate.
Defined.

(** ** The summary written by the [post('save')] hook *)

(** C9 fails on the code.  The hook runs after every [save()]: in the
    conversation whose last message is Bob's "Salut", marking Alice's older
    "Bonjour" read, or editing it, makes it the conversation's summary
    again; and a message sent through the route has its summary written
    twice, by the hook (the whole content, stamped with the message's
    date) and then by [updateLastMessage] (the first 100 characters,
    stamped with a later reading of the clock). *)
Lemma summary_sync_runs_on_every_save :
  summaryOf (conversations chat) talkId
  = Some (Conversation.mkLastMessage "Salut" (Some (User._id bob)) 204) /\
  (exists m cs ms,
     Message.markAsRead 300 bonjourMessage (conversations chat) (messages chat)
     = Return (m, cs, ms) /\
     summaryOf cs talkId
     = Some (Conversation.mkLastMessage "Bonjour" (Some (User._id alice)) 102)) /\
  (exists m cs ms,
     Message.editContent 300 "Bonsoir" bonjourMessage (conversations chat) (messages chat)
     = Return (m, cs, ms) /\
     summaryOf cs talkId
     = Some (Conversation.mkLastMessage "Bonsoir" (Some (User._id alice)) 102)) /\
  (exists m cs ms,
     Message.save true (clock sampleEnv 0) (drafted sampleEnv alice talkId longBody)
       (conversations sampleStore) (messages sampleStore)
     = Return (m, cs, ms) /\
     summaryOf cs talkId
     = Some (Conversation.mkLastMessage (replicate 150 "x") (Some (User._id alice)) 100) /\
     summaryOf (conversations (snd (Routes.postMessage sampleEnv alice talkId longBody sampleStore)))
               talkId
     = Some (Conversation.mkLastMessage (replicate 100 "x") (Some (User._id alice)) 101)).
Proof.
  split; [reflexivity|]. split; [|split].
  - eexists _, _, _. split; reflexivity.
  - eexists _, _, _. split; reflexivity.
  - eexists _, _, _. split; [reflexivity|]. split; vm_compute; reflexivity.
Qed.

(** ** Opening a conversation twice *)

Lemma sameParties_refl (c : Conversation.t) : sameParties c c.
Proof. repeat split. Qed.

Lemma sameParties_trans (c1 c2 c3 : Conversation.t) :
  sameParties c1 c2 -> sameParties c2 c3 -> sameParties c1 c3.
Proof. unfold sameParties. intros (?&?&?) (?&?&?). repeat split; congruence. Qed.

Lemma Forall2_sameParties_refl (cs : list Conversation.t) : Forall2 sameParties cs cs.
Proof. induction cs; constructor; [apply sameParties_refl|assumption]. Qed.

Lemma Forall2_sameParties_trans (l1 l2 l3 : list Conversation.t) :
  Forall2 sameParties l1 l2 -> Forall2 sameParties l2 l3 -> Forall2 sameParties l1 l3.
Proof.
  intros H12. revert l3. induction H12 as [|x y l1 l2 Hxy H12 IH]; intros l3 H23;
    inversion H23; subst; constructor; [eapply sameParties_trans; eauto|auto].
Qed.

Lemma updateFirst_sameParties (test : Conversation.t -> bool) (f : Conversation.t -> Conversation.t)
    (cs : list Conversation.t) :
  (forall c, sameParties c (f c)) -> Forall2 sameParties cs (updateFirst test f cs).
Proof.
  intros Hf. induction cs as [|x cs IH]; simpl; [constructor|].
  destruct (test x); constructor; auto using sameParties_refl, Forall2_sameParties_refl.
Qed.

Lemma postSave_sameParties (m : Message.t) (cs : list Conversation.t) :
  Forall2 sameParties cs (Message.postSave m cs).
Proof. apply updateFirst_sameParties. intros c. destruct c. repeat split. Qed.

Lemma save_sameParties (modified : list Conversation.Path) (d : Conversation.doc)
    (cs : list Conversation.t) :
  Forall2 sameParties cs (Conversation.save modified d cs).
Proof.
  apply updateFirst_sameParties. intros c. unfold Conversation.writeModified.
  destruct (existsb _ modified); destruct (existsb _ modified); destruct c; repeat split.
Qed.

Lemma between_swap (u1 u2 : string) (c : Conversation.t) : between u2 u1 c = between u1 u2 c.
Proof. unfold between. destruct (Conversation.hasUserId u1 c), (Conversation.hasUserId u2 c); reflexivity. Qed.

Lemma fullName_nonempty (u : User.t) : String.eqb (User.fullName u) "" = false.
Proof. unfold User.fullName. destruct (User.firstName u); reflexivity. Qed.

Section Opening.
Context `{Platform}.

Lemma bumpUnread_returns (c : Conversation.t) (us : list User.t) (sender : string)
    (ps : list Conversation.Participant) (counts : gmap string Z) :
  Forall (fun p => User.findById us (Conversation.userId p) <> None) ps /\
  Forall (fun p => forall profile, Conversation.populatedUser us p = Some profile ->
            docString profile = sender \/ Conversation.isMapKey (docString profile) = true) ps <->
  exists counts', Conversation.bumpUnread (Conversation.mkDoc c (Some us)) sender ps counts
                  = Return counts'.
Proof.
  revert counts. induction ps as [|p ps IH]; intros counts; simpl.
  - split; [intros _; eexists; reflexivity|split; constructor].
  - unfold Conversation.userIdString, Conversation.populatedUser. simpl.
    destruct (User.findById us (Conversation.userId p)) as [u|] eqn:Hu; simpl.
    + destruct (String.eqb (docString (User.profile u)) sender) eqn:Hkey; simpl.
      * apply String.eqb_eq in Hkey. rewrite <- IH. split.
        -- intros [Hall Hkeys]. inversion Hall; inversion Hkeys; subst. split; assumption.
        -- intros [Hall Hkeys]. split; constructor; try assumption; [congruence|].
           intros profile Hp. rewrite Hu in Hp. injection Hp as <-. left. exact Hkey.
      * apply String.eqb_neq in Hkey. unfold Conversation.setCount. simpl.
        destruct (Conversation.isMapKey (docString (User.profile u))) eqn:Hok; simpl.
        -- rewrite <- IH. split.
           ++ intros [Hall Hkeys]. inversion Hall; inversion Hkeys; subst. split; assumption.
           ++ intros [Hall Hkeys]. split; constructor; try assumption; [congruence|].
              intros profile Hp. rewrite Hu in Hp. injection Hp as <-. right. exact Hok.
        -- split; [|intros [r Hr]; discriminate].
           intros [_ Hkeys]. inversion Hkeys as [|? ? Hhead _]; subst.
           unfold Conversation.populatedUser in Hhead. rewrite Hu in Hhead.
           destruct (Hhead (User.profile u) eq_refl) as [Hs|Hv]; [contradiction|congruence].
    + split; [intros [Hall _]; inversion Hall; contradiction|intros [r Hr]; discriminate].
Qed.

Lemma updateLastMessage_returns (now : Z) (text sender : string) (d : Conversation.doc)
    (cs : list Conversation.t) :
  ready d /\ countable sender d <->
  exists d' cs', Conversation.updateLastMessage now text sender d cs = Return (d', cs').
Proof.
  destruct d as [c view].
  unfold ready, countable, Conversation.updateLastMessage, Conversation.onFields.
  cbn [Conversation.fields Conversation.populated].
  destruct view as [us|].
  - unfold resolves.
    rewrite (bumpUnread_returns (Conversation.setLastMessage
                 (Conversation.mkLastMessage (Text.substring0 100 text) (Some sender) now) c)
               us sender (Conversation.participants c) (Conversation.unreadCount c)).
    destruct c; simpl. split.
    + intros [counts ->]. simpl. eexists _, _. reflexivity.
    + intros (d' & cs' & Hret). destruct (Conversation.bumpUnread _ _ _ _); [eexists; reflexivity|discriminate].
  - rewrite bumpUnread_plain. simpl. split; [intros _; eexists _, _; reflexivity|auto].
Qed.

Lemma updateLastMessage_sameParties (now : Z) (text sender : string) (d d' : Conversation.doc)
    (cs cs' : list Conversation.t) :
  Conversation.updateLastMessage now text sender d cs = Return (d', cs') ->
  Forall2 sameParties cs cs'.
Proof.
  unfold Conversation.updateLastMessage.
  destruct (Conversation.bumpUnread _ _ _ _); simpl; [|discriminate].
  intros Hret. inversion Hret; subst. apply save_sameParties.
Qed.

(** [openWith], when nothing throws. *)
Lemma openWith_returns (env : Env) (requester otherUser : User.t) (text : string)
    (d : Conversation.doc) (st : Store) :
  lengthInRange text -> ready d -> countable (User._id requester) d ->
  exists st',
    Routes.openWith env requester otherUser (Text.trim text) d st
    = (Return (created (Conversation.fields d) otherUser), st') /\
    users st' = users st /\
    Forall2 sameParties (conversations st) (conversations st').
Proof.
  intros Hlen Hready Hkeys. unfold Routes.openWith. cbn [andThen getStore await].
  unfold Message.save.
  assert (Hv : Message.validationErrors
                 (Message.new (newId env 1) (Conversation._id (Conversation.fields d))
                    (User._id requester) (User.fullName requester) (Text.trim text) "text" [] None)
               = []).
  { unfold Message.validationErrors. simpl. rewrite fullName_nonempty, trim_idempotent.
    unfold lengthInRange in Hlen.
    destruct (String.eqb (Text.trim text) "") eqn:E.
    - apply String.eqb_eq in E. rewrite E in Hlen. simpl in Hlen. lia.
    - destruct (1000 <? String.length (Text.trim text))%nat eqn:E2; [|reflexivity].
      apply Nat.ltb_lt in E2. lia. }
  rewrite Hv. cbn [andThen putStore await].
  set (m := Message.setCreatedAt _ _).
  destruct (proj1 (updateLastMessage_returns (clock env 3) (Text.trim text) (User._id requester) d
                     (Message.postSave m (conversations st))) (conj Hready Hkeys))
    as (d' & cs' & Hupd).
  rewrite Hupd. cbn [andThen putStore ret snd].
  eexists. split; [reflexivity|]. split; [reflexivity|]. simpl.
  eapply Forall2_sameParties_trans; [apply postSave_sameParties|].
  eapply updateLastMessage_sameParties. exact Hupd.
Qed.

(** [openWith], read backwards from a response. *)
Lemma openWith_returned (env : Env) (requester otherUser : User.t) (text : string)
    (d : Conversation.doc) (st st' : Store) (r : Response) :
  Routes.openWith env requester otherUser text d st = (Return r, st') ->
  r = created (Conversation.fields d) otherUser /\
  (ready d /\ countable (User._id requester) d) /\
  users st' = users st /\
  Forall2 sameParties (conversations st) (conversations st').
Proof.
  unfold Routes.openWith. cbn [andThen getStore await].
  destruct (Message.save _ _ _ _ _) as [[[m' synced] appended]|e] eqn:Hsave; [|discriminate].
  apply save_new in Hsave as (_ & _ & -> & _).
  cbn [andThen putStore await].
  destruct (Conversation.updateLastMessage _ _ _ _ _) as [[d' cs']|e] eqn:Hupd; [|discriminate].
  cbn [andThen putStore ret snd]. intros Hret. inversion Hret; subst r st'; clear Hret.
  split; [reflexivity|]. split; [|split; [reflexivity|]].
  - apply (updateLastMessage_returns (clock env 3) text (User._id requester) d
             (Message.postSave m' (conversations st))). eauto.
  - simpl. eapply Forall2_sameParties_trans; [apply postSave_sameParties|].
    eapply updateLastMessage_sameParties. exact Hupd.
Qed.
End Opening.

Lemma openWith_appends `{Platform} (env : Env) (requester other : User.t) (text : string)
    (d : Conversation.doc) (st st' : Store) (r : Response) :
  Routes.openWith env requester other text d st = (Return r, st') ->
  messages st'
  = messages st ++ [Message.setCreatedAt (clock env 2)
                      (Message.new (newId env 1) (Conversation._id (Conversation.fields d))
                         (User._id requester) (User.fullName requester) text "text" [] None)].
Proof.
  unfold Routes.openWith. cbn [andThen getStore await].
  destruct (Message.save _ _ _ _ _) as [[[m' synced] appended]|e] eqn:Hsave; [|discriminate].
  apply save_new in Hsave as (_ & -> & _ & ->).
  cbn [andThen putStore await].
  destruct (Conversation.updateLastMessage _ _ _ _ _) as [[d' cs']|e]; [|discriminate].
  cbn [andThen putStore ret]. intros Hret. inversion Hret; subst. reflexivity.
Qed.

Section Again.
Context `{Platform}.

Lemma postConversation_cases (env : Env) (requester : User.t)
    (body : Routes.ConversationBody) (st : Store) :
  Routes.postConversation env requester body st =
  match Routes.conversationValidation body with
  | (_ :: _) as errors => (invalid "Données invalides" errors, st)
  | [] =>
      if String.eqb (Routes.b_participantId body) (User._id requester)
      then (selfConversation, st)
      else
        match User.findById (users st) (Routes.b_participantId body) with
        | None => (userNotFound, st)
        | Some other =>
            if User.isActive other then
              match Routes.findOrCreate env requester (Routes.b_participantId body) other
                      (Routes.b_serviceId body) st with
              | (Return (inl response), st0) => (response, st0)
              | (Return (inr d), st0) =>
                  respond (Routes.openWith env requester other
                             (Text.trim (Routes.b_initialMessage body)) d) st0
              | (Throw _, st0) => (internalError, st0)
              end
            else (userNotFound, st)
        end
  end.
Proof.
  unfold Routes.postConversation, respond, Routes.postConversationHandler.
  destruct (Routes.conversationValidation body); [|reflexivity].
  destruct (String.eqb _ _); [reflexivity|].
  cbn [andThen getStore].
  destruct (User.findById _ _) as [other|]; [|reflexivity].
  destruct (User.isActive other); cbn [negb]; [|reflexivity].
  unfold andThen at 1.
  destruct (Routes.findOrCreate _ _ _ _ _ _) as [[[response|d]|e] st0]; reflexivity.
Qed.

Lemma findBetweenUsers_find (us : list User.t) (cs : list Conversation.t) (u1 u2 : string) :
  Conversation.findBetweenUsers us cs u1 u2
  = option_map (fun c => Conversation.mkDoc c (Some us)) (List.find (between u1 u2) cs).
Proof. reflexivity. Qed.


Lemma respond_created (h : Handler Response) (st st' : Store) (resp : Response) :
  respond h st = (resp, st') -> status resp = 201%Z -> h st = (Return resp, st').
Proof.
  unfold respond. destruct (h st) as [[r|e] st0]; intros Hr Hs; inversion Hr; subst.
  - reflexivity.
  - discriminate.
Qed.

Lemma find_same_test {A : Type} (f g : A -> bool) (l : list A) :
  (forall x, f x = g x) -> List.find f l = List.find g l.
Proof.
  intros Hfg. induction l as [|x l IH]; simpl; [reflexivity|]. rewrite Hfg, IH. reflexivity.
Qed.

Lemma validated_length (body : Routes.ConversationBody) :
  Routes.conversationValidation body = [] -> lengthInRange (Routes.b_initialMessage body).
Proof.
  unfold Routes.conversationValidation. intros Hvalid.
  apply app_eq_nil in Hvalid as [_ Hvalid]. apply app_eq_nil in Hvalid as [_ Hvalid].
  apply app_eq_nil in Hvalid as [_ Hvalid]. eapply textErrors_nil. exact Hvalid.
Qed.

(** [openWith] once the message is saved: what is left depends on
    [updateLastMessage] alone. *)
Lemma openWith_saves (env : Env) (requester other : User.t) (text : string)
    (d : Conversation.doc) (st : Store) :
  lengthInRange text ->
  Routes.openWith env requester other (Text.trim text) d st
  = match Conversation.updateLastMessage (clock env 3) (Text.trim text) (User._id requester) d
            (Message.postSave
               (initial env requester (Conversation._id (Conversation.fields d)) (Text.trim text))
               (conversations st)) with
    | Return updated =>
        (Return (created (Conversation.fields d) other),
         setMessages
           (messages st
            ++ [initial env requester (Conversation._id (Conversation.fields d)) (Text.trim text)])
           (setConversations (snd updated) st))
    | Throw e =>
        (Throw e,
         afterInitial
           (initial env requester (Conversation._id (Conversation.fields d)) (Text.trim text)) st)
    end.
Proof.
  intros Hlen. unfold Routes.openWith. cbn [andThen getStore await].
  unfold Message.save.
  assert (Hv : Message.validationErrors
                 (Message.new (newId env 1) (Conversation._id (Conversation.fields d))
                    (User._id requester) (User.fullName requester) (Text.trim text) "text" [] None)
               = []).
  { unfold Message.validationErrors. simpl. rewrite fullName_nonempty, trim_idempotent.
    unfold lengthInRange in Hlen.
    destruct (String.eqb (Text.trim text) "") eqn:E.
    - apply String.eqb_eq in E. rewrite E in Hlen. simpl in Hlen. lia.
    - destruct (1000 <? String.length (Text.trim text))%nat eqn:E2; [|reflexivity].
      apply Nat.ltb_lt in E2. lia. }
  rewrite Hv. cbn [andThen putStore await]. fold (initial env requester
    (Conversation._id (Conversation.fields d)) (Text.trim text)).
  destruct (Conversation.updateLastMessage _ _ _ _ _) as [updated|e]; reflexivity.
Qed.

(** On a populated document the counters are set under printed documents
    only: an entry that no document prints is left as it is. *)
Lemma bumpUnread_untouched (d : Conversation.doc) (us : list User.t) (sender k : string)
    (ps : list Conversation.Participant) (counts counts' : gmap string Z) :
  Conversation.populated d = Some us ->
  (forall profile, docString profile <> k) ->
  Conversation.bumpUnread d sender ps counts = Return counts' ->
  counts' !! k = counts !! k.
Proof.
  intros Hview Hprint. revert counts. induction ps as [|p ps IH]; simpl; intros counts Hret.
  - inversion Hret; subst. reflexivity.
  - unfold Conversation.userIdString in Hret. rewrite Hview in Hret.
    destruct (Conversation.populatedUser us p) as [profile|]; simpl in Hret; [|discriminate].
    destruct (negb (String.eqb (docString profile) sender)); [|apply IH; exact Hret].
    unfold Conversation.setCount in Hret. rewrite Hview in Hret.
    destruct (Conversation.isMapKey (docString profile)); simpl in Hret; [|discriminate].
    rewrite (IH _ Hret). apply lookup_insert_ne. apply Hprint.
Qed.

(** The stored conversation after [save()] of the document that
    [updateLastMessage] changed. *)
Lemma stored_summary (lm : Conversation.LastMessage) (counts : gmap string Z)
    (d : Conversation.doc) (m : Message.t) (ms : list Message.t) (st : Store) :
  stored st (Conversation._id (Conversation.fields d)) = Some (Conversation.fields d) ->
  stored (setMessages ms
            (setConversations
               (Conversation.save [Conversation.LastMessagePath; Conversation.UnreadCountPath]
                  (Conversation.onFields (Conversation.setUnreadCount counts)
                     (Conversation.onFields (Conversation.setLastMessage lm) d))
                  (Message.postSave m (conversations st))) st))
         (Conversation._id (Conversation.fields d))
  = Some (Conversation.setUnreadCount counts
            (Conversation.setLastMessage lm (Conversation.fields d))).
Proof.
  intros Hc. destruct d as [c view]. unfold stored, Conversation.save, Message.postSave in *.
  simpl in *.
  rewrite find_updateFirst
    by (intros x; unfold Conversation.writeModified; simpl; destruct x; reflexivity).
  destruct (String.eqb (Conversation._id c) (Message.conversationId m)) eqn:Hm.
  - apply String.eqb_eq in Hm. rewrite <- Hm.
    rewrite find_updateFirst by (intros x; destruct x; reflexivity).
    rewrite Hc. destruct c; reflexivity.
  - assert (Hskip : forall l,
              List.find (fun x => String.eqb (Conversation._id x) (Conversation._id c))
                (updateFirst (fun x => String.eqb (Conversation._id x) (Message.conversationId m))
                   (Conversation.setLastMessage
                      (Conversation.mkLastMessage (Message.content m) (Some (Message.senderId m))
                         (Message.createdAt m))) l)
              = List.find (fun x => String.eqb (Conversation._id x) (Conversation._id c)) l).
    { induction l as [|x l IH]; simpl; [reflexivity|].
      destruct (String.eqb (Conversation._id x) (Message.conversationId m)) eqn:Hx; simpl.
      - destruct (String.eqb (Conversation._id x) (Conversation._id c)) eqn:Hxc; [|reflexivity].
        apply String.eqb_eq in Hx, Hxc. rewrite <- Hxc, Hx, String.eqb_refl in Hm. discriminate.
      - rewrite IH. reflexivity. }
    rewrite Hskip, Hc. destruct c; reflexivity.
Qed.

(** C1 fails on the code when the message goes through [POST /conversations]
    toward a user with whom the requester already has a conversation.  The
    document of [findBetweenUsers] is populated, so that
    [participant.userId.toString()] is a printed user document: the message
    is stored and [lastMessage] is set as the claim says, but the counters
    are set under printed documents, and the entry of the recipient is what
    it was.  Mongoose is taken not to print a user document as the text of
    the recipient's identifier. *)
Theorem initial_message_misses_the_counter (env : Env) (requester other : User.t)
    (body : Routes.ConversationBody) (st st' : Store) (d : Conversation.doc) (resp : Response) :
  Routes.b_participantId body <> User._id requester ->
  User.findById (users st) (Routes.b_participantId body) = Some other ->
  Conversation.findBetweenUsers (users st) (conversations st) (User._id requester)
    (Routes.b_participantId body) = Some d ->
  stored st (Conversation._id (Conversation.fields d)) = Some (Conversation.fields d) ->
  (forall profile, docString profile <> User._id other) ->
  Routes.postConversation env requester body st = (resp, st') ->
  status resp = 201%Z ->
  exists (m : Message.t) (c' : Conversation.t),
    messages st' = messages st ++ [m] /\
    Message.content m = Text.trim (Routes.b_initialMessage body) /\
    Message.senderId m = User._id requester /\
    Message.conversationId m = Conversation._id (Conversation.fields d) /\
    stored st' (Conversation._id (Conversation.fields d)) = Some c' /\
    Conversation.lastMessage c'
    = Conversation.mkLastMessage (Text.substring0 100 (Message.content m))
        (Some (User._id requester)) (clock env 3) /\
    In (User._id other) (participantIds (Conversation.fields d)) /\
    User._id other <> User._id requester /\
    Conversation.unreadCount c' !! User._id other
    = Conversation.unreadCount (Conversation.fields d) !! User._id other.
Proof.
  intros Hself Hother Hfind Hc Hprint Hrun Hok.
  rewrite postConversation_cases in Hrun.
  destruct (Routes.conversationValidation body) eqn:Hvalid;
    [|inversion Hrun; subst; discriminate].
  apply validated_length in Hvalid.
  pose proof (findById_id _ _ _ Hother) as Hid.
  apply String.eqb_neq in Hself. rewrite Hself, Hother in Hrun. apply String.eqb_neq in Hself.
  destruct (User.isActive other); [|inversion Hrun; subst; discriminate].
  rewrite findOrCreate_cases, Hfind in Hrun.
  unfold respond in Hrun. rewrite openWith_saves in Hrun by exact Hvalid.
  unfold Conversation.updateLastMessage in Hrun.
  destruct (Conversation.bumpUnread _ _ _ _) as [counts|e] eqn:Hbump;
    cbn [bind snd] in Hrun; inversion Hrun; subst resp st'; clear Hrun; [clear Hok|discriminate].
  assert (Hmember : In (User._id other) (participantIds (Conversation.fields d))).
  { rewrite findBetweenUsers_find in Hfind.
    destruct (List.find _ _) as [c|] eqn:Hc0; [|discriminate].
    inversion Hfind; subst d. simpl. apply List.find_some in Hc0 as [_ Hc0].
    unfold between in Hc0. rewrite !andb_true_iff in Hc0. destruct Hc0 as [[_ Hin] _].
    rewrite Hid. apply hasUserId_In. exact Hin. }
  eexists _, _. split; [reflexivity|]. split; [simpl; apply trim_idempotent|].
  split; [reflexivity|]. split; [reflexivity|].
  split; [apply stored_summary; exact Hc|].
  split; [simpl; rewrite trim_idempotent; reflexivity|].
  split; [exact Hmember|]. split; [congruence|].
  destruct d as [c view]. simpl.
  apply findBetweenUsers_In in Hfind as [_ Hview]. simpl in Hview. subst view.
  eapply bumpUnread_untouched; [|exact Hprint|exact Hbump]. reflexivity.
Qed.

(** C2 fails on the code.  On the second call the conversation is the
    populated document of [findBetweenUsers], and [updateLastMessage] sets
    the counters under the printed documents of its participants.  When one
    of them is not a key the map accepts (a name or an avatar path with a
    dot in it), the call throws: the answer is 500 "Erreur interne du
    serveur", not the identifier of the conversation, and the message is
    already stored. *)
Theorem second_call_fails_on_a_dotted_document (env : Env) (requester other : User.t)
    (body : Routes.ConversationBody) (st : Store) (d : Conversation.doc) :
  Routes.conversationValidation body = [] ->
  Routes.b_participantId body <> User._id requester ->
  User.findById (users st) (Routes.b_participantId body) = Some other ->
  User.isActive other = true ->
  Conversation.findBetweenUsers (users st) (conversations st) (User._id requester)
    (Routes.b_participantId body) = Some d ->
  Exists (fun p => exists profile,
            Conversation.populatedUser (users st) p = Some profile /\
            docString profile <> User._id requester /\
            Conversation.isMapKey (docString profile) = false)
         (Conversation.participants (Conversation.fields d)) ->
  exists m,
    Routes.postConversation env requester body st = (internalError, afterInitial m st) /\
    status internalError = 500%Z /\
    Message.conversationId m = Conversation._id (Conversation.fields d) /\
    Message.senderId m = User._id requester /\
    Message.content m = Text.trim (Routes.b_initialMessage body).
Proof.
  intros Hvalid Hself Hother Hactive Hfind Hbad.
  rewrite postConversation_cases, Hvalid.
  apply String.eqb_neq in Hself. rewrite Hself, Hother, Hactive.
  rewrite findOrCreate_cases, Hfind.
  unfold respond. rewrite openWith_saves by (apply validated_length; exact Hvalid).
  destruct (Conversation.updateLastMessage _ _ _ _ _) as [updated|e] eqn:Hupd.
  - exfalso.
    assert (Hret : exists d' cs',
              Conversation.updateLastMessage (clock env 3) (Text.trim (Routes.b_initialMessage body))
                (User._id requester) d
                (Message.postSave
                   (initial env requester (Conversation._id (Conversation.fields d))
                      (Text.trim (Routes.b_initialMessage body))) (conversations st))
              = Return (d', cs'))
      by (destruct updated as [d' cs']; eauto).
    apply updateLastMessage_returns in Hret as [_ Hkeys].
    apply findBetweenUsers_In in Hfind as [_ Hview].
    unfold countable in Hkeys. rewrite Hview in Hkeys. rewrite Forall_forall in Hkeys.
    apply Exists_exists in Hbad as (p & Hin & profile & Hp & Hne & Hno).
    destruct (Hkeys p Hin profile Hp) as [Hs|Hyes]; [contradiction|congruence].
  - eexists. split; [reflexivity|]. split; [reflexivity|]. split; [reflexivity|].
    split; [reflexivity|]. simpl. apply trim_idempotent.
Qed.

(** The cast changes nothing in the canonical text of an identifier: on
    such a text the look-ups by text are those of the code. *)
Lemma canonicalText_canonical (s : string) : canonicalId s = true -> canonicalText s = s.
Proof.
  unfold canonicalId. rewrite andb_true_iff. intros [_ Hall].
  induction s as [|c s IH]; simpl in *; [reflexivity|].
  apply andb_true_iff in Hall as [Hc Hs]. rewrite (IH Hs). f_equal.
  unfold isLowerHex in Hc. unfold Text.toLower.
  destruct ((65 <=? nat_of_ascii c)%nat && (nat_of_ascii c <=? 90)%nat) eqn:Hcap; [|reflexivity].
  exfalso. apply andb_true_iff in Hcap as [H65 H90].
  apply Nat.leb_le in H65, H90.
  apply orb_true_iff in Hc as [Hd|Hl]; apply andb_true_iff in Hd || apply andb_true_iff in Hl.
  - destruct Hd as [_ H57]. apply Nat.leb_le in H57. lia.
  - destruct Hl as [H97 _]. apply Nat.leb_le in H97. lia.
Qed.

(** C7 fails on the code.  The route compares the text of [participantId]
    with the text of the requester's identifier: the request is refused
    with status 400, and nothing is written, for that very text; any other
    text that passes the field validation, such as the same identifier with
    its digits in capitals, is not refused.  Past the comparison nothing
    tells the requester from the other user: when the look-ups yield the
    requester, who has no active conversation, a conversation of the
    requester with themself is created and the message is stored in it. *)
Theorem self_check_compares_spellings (env : Env) (a : User.t)
    (body : Routes.ConversationBody) (st : Store) :
  (Routes.b_participantId body = User._id a ->
   snd (Routes.postConversation env a body st) = st /\
   status (fst (Routes.postConversation env a body st)) = 400%Z) /\
  (Routes.conversationValidation body = [] ->
   Routes.b_participantId body <> User._id a ->
   status (fst (Routes.postConversation env a body st)) <> 400%Z) /\
  (lengthInRange (Routes.b_initialMessage body) ->
   Conversation.findBetweenUsers (users st) (conversations st) (User._id a) (User._id a) = None ->
   exists c st1 st' m,
     Routes.findOrCreate env a (User._id a) a None st
     = (Return (inr (Conversation.mkDoc c None)), st1) /\
     conversations st1 = conversations st ++ [c] /\
     participantIds c = [User._id a; User._id a] /\
     respond (Routes.openWith env a a (Text.trim (Routes.b_initialMessage body))
                (Conversation.mkDoc c None)) st1
     = (created c a, st') /\
     length (conversations st') = S (length (conversations st)) /\
     messages st' = messages st ++ [m] /\
     Message.senderId m = User._id a /\
     Message.conversationId m = Conversation._id c).
Proof.
  split; [|split].
  - intros Hself. destruct (self_conversation_refused env a body st Hself) as (Hst & Hcode & _).
    split; assumption.
  - intros Hvalid Hself. rewrite postConversation_cases, Hvalid.
    apply String.eqb_neq in Hself. rewrite Hself.
    destruct (User.findById _ _) as [other|]; [|discriminate].
    destruct (User.isActive other); [|discriminate].
    rewrite findOrCreate_cases.
    assert (Hopen : forall d st0,
              status (fst (respond (Routes.openWith env a other
                                      (Text.trim (Routes.b_initialMessage body)) d) st0))
              <> 400%Z).
    { intros d st0. unfold respond. rewrite openWith_saves by (apply validated_length; exact Hvalid).
      destruct (Conversation.updateLastMessage _ _ _ _ _); discriminate. }
    destruct (Conversation.findBetweenUsers _ _ _ _) as [d|]; [apply Hopen|].
    destruct (Routes.b_serviceId body) as [sid|]; [|apply Hopen].
    destruct (Service.findById _ _) as [service|]; [|discriminate].
    destruct (Service.isActive service); [apply Hopen|discriminate].
  - intros Hlen Hnone. rewrite findOrCreate_cases, Hnone.
    unfold made, Conversation.createConversation. cbn [fst snd].
    set (c := Conversation.mk (newId env 0) _ _ _ _ _ _ _).
    destruct (openWith_returns env a a (Routes.b_initialMessage body) (Conversation.mkDoc c None)
                (setConversations (conversations st ++ [c]) st) Hlen I I)
      as (st' & Hopen & _ & Hsame).
    exists c, (setConversations (conversations st ++ [c]) st), st'. eexists.
    split; [reflexivity|]. split; [reflexivity|]. split; [reflexivity|].
    split; [unfold respond; rewrite Hopen; reflexivity|].
    split.
    { apply Forall2_length in Hsame. rewrite <- Hsame. simpl. rewrite length_app. simpl. lia. }
    split; [rewrite (openWith_appends _ _ _ _ _ _ _ _ Hopen); reflexivity|].
    split; reflexivity.
Qed.

End Again.

(** ** The properties on the sample data *)

Lemma mark_conversation_read_witness :
  status (fst (Routes.putRead laterEnv bob talkId chat)) = 200%Z /\
  (exists c', stored (snd (Routes.putRead laterEnv bob talkId chat)) talkId = Some c' /\
     Conversation.unreadCount c' !! User._id bob = Some 0%Z /\
     (forall uid, uid <> User._id bob ->
        Conversation.unreadCount c' !! uid = Conversation.unreadCount chatTalk !! uid)) /\
  (forall m, In m (messages (snd (Routes.putRead laterEnv bob talkId chat))) ->
     Message.conversationId m = talkId ->
     Message.senderId m <> User._id bob -> Message.isRead m = true) /\
  Forall2 (fun m m' =>
             (Message.senderId m = User._id bob -> m' = m) /\
             (Message.conversationId m <> talkId -> m' = m) /\
             (Message.isRead m = true -> m' = m) /\
             Message.conversationId m' = Message.conversationId m /\
             Message.senderId m' = Message.senderId m)
          (messages chat) (messages (snd (Routes.putRead laterEnv bob talkId chat))).
Proof.
  apply (mark_conversation_read laterEnv bob talkId chat
           (snd (Routes.putRead laterEnv bob talkId chat))
           (fst (Routes.putRead laterEnv bob talkId chat)) chatTalk).
  - reflexivity.
  - simpl. right. left. reflexivity.
  - apply surjective_pairing.
Defined.

Lemma samplePlatform_printsOwnId : printsOwnId (User._id carol).
Proof. intros profile Heq. simpl in Heq. discriminate. Qed.

Lemma outsider_is_refused_witness :
  Routes.getMessages sampleEnv carol talkId None None sampleStore
  = (conversationNotFound, sampleStore) /\
  Routes.postMessage sampleEnv carol talkId bonjour sampleStore
  = (conversationNotFound, sampleStore) /\
  Routes.putRead sampleEnv carol talkId sampleStore = (conversationNotFound, sampleStore) /\
  Routes.getSearch carol "bon" (Some talkId) sampleStore = (conversationNotFound, sampleStore) /\
  Routes.getConversation carol talkId sampleStore = (accessDenied, sampleStore).
Proof.
  assert (Hout : ~ In (User._id carol) (participantIds talk))
    by (simpl; intuition discriminate).
  destruct (outsider_is_refused sampleEnv carol talkId sampleStore talk None None bonjour "bon"
              eq_refl Hout) as (Hlist & Hsend & Hread & Hsearch & Hopen & _).
  refine (conj (Hlist eq_refl) (conj (Hsend eq_refl) (conj Hread (conj (Hsearch eq_refl) _)))).
  apply Hopen; [exact samplePlatform_printsOwnId|].
  unfold resolves. simpl. repeat constructor; discriminate.
Defined.

(** ** The methods no route calls *)

(** [addParticipant] is not part of the life of a conversation as the
    routes drive it; called on a two-party document it would add a third
    participant and leave the counters as they are. *)
Lemma addParticipant_plain `{Platform} (uid name : string) (c : Conversation.t) :
  ~ In uid (participantIds c) ->
  Conversation.addParticipant uid name (Conversation.mkDoc c None)
  = Return (Conversation.mkDoc
              (Conversation.setParticipants
                 (Conversation.participants c ++ [Conversation.mkParticipant uid name]) c)
              None).
Proof.
  intros Hout. unfold Conversation.addParticipant.
  fold (Conversation.hasParticipant (Conversation.mkDoc c None) uid).
  rewrite hasParticipant_plain, outsider_hasUserId by exact Hout. reflexivity.
Qed.

Remark addParticipant_adds_a_third :
  exists d, Conversation.addParticipant (User._id carol) "Carol Petit" (Conversation.mkDoc talk None)
            = Return d /\
            length (Conversation.participants (Conversation.fields d)) = 3%nat /\
            Conversation.unreadCount (Conversation.fields d) !! User._id carol = None.
Proof. eexists. repeat split. Qed.

(** [editContent] goes through the schema's validation, like every
    [save()]: a stored message keeps a content of 1 to 1000 characters. *)
Lemma editContent_contentOk (now : Z) (text : string) (m m' : Message.t)
    (cs cs' : list Conversation.t) (ms ms' : list Message.t) :
  Message.editContent now text m cs ms = Return (m', cs', ms') ->
  Forall contentOk ms -> Forall contentOk ms'.
Proof.
  unfold Message.editContent, Message.save.
  destruct (Message.validationErrors _) eqn:Hv; [|discriminate].
  intros Hret Hall. inversion Hret; subst m' cs' ms'; clear Hret.
  apply validated_contentOk in Hv; [|simpl; apply trim_idempotent].
  induction Hall as [|x ms Hx Hall IH]; simpl; [constructor|].
  destruct (String.eqb (Message._id x) (Message._id m)); constructor; auto.
Qed.

(** ** Further properties of the routes *)

Lemma mapOutcome_Forall2 {A B : Type} (f : A -> Outcome B) (l : list A) (l' : list B) :
  Routes.mapOutcome f l = Return l' -> Forall2 (fun x y => f x = Return y) l l'.
Proof.
  revert l'. induction l as [|x l IH]; simpl; intros l' Hret.
  - inversion Hret. constructor.
  - destruct (f x) as [y|e] eqn:Hx; simpl in Hret; [|discriminate].
    destruct (Routes.mapOutcome f l) as [ys|e]; simpl in Hret; [|discriminate].
    inversion Hret; subst. constructor; auto.
Qed.

Section Listing.
Context `{Platform}.

Lemma getMessages_cases (env : Env) (requester : User.t) (cid : string)
    (page limit : option Z) (st : Store) :
  Routes.getMessages env requester cid page limit st =
  match Routes.pageValidation page limit with
  | (_ :: _) as errors => (invalid "Paramètres invalides" errors, st)
  | [] =>
      match stored st cid with
      | None => (conversationNotFound, st)
      | Some c =>
          if Conversation.hasUserId (User._id requester) c then
            let fetched := Message.getForConversation cid (Z.to_nat (default 50%Z limit))
                             (Z.to_nat ((default 1%Z page - 1) * default 50%Z limit))
                             (messages st) in
            let total := length (List.filter (Message.inConversation cid) (messages st)) in
            let st' := setMessages
                         (Message.markConversationAsRead (clock env 0) cid (User._id requester)
                            (messages st)) st in
            match Routes.mapOutcome (Routes.formatMessage (users st) (messages st) requester)
                    (rev fetched) with
            | Return formatted =>
                (mkResponse 200 true None []
                   (MessagesPayload formatted
                      (mkPagination (default 1%Z page)
                         (Routes.pages (Z.of_nat total) (default 50%Z limit))
                         (length fetched) total)), st')
            | Throw _ => (internalError, st')
            end
          else (conversationNotFound, st)
      end
  end.
Proof.
  unfold Routes.getMessages, respond, Routes.getMessagesHandler.
  destruct (Routes.pageValidation page limit); [|reflexivity].
  cbn [andThen getStore]. rewrite missingOrOutsider_plain. cbn [await].
  destruct (stored st cid) as [c|]; [|reflexivity].
  destruct (Conversation.hasUserId (User._id requester) c); [|reflexivity].
  cbn [andThen putStore await]. cbv zeta.
  destruct (Routes.mapOutcome _ _); reflexivity.
Qed.

(** [GET /conversations/:conversationId/messages] fetches before it marks:
    the page it returns, oldest first, shows each message with the [isRead]
    it had before the request, and the collection is left with the
    conversation marked read for the requester. *)
Theorem listing_shows_prior_read_state (env : Env) (requester : User.t) (cid : string)
    (page limit : option Z) (st st' : Store) (resp : Response)
    (shown : list MessageView) (pagination : Pagination) :
  Routes.getMessages env requester cid page limit st = (resp, st') ->
  payload resp = MessagesPayload shown pagination ->
  Forall2 (fun m view =>
             mv_id view = Message._id m /\ mv_content view = Message.content m /\
             mv_isRead view = Message.isRead m /\ mv_createdAt view = Message.createdAt m)
          (rev (Message.getForConversation cid (Z.to_nat (default 50%Z limit))
                  (Z.to_nat ((default 1%Z page - 1) * default 50%Z limit)) (messages st)))
          shown /\
  messages st' = Message.markConversationAsRead (clock env 0) cid (User._id requester) (messages st) /\
  conversations st' = conversations st.
Proof.
  intros Hrun Hpayload. rewrite getMessages_cases in Hrun.
  destruct (Routes.pageValidation page limit); [|inversion Hrun; subst; discriminate].
  destruct (stored st cid) as [c|]; [|inversion Hrun; subst; discriminate].
  destruct (Conversation.hasUserId _ c); [|inversion Hrun; subst; discriminate].
  cbv zeta in Hrun.
  destruct (Routes.mapOutcome _ _) as [formatted|e] eqn:Hmap;
    inversion Hrun; subst resp st'; clear Hrun; [|discriminate].
  simpl in Hpayload. inversion Hpayload; subst shown pagination; clear Hpayload.
  split; [|split; reflexivity].
  apply mapOutcome_Forall2 in Hmap.
  eapply Forall2_impl; [|exact Hmap]. intros m view Hfmt.
  unfold Routes.formatMessage in Hfmt.
  destruct (Routes.senderOf _ _ _); simpl in Hfmt; [|discriminate].
  inversion Hfmt; subst view. repeat split.
Qed.
End Listing.

Section FirstContact.
Context `{Platform}.

Lemma lookup_fresh (cs : list Conversation.t) (c : Conversation.t) :
  ~ In (Conversation._id c) (List.map Conversation._id cs) ->
  lookupConversation (cs ++ [c]) (Conversation._id c) = Some c.
Proof.
  intros Hfresh. rewrite lookup_app_fresh, String.eqb_refl.
  destruct (lookupConversation cs (Conversation._id c)) as [x|] eqn:Hx; [|reflexivity].
  exfalso. apply Hfresh. unfold lookupConversation in Hx.
  apply List.find_some in Hx as [Hin Hid]. apply String.eqb_eq in Hid.
  rewrite <- Hid. apply in_map. exact Hin.
Qed.

(** [openWith] on a document that was just created. *)
Lemma openWith_created (env : Env) (requester other : User.t) (text : string)
    (c : Conversation.t) (st st' : Store) (resp : Response) :
  Routes.openWith env requester other text (Conversation.mkDoc c None) st = (Return resp, st') ->
  lookupConversation (conversations st) (Conversation._id c) = Some c ->
  lookupConversation (conversations st') (Conversation._id c)
  = Some (summarised (clock env 3) text (User._id requester) c).
Proof.
  unfold Routes.openWith. cbn [andThen getStore await].
  destruct (Message.save _ _ _ _ _) as [[[m' synced] appended]|e] eqn:Hsave; [|discriminate].
  apply save_new in Hsave as (_ & Hm & -> & _).
  cbn [andThen putStore await].
  unfold Conversation.updateLastMessage, Conversation.onFields.
  cbn [Conversation.fields Conversation.populated].
  rewrite bumpUnread_plain. cbn [bind andThen putStore ret snd].
  intros Hret Hc. inversion Hret; subst resp st'; clear Hret. simpl.
  unfold lookupConversation, Conversation.save, Message.postSave in *.
  subst m'. simpl.
  rewrite find_updateFirst by (intros x; destruct x; reflexivity).
  rewrite find_updateFirst by (intros x; destruct x; reflexivity).
  destruct c. simpl in *. rewrite Hc. reflexivity.
Qed.

(** The first message between two users: when no active conversation
    joins them, a successful [POST /conversations] stores a conversation
    under the generated identifier, with the two users as participants, the
    initial message (its first 100 characters) as summary, a counter of 1
    for the other user and of 0 for the requester. *)
Theorem first_message_opens_the_conversation (env : Env) (a b : User.t)
    (body : Routes.ConversationBody) (st st1 : Store) (resp : Response) :
  Routes.b_participantId body = User._id b ->
  User.findById (users st) (User._id b) = Some b ->
  Conversation.findBetweenUsers (users st) (conversations st) (User._id a) (User._id b) = None ->
  freshConversation env st ->
  Routes.postConversation env a body st = (resp, st1) ->
  status resp = 201%Z ->
  exists c,
    resp = created c b /\ Conversation._id c = newId env 0 /\
    stored st1 (newId env 0) = Some c /\
    participantIds c = [User._id a; User._id b] /\
    Conversation.lastMessage c
    = Conversation.mkLastMessage (Text.substring0 100 (Text.trim (Routes.b_initialMessage body)))
        (Some (User._id a)) (clock env 3) /\
    Conversation.unreadCount c !! User._id b = Some 1%Z /\
    Conversation.unreadCount c !! User._id a = Some 0%Z.
Proof.
  intros Hpid Hb Hnone Hfresh Hrun Hok.
  rewrite postConversation_cases in Hrun.
  destruct (Routes.conversationValidation body); [|inversion Hrun; subst; discriminate].
  destruct (String.eqb (Routes.b_participantId body) (User._id a)) eqn:Hself;
    [inversion Hrun; subst; discriminate|].
  rewrite Hpid in Hrun, Hself. rewrite Hb in Hrun. apply String.eqb_neq in Hself.
  destruct (User.isActive b); [|inversion Hrun; subst; discriminate].
  rewrite findOrCreate_cases, Hnone in Hrun.
  assert (Hcase : forall title,
            respond (Routes.openWith env a b (Text.trim (Routes.b_initialMessage body))
                       (fst (made env a b (Routes.b_serviceId body) title st)))
                    (setConversations (snd (made env a b (Routes.b_serviceId body) title st)) st)
            = (resp, st1) ->
            exists c,
              resp = created c b /\ Conversation._id c = newId env 0 /\
              stored st1 (newId env 0) = Some c /\
              participantIds c = [User._id a; User._id b] /\
              Conversation.lastMessage c
              = Conversation.mkLastMessage
                  (Text.substring0 100 (Text.trim (Routes.b_initialMessage body)))
                  (Some (User._id a)) (clock env 3) /\
              Conversation.unreadCount c !! User._id b = Some 1%Z /\
              Conversation.unreadCount c !! User._id a = Some 0%Z).
  { intros title Hopen. apply respond_created in Hopen; [|exact Hok].
    unfold made, Conversation.createConversation in Hopen. cbn [fst snd] in Hopen.
    set (c := Conversation.mk (newId env 0) _ _ _ _ _ _ _) in Hopen.
    pose proof (openWith_returned _ _ _ _ _ _ _ _ Hopen) as (Hresp & _).
    pose proof (openWith_created _ _ _ _ _ _ _ _ Hopen) as Hc.
    cbn [Conversation.fields] in Hresp.
    exists (summarised (clock env 3) (Text.trim (Routes.b_initialMessage body)) (User._id a) c).
    split; [exact Hresp|]. split; [reflexivity|]. split; [|split; [reflexivity|split; [reflexivity|]]].
    - apply Hc. apply (lookup_fresh (conversations st) c). exact Hfresh.
    - change (Conversation.unreadCount
                (summarised (clock env 3) (Text.trim (Routes.b_initialMessage body)) (User._id a) c))
        with (bumps (User._id a) [User._id a; User._id b]
                (<[User._id b := 0%Z]> (<[User._id a := 0%Z]> ∅))).
      split.
      + rewrite bumps_recipient;
          [|constructor; [simpl; intuition congruence|constructor; [simpl; tauto|constructor]]
           |right; left; reflexivity|exact Hself].
        rewrite lookup_insert_eq. reflexivity.
      + rewrite bumps_sender. rewrite lookup_insert_ne by exact Hself.
        apply lookup_insert_eq. }
  destruct (Routes.b_serviceId body) as [sid|].
  - destruct (Service.findById (services st) sid) as [service|];
      [|inversion Hrun; subst; discriminate].
    destruct (Service.isActive service); [|inversion Hrun; subst; discriminate].
    apply Hcase with (title := Some (Service.title service)). exact Hrun.
  - apply Hcase with (title := None). exact Hrun.
Qed.
End FirstContact.

(** The two [$group] stages of [getUnreadCount] amount to one count:
    [GET /unread-count] answers with the number of unread messages that
    others sent in the conversations of the requester. *)
Theorem unread_total_counts_matching_messages (requester : User.t) (st : Store) :
  Routes.getUnreadCount requester st
  = (unreadTotal
       (Z.of_nat (length (List.filter (Message.unreadFor (User._id requester) (conversations st))
                                      (messages st)))), st).
Proof. apply getUnreadCount_counts. Qed.

Lemma listing_shows_prior_read_state_witness :
  Forall2 (fun m view =>
             mv_id view = Message._id m /\ mv_content view = Message.content m /\
             mv_isRead view = Message.isRead m /\ mv_createdAt view = Message.createdAt m)
          (rev (Message.getForConversation talkId (Z.to_nat (default 50%Z None))
                  (Z.to_nat ((default 1%Z None - 1) * default 50%Z None)) (messages chat)))
          (match payload (fst (Routes.getMessages laterEnv bob talkId None None chat)) with
           | MessagesPayload shown _ => shown
           | _ => []
           end) /\
  messages (snd (Routes.getMessages laterEnv bob talkId None None chat))
  = Message.markConversationAsRead (clock laterEnv 0) talkId (User._id bob) (messages chat) /\
  conversations (snd (Routes.getMessages laterEnv bob talkId None None chat)) = conversations chat.
Proof.
  eapply (listing_shows_prior_read_state laterEnv bob talkId None None chat
            (snd (Routes.getMessages laterEnv bob talkId None None chat))
            (fst (Routes.getMessages laterEnv bob talkId None None chat))).
  - apply surjective_pairing.
  - reflexivity.
Defined.

Lemma first_message_opens_the_conversation_witness :
  exists c,
    fst (Routes.postConversation sampleEnv alice hello emptyStore) = created c bob /\
    Conversation._id c = newId sampleEnv 0 /\
    stored (snd (Routes.postConversation sampleEnv alice hello emptyStore)) (newId sampleEnv 0)
    = Some c /\
    participantIds c = [User._id alice; User._id bob] /\
    Conversation.lastMessage c
    = Conversation.mkLastMessage (Text.substring0 100 (Text.trim (Routes.b_initialMessage hello)))
        (Some (User._id alice)) (clock sampleEnv 3) /\
    Conversation.unreadCount c !! User._id bob = Some 1%Z /\
    Conversation.unreadCount c !! User._id alice = Some 0%Z.
Proof.
  apply (first_message_opens_the_conversation sampleEnv alice bob hello emptyStore
           (snd (Routes.postConversation sampleEnv alice hello emptyStore))
           (fst (Routes.postConversation sampleEnv alice hello emptyStore))).
  - reflexivity.
  - reflexivity.
  - reflexivity.
  - intros Hin. exact Hin.
  - apply surjective_pairing.
  - reflexivity.
Defined.

Lemma content_length_is_enforced_witness :
  (Routes.postMessage sampleEnv alice talkId (Routes.mkMessageBody "   " None None None) sampleStore
   = (invalid "Données invalides"
        (Routes.messageValidation (Routes.mkMessageBody "   " None None None)), sampleStore) /\
   In (mkFieldError "content" Routes.lengthMessage)
      (Routes.messageValidation (Routes.mkMessageBody "   " None None None))) /\
  (Routes.postConversation sampleEnv alice
     (Routes.mkConversationBody (User._id bob) None (replicate 1001 "x")) sampleStore
   = (invalid "Données invalides"
        (Routes.conversationValidation
           (Routes.mkConversationBody (User._id bob) None (replicate 1001 "x"))), sampleStore) /\
   In (mkFieldError "initialMessage" Routes.lengthMessage)
      (Routes.conversationValidation
         (Routes.mkConversationBody (User._id bob) None (replicate 1001 "x")))) /\
  (forall m, In m (messages (db firstContact)) -> lengthInRange (Message.content m)).
Proof.
  destruct (content_length_is_enforced sampleEnv alice talkId
              (Routes.mkMessageBody "   " None None None)
              (Routes.mkConversationBody (User._id bob) None (replicate 1001 "x"))
              sampleStore firstContact) as (Hsend & Hopen & Hstored & _).
  refine (conj (Hsend _) (conj (Hopen _) (Hstored firstContact_reachable))).
  - unfold lengthInRange. simpl. lia.
  - unfold lengthInRange. vm_compute. intros [_ Hle]. lia.
Defined.

(** * Paging through a conversation *)

Lemma insertNewestFirst_length (m : Message.t) (l : list Message.t) :
  length (Message.insertNewestFirst m l) = S (length l).
Proof.
  induction l as [|x l IH]; simpl; [reflexivity|].
  destruct (Message.createdAt x <=? Message.createdAt m)%Z; simpl; [reflexivity|].
  rewrite IH. reflexivity.
Qed.

Lemma sortNewestFirst_length (l : list Message.t) :
  length (Message.sortNewestFirst l) = length l.
Proof.
  induction l as [|x l IH]; simpl; [reflexivity|].
  rewrite insertNewestFirst_length, IH. reflexivity.
Qed.

Lemma firstn_then_next {A : Type} (a b : nat) (l : list A) :
  firstn a l ++ firstn b (skipn a l) = firstn (a + b) l.
Proof.
  revert l. induction a as [|a IH]; intros l; simpl; [reflexivity|].
  destruct l as [|x l]; simpl; [destruct b; reflexivity|].
  rewrite IH. reflexivity.
Qed.

Lemma slices_concat {A : Type} (size n : nat) (l : list A) :
  concat (List.map (fun k => firstn size (skipn (k * size) l)) (seq 0 n)) = firstn (n * size) l.
Proof.
  induction n as [|n IH]; [reflexivity|].
  rewrite seq_S, List.map_app, concat_app, IH. simpl.
  rewrite app_nil_r, firstn_then_next. f_equal. lia.
Qed.

Lemma pageOf_slice (cid : string) (limit : Z) (ms : list Message.t) (k : nat) :
  (1 <= limit)%Z ->
  pageOf cid limit ms (Z.of_nat k + 1)
  = firstn (Z.to_nat limit) (skipn (k * Z.to_nat limit) (newestOf cid ms)).
Proof.
  intros Hlimit. unfold pageOf, Message.getForConversation, newestOf.
  replace (Z.to_nat ((Z.of_nat k + 1 - 1) * limit)) with (k * Z.to_nat limit)%nat; [reflexivity|].
  replace (Z.of_nat k + 1 - 1)%Z with (Z.of_nat k) by lia.
  rewrite Z2Nat.inj_mul by lia. rewrite Nat2Z.id. reflexivity.
Qed.

Lemma pages_bounds (total limit : Z) :
  (0 <= total)%Z -> (1 <= limit)%Z ->
  (0 <= Routes.pages total limit)%Z /\
  ((Routes.pages total limit - 1) * limit < total \/ total = 0%Z /\ Routes.pages total limit = 0%Z)%Z /\
  (total <= Routes.pages total limit * limit)%Z.
Proof.
  intros Htotal Hlimit. unfold Routes.pages.
  pose proof (Z.mul_div_le (total + limit - 1) limit ltac:(lia)) as Hle.
  pose proof (Z.mul_succ_div_gt (total + limit - 1) limit ltac:(lia)) as Hgt.
  pose proof (Z.div_pos (total + limit - 1) limit ltac:(lia) ltac:(lia)) as Hpos.
  split; [exact Hpos|]. split; [|nia].
  destruct (Z.eq_dec total 0) as [->|Hne]; [right|left; nia].
  split; [reflexivity|]. apply Z.div_small. lia.
Qed.

(** The pages of a conversation, from the first to the last one the route
    announces, are its messages newest first, each once; no page is longer
    than [limit], the announced pages are not empty and the later ones
    are. *)
Theorem pages_partition_the_conversation (cid : string) (limit : Z) (ms : list Message.t) :
  (1 <= limit)%Z ->
  concat (List.map (fun k => pageOf cid limit ms (Z.of_nat k + 1))
            (seq 0 (Z.to_nat (Routes.pages (totalOf cid ms) limit))))
  = newestOf cid ms /\
  (forall page, (1 <= page)%Z -> (length (pageOf cid limit ms page) <= Z.to_nat limit)%nat) /\
  (forall page, (1 <= page <= Routes.pages (totalOf cid ms) limit)%Z -> pageOf cid limit ms page <> []) /\
  (forall page, (Routes.pages (totalOf cid ms) limit < page)%Z -> pageOf cid limit ms page = []).
Proof.
  intros Hlimit.
  assert (Hlen : Z.of_nat (length (newestOf cid ms)) = totalOf cid ms).
  { unfold newestOf, totalOf. rewrite sortNewestFirst_length. reflexivity. }
  destruct (pages_bounds (totalOf cid ms) limit) as (Hpos & Hlast & Hcover);
    [unfold totalOf; lia|exact Hlimit|].
  repeat split.
  - rewrite (List.map_ext _ (fun k => firstn (Z.to_nat limit)
                                       (skipn (k * Z.to_nat limit) (newestOf cid ms))))
      by (intros k; apply pageOf_slice; exact Hlimit).
    rewrite slices_concat. apply firstn_all2. nia.
  - intros page Hpage. unfold pageOf, Message.getForConversation.
    rewrite length_firstn. lia.
  - intros page Hpage Hempty.
    assert (Hnil : length (pageOf cid limit ms page) = 0%nat) by (rewrite Hempty; reflexivity).
    unfold pageOf, Message.getForConversation in Hnil. fold (newestOf cid ms) in Hnil.
    rewrite length_firstn, length_skipn in Hnil. nia.
  - intros page Hpage. unfold pageOf, Message.getForConversation. fold (newestOf cid ms).
    rewrite skipn_all2; [destruct (Z.to_nat limit); reflexivity|]. nia.
Qed.

Lemma Forall2_same_length {A B : Type} (R : A -> B -> Prop) (l : list A) (l' : list B) :
  Forall2 R l l' -> length l = length l'.
Proof. induction 1; simpl; congruence. Qed.

Lemma pageValidation_failures (page limit : option Z) :
  Routes.pageValidation page limit <> [] <->
  (exists p, page = Some p /\ (p < 1)%Z) \/
  (exists l, limit = Some l /\ (l < 1 \/ 100 < l)%Z).
Proof.
  unfold Routes.pageValidation. split.
  - intros Hbad. destruct page as [p|].
    + destruct (1 <=? p)%Z eqn:Hp; [|left; exists p; split; [reflexivity|lia]].
      destruct limit as [l|]; [|contradiction].
      destruct ((1 <=? l)%Z && (l <=? 100)%Z) eqn:Hl; [contradiction|].
      right. exists l. split; [reflexivity|]. apply andb_false_iff in Hl. lia.
    + destruct limit as [l|]; [|contradiction].
      destruct ((1 <=? l)%Z && (l <=? 100)%Z) eqn:Hl; [contradiction|].
      right. exists l. split; [reflexivity|]. apply andb_false_iff in Hl. lia.
  - intros [(p & -> & Hp)|(l & -> & Hl)].
    + replace (1 <=? p)%Z with false by lia. discriminate.
    + replace ((1 <=? l)%Z && (l <=? 100)%Z) with false
        by (symmetry; apply andb_false_iff; lia).
      destruct page as [p|]; [destruct (1 <=? p)%Z|]; discriminate.
Qed.

(** [GET /conversations/:conversationId/messages] refuses a page below 1
    and a limit outside 1..100 with status 400 and marks nothing read;
    otherwise a page it returns holds as many messages as it announces, at
    most [limit] of them (50 when no limit is given, never more than 100),
    together with the number of messages of the conversation and the
    number of pages they fill. *)
Theorem page_size_is_bounded `{Platform} (env : Env) (requester : User.t) (cid : string)
    (page limit : option Z) (st : Store) :
  (Routes.pageValidation page limit <> [] <->
   (exists p, page = Some p /\ (p < 1)%Z) \/
   (exists l, limit = Some l /\ (l < 1 \/ 100 < l)%Z)) /\
  (Routes.pageValidation page limit <> [] ->
   Routes.getMessages env requester cid page limit st
   = (invalid "Paramètres invalides" (Routes.pageValidation page limit), st)) /\
  (forall shown pagination,
     payload (fst (Routes.getMessages env requester cid page limit st))
     = MessagesPayload shown pagination ->
     length shown = pg_count pagination /\
     (Z.of_nat (pg_count pagination) <= default 50%Z limit <= 100)%Z /\
     pg_current pagination = default 1%Z page /\ (1 <= pg_current pagination)%Z /\
     Z.of_nat (pg_totalItems pagination) = totalOf cid (messages st) /\
     pg_total pagination = Routes.pages (totalOf cid (messages st)) (default 50%Z limit)).
Proof.
  split; [apply pageValidation_failures|]. split.
  - intros Hbad. rewrite getMessages_cases.
    destruct (Routes.pageValidation page limit); [contradiction|reflexivity].
  - intros shown pagination. rewrite getMessages_cases.
    destruct (Routes.pageValidation page limit) eqn:Hvalid; [|discriminate].
    assert (Hgood : ~ (Routes.pageValidation page limit <> [])) by (rewrite Hvalid; tauto).
    rewrite pageValidation_failures in Hgood.
    destruct (stored st cid) as [c|]; [|discriminate].
    destruct (Conversation.hasUserId _ c); [|discriminate].
    cbv zeta.
    destruct (Routes.mapOutcome _ _) as [formatted|e] eqn:Hmap; [|discriminate].
    simpl. intros Hpayload. inversion Hpayload; subst shown pagination; clear Hpayload. simpl.
    apply mapOutcome_Forall2, Forall2_same_length in Hmap. rewrite length_rev in Hmap.
    assert (Hp : (1 <= default 1%Z page)%Z).
    { destruct page as [p|]; simpl; [|lia].
      destruct (Z_lt_le_dec p 1); [|assumption]. exfalso. apply Hgood. left. eauto. }
    assert (Hl : (1 <= default 50%Z limit <= 100)%Z).
    { destruct limit as [l|]; simpl; [|lia].
      destruct (Z_lt_le_dec l 1); [exfalso; apply Hgood; right; exists l; split; [reflexivity|lia]|].
      destruct (Z_lt_le_dec 100 l); [exfalso; apply Hgood; right; exists l; split; [reflexivity|lia]|].
      lia. }
    assert (Hcount : (length (Message.getForConversation cid (Z.to_nat (default 50%Z limit))
                                (Z.to_nat ((default 1%Z page - 1) * default 50%Z limit))
                                (messages st)) <= Z.to_nat (default 50%Z limit))%nat).
    { unfold Message.getForConversation. rewrite length_firstn. lia. }
    split; [symmetry; exact Hmap|]. split; [lia|]. split; [reflexivity|].
    split; [exact Hp|]. split; reflexivity.
Qed.

(** * Searching every conversation *)

Lemma searchValidation_everywhere (q : string) :
  Routes.searchValidation q None = [] <-> Text.trim q <> "".
Proof.
  unfold Routes.searchValidation. rewrite app_nil_r.
  destruct (String.eqb (Text.trim q) "") eqn:Hq.
  - apply String.eqb_eq in Hq. split; [discriminate|contradiction].
  - apply String.eqb_neq in Hq. split; [intros _; exact Hq|reflexivity].
Qed.

Lemma getSearch_everywhere `{Platform} (requester : User.t) (q : string) (st : Store) :
  Routes.getSearch requester q None st =
  match Routes.searchValidation q None with
  | (_ :: _) as errors => (invalid "Paramètres invalides" errors, st)
  | [] =>
      match Routes.mapOutcome (Routes.formatFound (users st))
              (Routes.searchEverywhere (User._id requester) (Text.trim q) st) with
      | Return formatted =>
          (mkResponse 200 true None []
             (SearchPayload formatted
                (length (Routes.searchEverywhere (User._id requester) (Text.trim q) st))), st)
      | Throw _ => (internalError, st)
      end
  end.
Proof.
  unfold Routes.getSearch, respond, Routes.getSearchHandler.
  destruct (Routes.searchValidation q None); [|reflexivity].
  cbn [andThen getStore await].
  destruct (Routes.mapOutcome _ _); reflexivity.
Qed.

(** The search without [conversationId] finds at most 20 messages, newest
    first, every one of them stored in an active conversation in which the
    requester takes part and matching the query; the route searches for the
    trimmed query, refuses a blank one with status 400, reports the
    messages found in the same order with their number, and writes
    nothing. *)
Theorem global_search_is_confined `{Platform} (requester : User.t) (q : string) (st : Store) :
  (length (Routes.searchEverywhere (User._id requester) q st) <= 20)%nat /\
  newestFirst (Routes.searchEverywhere (User._id requester) q st) /\
  (forall m, In m (Routes.searchEverywhere (User._id requester) q st) ->
     In m (messages st) /\ regexTest q (Message.content m) = true /\
     exists c, In c (conversations st) /\ Conversation._id c = Message.conversationId m /\
               In (User._id requester) (participantIds c) /\ Conversation.isActive c = true) /\
  snd (Routes.getSearch requester q None st) = st /\
  (Text.trim q = "" ->
   Routes.getSearch requester q None st
   = (invalid "Paramètres invalides" [mkFieldError "q" "Terme de recherche requis"], st)) /\
  (forall found count,
     payload (fst (Routes.getSearch requester q None st)) = SearchPayload found count ->
     count = length found /\
     Forall2 (fun m view =>
                sr_id view = Message._id m /\ sr_content view = Message.content m /\
                sr_senderId view = Message.senderId m /\
                sr_createdAt view = Message.createdAt m)
             (Routes.searchEverywhere (User._id requester) (Text.trim q) st) found).
Proof.
  split; [unfold Routes.searchEverywhere; rewrite length_firstn; lia|].
  split; [apply firstn_newestFirst, sortNewestFirst_sorted|].
  split; [|split; [apply getSearch_store|split]].
  - intros m Hm. unfold Routes.searchEverywhere in Hm.
    apply firstn_subset in Hm. rewrite sortNewestFirst_In in Hm.
    apply filter_In in Hm as [Hin Htest]. apply andb_true_iff in Htest as [Hconv Hmatch].
    split; [exact Hin|]. split; [exact Hmatch|].
    apply existsb_exists in Hconv as (i & Hi & Hid). apply String.eqb_eq in Hid.
    apply in_map_iff in Hi as (c & Hc & Hmine). apply filter_In in Hmine as [Hstored Hpart].
    apply andb_true_iff in Hpart as [Hpart Hactive].
    exists c. split; [exact Hstored|]. split; [congruence|].
    split; [apply hasUserId_In; exact Hpart|exact Hactive].
  - intros Hblank. rewrite getSearch_everywhere. unfold Routes.searchValidation.
    rewrite Hblank. reflexivity.
  - intros found count. rewrite getSearch_everywhere.
    destruct (Routes.searchValidation q None); [|discriminate].
    destruct (Routes.mapOutcome _ _) as [formatted|e] eqn:Hmap; [|discriminate].
    simpl. intros Hpayload. inversion Hpayload; subst found count; clear Hpayload.
    apply mapOutcome_Forall2 in Hmap. split.
    + apply Forall2_same_length in Hmap. exact Hmap.
    + eapply Forall2_impl; [|exact Hmap]. intros m view Hfmt.
      unfold Routes.formatFound in Hfmt.
      destruct (User.findById _ _) as [u|] eqn:Hu; [|discriminate].
      inversion Hfmt; subst view. simpl. apply findById_id in Hu.
      repeat split; try reflexivity. exact Hu.
Qed.

(** * Marking read *)

Lemma updateFirst_twice {A : Type} (test : A -> bool) (f g : A -> A) (l : list A) :
  (forall x, test (f x) = test x) ->
  updateFirst test g (updateFirst test f l) = updateFirst test (fun x => g (f x)) l.
Proof.
  intros Hkeep. induction l as [|x l IH]; simpl; [reflexivity|].
  destruct (test x) eqn:Hx; simpl.
  - rewrite Hkeep, Hx. reflexivity.
  - rewrite Hx, IH. reflexivity.
Qed.

Lemma updateFirst_ext {A : Type} (test : A -> bool) (f g : A -> A) (l : list A) :
  (forall x, f x = g x) -> updateFirst test f l = updateFirst test g l.
Proof.
  intros Hfg. induction l as [|x l IH]; simpl; [reflexivity|].
  rewrite Hfg, IH. reflexivity.
Qed.

Lemma markConversationAsRead_twice (now now' : Z) (cid uid : string) (ms : list Message.t) :
  Message.markConversationAsRead now' cid uid (Message.markConversationAsRead now cid uid ms)
  = Message.markConversationAsRead now cid uid ms.
Proof.
  unfold Message.markConversationAsRead. rewrite List.map_map. apply List.map_ext.
  intros m. destruct (Message.unreadFrom cid uid m) eqn:Hm.
  - unfold Message.unreadFrom in *. simpl. rewrite andb_false_r. reflexivity.
  - rewrite Hm. reflexivity.
Qed.

Lemma hasUserId_setUnreadCount (uid : string) (counts : gmap string Z) (c : Conversation.t) :
  Conversation.hasUserId uid (Conversation.setUnreadCount counts c) = Conversation.hasUserId uid c.
Proof. reflexivity. Qed.

(** [PUT /conversations/:conversationId/read] repeated changes nothing
    more: the second call gives the answer of the first and leaves the
    collections as the first left them, the dates of reading included. *)
Theorem marking_read_twice_changes_nothing `{Platform} (env env' : Env) (requester : User.t)
    (cid : string) (st : Store) :
  Routes.putRead env' requester cid (snd (Routes.putRead env requester cid st))
  = Routes.putRead env requester cid st.
Proof.
  rewrite (putRead_cases env requester cid st).
  destruct (stored st cid) as [c|] eqn:Hc; simpl.
  - destruct (Conversation.hasUserId (User._id requester) c) eqn:Hpart; simpl.
    + rewrite putRead_cases, stored_afterRead by exact Hc. cbv beta iota.
      rewrite hasUserId_setUnreadCount, Hpart.
      f_equal. unfold afterRead. destruct st as [us ss cs ms]. simpl.
      unfold setMessages, setConversations. simpl. f_equal.
      * unfold Conversation.save. simpl.
        rewrite updateFirst_twice by (intros x; destruct x; reflexivity).
        apply updateFirst_ext. intros x. unfold Conversation.writeModified. simpl.
        unfold Conversation.setUnreadCount. simpl. rewrite insert_insert_eq. reflexivity.
      * apply markConversationAsRead_twice.
    + rewrite putRead_cases, Hc, Hpart. reflexivity.
  - rewrite putRead_cases, Hc. reflexivity.
Qed.

Lemma filter_map_length {A B : Type} (p : B -> bool) (f : A -> B) (l : list A) :
  length (List.filter p (List.map f l)) = length (List.filter (fun x => p (f x)) l).
Proof.
  induction l as [|x l IH]; simpl; [reflexivity|].
  destruct (p (f x)); simpl; rewrite IH; reflexivity.
Qed.

Lemma sameParties_membership (uid key : string) (cs cs' : list Conversation.t) :
  Forall2 sameParties cs cs' ->
  existsb (Conversation.hasUserId uid)
    (List.filter (fun c => String.eqb (Conversation._id c) key) cs')
  = existsb (Conversation.hasUserId uid)
      (List.filter (fun c => String.eqb (Conversation._id c) key) cs).
Proof.
  induction 1 as [|c c' cs cs' (Hid & Hparts & _) Hrest IH]; simpl; [reflexivity|].
  rewrite Hid. destruct (String.eqb (Conversation._id c) key); simpl; [|exact IH].
  rewrite IH. unfold Conversation.hasUserId. rewrite Hparts. reflexivity.
Qed.

Lemma unreadFor_sameParties (uid : string) (cs cs' : list Conversation.t) (m : Message.t) :
  Forall2 sameParties cs cs' -> Message.unreadFor uid cs' m = Message.unreadFor uid cs m.
Proof.
  intros Hsame. unfold Message.unreadFor.
  rewrite (sameParties_membership uid (Message.conversationId m) cs cs' Hsame). reflexivity.
Qed.

(** The unread messages left after the conversation [cid] was marked read. *)
Lemma unread_after_marking (now : Z) (cid uid : string) (cs cs' : list Conversation.t)
    (ms : list Message.t) :
  Forall2 sameParties cs cs' ->
  length (List.filter (Message.unreadFor uid cs') (Message.markConversationAsRead now cid uid ms))
  = length (List.filter (fun m => Message.unreadFor uid cs m
                                  && negb (Message.inConversation cid m)) ms).
Proof.
  intros Hsame. unfold Message.markConversationAsRead. rewrite filter_map_length.
  f_equal. apply List.filter_ext. intros m.
  destruct (Message.unreadFrom cid uid m) eqn:Hm.
  - unfold Message.unreadFrom in Hm. apply andb_true_iff in Hm as [Hm _].
    apply andb_true_iff in Hm as [Hm _]. rewrite Hm.
    unfold Message.unreadFor. simpl. rewrite !andb_false_r. reflexivity.
  - rewrite (unreadFor_sameParties uid cs cs' m Hsame).
    destruct (Message.inConversation cid m) eqn:Hin; simpl; [|rewrite andb_true_r; reflexivity].
    rewrite andb_false_r. unfold Message.unreadFrom in Hm. rewrite Hin in Hm. simpl in Hm.
    unfold Message.unreadFor.
    destruct (negb (String.eqb (Message.senderId m) uid)); simpl in *;
      [rewrite Hm|]; rewrite ?andb_false_r; reflexivity.
Qed.

(** Once a participant marked a conversation read, [GET /unread-count]
    counts for that user the unread messages of the other conversations
    only. *)
Theorem unread_total_after_marking_read `{Platform} (env : Env) (requester : User.t)
    (cid : string) (st : Store) (c : Conversation.t) :
  stored st cid = Some c ->
  In (User._id requester) (participantIds c) ->
  Routes.getUnreadCount requester (snd (Routes.putRead env requester cid st))
  = (unreadTotal
       (Z.of_nat (length (List.filter
                            (fun m => Message.unreadFor (User._id requester) (conversations st) m
                                      && negb (Message.inConversation cid m))
                            (messages st)))),
     snd (Routes.putRead env requester cid st)).
Proof.
  intros Hc Hpart. rewrite getUnreadCount_counts. f_equal. f_equal. f_equal.
  rewrite putRead_cases, Hc. apply hasUserId_In in Hpart. rewrite Hpart. simpl.
  apply unread_after_marking. apply save_sameParties.
Qed.

(** * Sending: what is accepted and what is not *)

Lemma drafted_valid (env : Env) (requester : User.t) (cid : string) (body : Routes.MessageBody) :
  Routes.messageValidation body = [] ->
  Message.validationErrors (drafted env requester cid body)
  = if forallb Message.attachmentOk (default [] (Routes.b_attachments body))
    then [] else ["attachments.type"].
Proof.
  intros Hvalid. unfold Routes.messageValidation in Hvalid.
  apply app_eq_nil in Hvalid as [Htext Hkind].
  apply textErrors_nil in Htext. unfold lengthInRange in Htext.
  unfold Message.validationErrors, drafted, Message.new.
  cbn [Message.senderName Message.content Message.messageType Message.attachments].
  rewrite fullName_nonempty, trim_idempotent.
  destruct (String.eqb (Text.trim (Routes.b_content body)) "") eqn:Hempty.
  { apply String.eqb_eq in Hempty. rewrite Hempty in Htext. simpl in Htext. lia. }
  replace (1000 <? String.length (Text.trim (Routes.b_content body)))%nat with false
    by (symmetry; apply Nat.ltb_ge; lia).
  assert (Henum : Message.inEnum Message.messageTypes (default "text" (Routes.b_messageType body))
                  = true).
  { destruct (Routes.b_messageType body) as [k|]; [|reflexivity].
    change (Message.inEnum Message.messageTypes k = true).
    destruct (Message.inEnum Message.messageTypes k); [reflexivity|discriminate]. }
  rewrite Henum. reflexivity.
Qed.

Lemma postMessage_accepts `{Platform} (env : Env) (requester u : User.t)
    (cid : string) (body : Routes.MessageBody) (st : Store) (c : Conversation.t) :
  stored st cid = Some c ->
  In (User._id requester) (participantIds c) ->
  User.findById (users st) (User._id requester) = Some u ->
  Routes.messageValidation body = [] ->
  forallb Message.attachmentOk (default [] (Routes.b_attachments body)) = true ->
  exists view,
    Routes.postMessage env requester cid body st
    = (sent view, afterSend env requester cid body c st) /\
    mv_id view = newId env 0 /\
    mv_content view = Text.trim (Routes.b_content body) /\
    mv_messageType view = default "text" (Routes.b_messageType body) /\
    s_id (mv_sender view) = User._id requester /\
    s_name (mv_sender view) = User.fullName requester /\
    mv_isFromCurrentUser view = true /\
    mv_isRead view = false /\
    mv_createdAt view = clock env 0.
Proof.
  intros Hc Hpart Hu Hvalid Hfiles. apply hasUserId_In in Hpart.
  rewrite postMessage_cases, Hvalid, Hc, Hpart, (drafted_valid env requester cid body Hvalid), Hfiles.
  unfold Routes.formatSent, Routes.senderOf, composed, drafted, Message.new.
  cbn [Message.setCreatedAt Message.senderId Message.senderName Message._id Message.content
       Message.messageType Message.attachments Message.isRead Message.isEdited
       Message.createdAt Message.readAt Message.editedAt].
  rewrite Hu. cbn [bind]. eexists. split; [reflexivity|]. simpl.
  apply findById_id in Hu. rewrite trim_idempotent. repeat split; try reflexivity. exact Hu.
Qed.

(** A message of a participant that passes the route's validation and
    whose attachments are of the types the schema lists is stored and
    answered with status 201; the answer shows it under the generated
    identifier with its trimmed content, its type (["text"] when none is
    given), its sender and the date of its creation. *)
Theorem valid_message_is_accepted `{Platform} (env : Env) (requester u : User.t)
    (cid : string) (body : Routes.MessageBody) (st : Store) (c : Conversation.t) :
  stored st cid = Some c ->
  In (User._id requester) (participantIds c) ->
  User.findById (users st) (User._id requester) = Some u ->
  Routes.messageValidation body = [] ->
  forallb Message.attachmentOk (default [] (Routes.b_attachments body)) = true ->
  castable (Routes.b_replyTo body) ->
  exists view,
    Routes.postMessage env requester cid body st
    = (sent view, afterSend env requester cid body c st) /\
    mv_id view = newId env 0 /\
    mv_content view = Text.trim (Routes.b_content body) /\
    mv_messageType view = default "text" (Routes.b_messageType body) /\
    s_id (mv_sender view) = User._id requester /\
    s_name (mv_sender view) = User.fullName requester /\
    mv_isFromCurrentUser view = true /\
    mv_isRead view = false /\
    mv_createdAt view = clock env 0.
Proof.
  intros Hc Hpart Hu Hvalid Hfiles _. eapply postMessage_accepts; eassumption.
Qed.

(** The route does not look at the attachments; an attachment whose type
    is not one the schema lists makes [save()] throw, and the request is
    answered with status 500, nothing being stored. *)
Theorem unknown_attachment_type_is_a_server_error `{Platform} (env : Env)
    (requester : User.t) (cid : string) (body : Routes.MessageBody) (st : Store)
    (c : Conversation.t) (files : list Message.Attachment) :
  stored st cid = Some c ->
  In (User._id requester) (participantIds c) ->
  Routes.messageValidation body = [] ->
  Routes.b_attachments body = Some files ->
  forallb Message.attachmentOk files = false ->
  Routes.postMessage env requester cid body st = (internalError, st) /\
  status internalError = 500%Z.
Proof.
  intros Hc Hpart Hvalid Hfiles Hbad. apply hasUserId_In in Hpart.
  rewrite postMessage_cases, Hvalid, Hc, Hpart, (drafted_valid env requester cid body Hvalid).
  rewrite Hfiles. simpl. rewrite Hbad. split; reflexivity.
Qed.

(** * Requests that are refused *)

Lemma getConversation_cases `{Platform} (requester : User.t) (cid : string) (st : Store) :
  Routes.getConversation requester cid st =
  match stored st cid with
  | None => (conversationNotFound, st)
  | Some c =>
      if Conversation.isActive c then
        match Conversation.hasParticipant (Conversation.mkDoc c (Some (users st)))
                (User._id requester) with
        | Throw _ => (internalError, st)
        | Return false => (accessDenied, st)
        | Return true =>
            let st' := setConversations
                         (snd (Conversation.markAsRead (User._id requester)
                                 (Conversation.mkDoc c (Some (users st))) (conversations st)))
                         st in
            match Routes.otherParticipant (users st) (User._id requester)
                    (Conversation.participants c) with
            | Return other =>
                (opened c other (Routes.serviceView (services st) (Conversation.serviceId c)), st')
            | Throw _ => (internalError, st')
            end
        end
      else (conversationNotFound, st)
  end.
Proof.
  unfold Routes.getConversation, respond, Routes.getConversationHandler.
  cbn [andThen getStore]. rewrite findById_stored.
  destruct (stored st cid) as [c|]; simpl; [|reflexivity].
  destruct (Conversation.isActive c); simpl; [|reflexivity].
  destruct (Conversation.hasParticipant _ _) as [[|]|e]; simpl; try reflexivity.
  destruct (Routes.otherParticipant _ _ _); reflexivity.
Qed.

Lemma openWith_status `{Platform} (env : Env) (requester other : User.t) (text : string)
    (d : Conversation.doc) (st : Store) :
  status (fst (respond (Routes.openWith env requester other text d) st)) = 201%Z \/
  status (fst (respond (Routes.openWith env requester other text d) st)) = 500%Z.
Proof.
  unfold respond, Routes.openWith. cbn [andThen getStore await].
  destruct (Message.save _ _ _ _ _) as [[[m' synced] appended]|e]; [|right; reflexivity].
  cbn [andThen putStore await].
  destruct (Conversation.updateLastMessage _ _ _ _ _) as [[d' cs']|e]; [left|right]; reflexivity.
Qed.

Lemma serve_refused `{Platform} (env : Env) (requester : User.t) (r : Request) (st : Store) :
  (400 <= status (fst (serve env requester r st)) < 500)%Z ->
  snd (serve env requester r st) = st.
Proof.
  destruct r as [cid|cid page limit|cid body|body|cid| |q cid]; simpl.
  - rewrite getConversation_cases.
    destruct (stored st cid) as [c|]; [|reflexivity].
    destruct (Conversation.isActive c); [|reflexivity].
    destruct (Conversation.hasParticipant _ _) as [[|]|e]; try reflexivity.
    cbv zeta. destruct (Routes.otherParticipant _ _ _); simpl; lia.
  - rewrite getMessages_cases.
    destruct (Routes.pageValidation page limit); [|reflexivity].
    destruct (stored st cid) as [c|]; [|reflexivity].
    destruct (Conversation.hasUserId _ c); [|reflexivity].
    cbv zeta. destruct (Routes.mapOutcome _ _); simpl; lia.
  - rewrite postMessage_cases.
    destruct (Routes.messageValidation body); [|reflexivity].
    destruct (stored st cid) as [c|]; [|reflexivity].
    destruct (Conversation.hasUserId _ c); [|reflexivity].
    destruct (Message.validationErrors _); [|reflexivity].
    destruct (Routes.formatSent _ _); simpl; lia.
  - rewrite postConversation_cases.
    destruct (Routes.conversationValidation body); [|reflexivity].
    destruct (String.eqb _ _); [reflexivity|].
    destruct (User.findById _ _) as [other|]; [|reflexivity].
    destruct (User.isActive other); [|reflexivity].
    rewrite findOrCreate_cases.
    assert (Hopen : forall d st0,
              (400 <= status (fst (respond (Routes.openWith env requester other
                                              (Text.trim (Routes.b_initialMessage body)) d) st0))
               < 500)%Z ->
              snd (respond (Routes.openWith env requester other
                              (Text.trim (Routes.b_initialMessage body)) d) st0) = st).
    { intros d st0 Hstatus.
      destruct (openWith_status env requester other
                  (Text.trim (Routes.b_initialMessage body)) d st0) as [Hs|Hs];
        rewrite Hs in Hstatus; lia. }
    destruct (Conversation.findBetweenUsers _ _ _ _) as [d|]; [apply Hopen|].
    destruct (Routes.b_serviceId body) as [sid|]; [|apply Hopen].
    destruct (Service.findById _ _) as [service|]; [|reflexivity].
    destruct (Service.isActive service); [apply Hopen|reflexivity].
  - rewrite putRead_cases.
    destruct (stored st cid) as [c|]; [|reflexivity].
    destruct (Conversation.hasUserId _ c); [simpl; lia|reflexivity].
  - lia.
  - intros _. apply getSearch_store.
Qed.

(** A request answered with a status from 400 to 499 has written nothing:
    the users, the services, the conversations and the messages are as they
    were. *)
Theorem refused_requests_write_nothing `{Platform} (env : Env) (requester : User.t)
    (r : Request) (st : Store) :
  (400 <= status (fst (serve env requester r st)) < 500)%Z ->
  snd (serve env requester r st) = st.
Proof. apply serve_refused. Qed.

Lemma getSearch_within `{Platform} (requester : User.t) (q cid : string) (st : Store) :
  Routes.searchValidation q (Some cid) = [] ->
  Routes.getSearch requester q (Some cid) st =
  match stored st cid with
  | None => (conversationNotFound, st)
  | Some c =>
      if Conversation.hasUserId (User._id requester) c then
        match Routes.mapOutcome (Routes.formatFound (users st))
                (Message.searchInConversation cid (Text.trim q) (messages st)) with
        | Return formatted =>
            (mkResponse 200 true None []
               (SearchPayload formatted
                  (length (Message.searchInConversation cid (Text.trim q) (messages st)))), st)
        | Throw _ => (internalError, st)
        end
      else (conversationNotFound, st)
  end.
Proof.
  intros Hvalid. unfold Routes.getSearch, respond, Routes.getSearchHandler. rewrite Hvalid.
  cbn [andThen getStore]. rewrite missingOrOutsider_plain. cbn [await andThen].
  destruct (stored st cid) as [c|]; [|reflexivity].
  destruct (Conversation.hasUserId (User._id requester) c); [|reflexivity].
  cbn [andThen await]. destruct (Routes.mapOutcome _ _); reflexivity.
Qed.

(** An identifier under which no conversation is stored is answered with
    status 404 and "Conversation non trouvée" by the five routes that take
    one, nothing being written; [GET /conversations/:conversationId] gives
    the same answer for a stored conversation that is not active. *)
Theorem unknown_conversation_is_not_found `{Platform} (env : Env) (requester : User.t)
    (cid : string) (st : Store) (page limit : option Z) (body : Routes.MessageBody)
    (q : string) :
  canonicalId cid = true ->
  (stored st cid = None \/
   exists c, stored st cid = Some c /\ Conversation.isActive c = false) ->
  Routes.getConversation requester cid st = (conversationNotFound, st) /\
  status conversationNotFound = 404%Z /\
  (stored st cid = None ->
   (Routes.pageValidation page limit = [] ->
    Routes.getMessages env requester cid page limit st = (conversationNotFound, st)) /\
   (Routes.messageValidation body = [] ->
    Routes.postMessage env requester cid body st = (conversationNotFound, st)) /\
   Routes.putRead env requester cid st = (conversationNotFound, st) /\
   (Routes.searchValidation q (Some cid) = [] ->
    Routes.getSearch requester q (Some cid) st = (conversationNotFound, st))).
Proof.
  intros _ Hmissing. split; [|split; [reflexivity|]].
  - rewrite getConversation_cases.
    destruct Hmissing as [->|(c & -> & ->)]; reflexivity.
  - intros Hnone. repeat split.
    + intros Hvalid. rewrite getMessages_cases, Hvalid, Hnone. reflexivity.
    + intros Hvalid. rewrite postMessage_cases, Hvalid, Hnone. reflexivity.
    + rewrite putRead_cases, Hnone. reflexivity.
    + intros Hvalid. rewrite getSearch_within by exact Hvalid. rewrite Hnone. reflexivity.
Qed.

(** * What the routes keep true of the two collections *)

Lemma sameParties_forth (cs cs' : list Conversation.t) (c : Conversation.t) :
  Forall2 sameParties cs cs' -> In c cs -> exists c', In c' cs' /\ sameParties c c'.
Proof.
  induction 1 as [|x x' cs cs' Hx Hrest IH]; intros Hin; [destruct Hin|].
  destruct Hin as [->|Hin]; [exists x'; split; [left; reflexivity|exact Hx]|].
  destruct (IH Hin) as (c' & Hc' & Hsame). exists c'. split; [right; exact Hc'|exact Hsame].
Qed.

Lemma sameParties_back (cs cs' : list Conversation.t) (c' : Conversation.t) :
  Forall2 sameParties cs cs' -> In c' cs' -> exists c, In c cs /\ sameParties c c'.
Proof.
  induction 1 as [|x x' cs cs' Hx Hrest IH]; intros Hin; [destruct Hin|].
  destruct Hin as [->|Hin]; [exists x; split; [left; reflexivity|exact Hx]|].
  destruct (IH Hin) as (c & Hc & Hsame). exists c. split; [right; exact Hc|exact Hsame].
Qed.

Lemma sameParties_ids (c c' : Conversation.t) :
  sameParties c c' -> participantIds c' = participantIds c.
Proof. intros (_ & Hparts & _). unfold participantIds. rewrite Hparts. reflexivity. Qed.

Lemma linked_sameParties (cs cs' : list Conversation.t) (m : Message.t) :
  Forall2 sameParties cs cs' -> linked cs m -> linked cs' m.
Proof.
  intros Hsame (c & Hin & Hid & Hsender).
  destruct (sameParties_forth cs cs' c Hsame Hin) as (c' & Hin' & Hc').
  exists c'. split; [exact Hin'|]. rewrite (sameParties_ids c c' Hc').
  destruct Hc' as (Hid' & _). split; [congruence|exact Hsender].
Qed.

Lemma tidy_sameParties (cs cs' : list Conversation.t) (ms : list Message.t) :
  Forall2 sameParties cs cs' -> tidy cs ms -> tidy cs' ms.
Proof.
  intros Hsame (Hpairs & Hone & Hlinks). split; [|split].
  - apply Forall_forall. intros c' Hin'.
    destruct (sameParties_back cs cs' c' Hsame Hin') as (c & Hin & Hc).
    rewrite Forall_forall in Hpairs. destruct (Hpairs c Hin) as (Hactive & a & b & Hids).
    split; [destruct Hc as (_ & _ & ->); exact Hactive|].
    exists a, b. rewrite (sameParties_ids c c' Hc). exact Hids.
  - intros c1' c2' a b Hin1 Hin2 Hab Ha1 Hb1 Ha2 Hb2.
    destruct (sameParties_back cs cs' c1' Hsame Hin1) as (c1 & Hc1 & Hs1).
    destruct (sameParties_back cs cs' c2' Hsame Hin2) as (c2 & Hc2 & Hs2).
    rewrite (sameParties_ids c1 c1' Hs1) in Ha1, Hb1.
    rewrite (sameParties_ids c2 c2' Hs2) in Ha2, Hb2.
    pose proof (Hone c1 c2 a b Hc1 Hc2 Hab Ha1 Hb1 Ha2 Hb2) as Hid.
    destruct Hs1 as (-> & _). destruct Hs2 as (-> & _). exact Hid.
  - eapply Forall_impl; [|exact Hlinks]. intros m. apply linked_sameParties. exact Hsame.
Qed.

Lemma tidy_thread (cs : list Conversation.t) (ms ms' : list Message.t) :
  Forall2 sameThread ms ms' -> tidy cs ms -> tidy cs ms'.
Proof.
  intros Hsame (Hpairs & Hone & Hlinks). split; [exact Hpairs|]. split; [exact Hone|].
  induction Hsame as [|m m' ms ms' (Hconv & Hsender) Hrest IH]; [constructor|].
  inversion Hlinks as [|? ? (c & Hin & Hid & Hs) Htail]; subst.
  constructor; [|apply IH; exact Htail].
  exists c. split; [exact Hin|]. rewrite Hconv, Hsender. split; assumption.
Qed.

Lemma tidy_message (cs : list Conversation.t) (ms : list Message.t) (m : Message.t) :
  linked cs m -> tidy cs ms -> tidy cs (ms ++ [m]).
Proof.
  intros Hm (Hpairs & Hone & Hlinks). split; [exact Hpairs|]. split; [exact Hone|].
  apply Forall_app. split; [exact Hlinks|]. constructor; [exact Hm|constructor].
Qed.

Lemma between_members (a b : string) (c : Conversation.t) :
  between a b c = true <->
  In a (participantIds c) /\ In b (participantIds c) /\ Conversation.isActive c = true.
Proof.
  unfold between. rewrite !andb_true_iff, !hasUserId_In. tauto.
Qed.

Lemma tidy_start (cs : list Conversation.t) (ms : list Message.t) (c : Conversation.t) :
  startsBetween cs c -> tidy cs ms -> tidy (cs ++ [c]) ms.
Proof.
  intros (Hactive & x & y & Hids & Hnone) (Hpairs & Hone & Hlinks).
  assert (Hfresh : forall c1 a b, In c1 cs -> a <> b ->
            In a (participantIds c1) -> In b (participantIds c1) ->
            In a (participantIds c) -> In b (participantIds c) -> False).
  { intros c1 a b Hin Hab Ha1 Hb1 Ha Hb.
    rewrite Forall_forall in Hpairs. destruct (Hpairs c1 Hin) as (Hact1 & _).
    assert (Hboth : In x (participantIds c1) /\ In y (participantIds c1)).
    { rewrite Hids in Ha, Hb. simpl in Ha, Hb.
      destruct Ha as [<-|[<-|[]]]; destruct Hb as [<-|[<-|[]]]; try tauto; contradiction. }
    pose proof (List.find_none _ _ Hnone c1 Hin) as Hno.
    assert (Hyes : between x y c1 = true) by (apply between_members; tauto).
    congruence. }
  split; [|split].
  - apply Forall_app. split; [exact Hpairs|]. constructor; [|constructor].
    split; [exact Hactive|]. exists x, y. exact Hids.
  - intros c1 c2 a b Hin1 Hin2 Hab Ha1 Hb1 Ha2 Hb2.
    apply in_app_or in Hin1 as [Hin1|[<-|[]]]; apply in_app_or in Hin2 as [Hin2|[<-|[]]].
    + eapply Hone; eauto.
    + exfalso. eapply (Hfresh c1 a b); eauto.
    + exfalso. eapply (Hfresh c2 a b); eauto.
    + reflexivity.
  - eapply Forall_impl; [|exact Hlinks]. intros m (c0 & Hin & Hrest).
    exists c0. split; [apply in_or_app; left; exact Hin|exact Hrest].
Qed.

Lemma markConversationAsRead_thread (now : Z) (cid uid : string) (ms : list Message.t) :
  Forall2 sameThread ms (Message.markConversationAsRead now cid uid ms).
Proof.
  induction ms as [|m ms IH]; simpl; constructor; [|exact IH].
  destruct (Message.unreadFrom cid uid m); split; reflexivity.
Qed.

Lemma stored_linked (st : Store) (cid uid : string) (c : Conversation.t) (m : Message.t) :
  stored st cid = Some c -> Conversation.hasUserId uid c = true ->
  Message.conversationId m = cid -> Message.senderId m = uid ->
  linked (conversations st) m.
Proof.
  intros Hc Hpart Hconv Hsender. exists c. split; [eapply stored_In; exact Hc|].
  apply stored_id in Hc. split; [congruence|]. rewrite Hsender. apply hasUserId_In. exact Hpart.
Qed.

Section Keeping.
Context `{Platform}.

Lemma updateLastMessage_parties (now : Z) (text sender : string) (d : Conversation.doc)
    (cs : list Conversation.t) :
  match Conversation.updateLastMessage now text sender d cs with
  | Return (_, cs') => Forall2 sameParties cs cs'
  | Throw _ => True
  end.
Proof.
  destruct (Conversation.updateLastMessage now text sender d cs) as [[d' cs']|e] eqn:Hupd;
    [|exact I].
  eapply updateLastMessage_sameParties. exact Hupd.
Qed.

(** What [openWith] leaves: the conversations, position by position, with
    the parties they had, and at most one more message, which belongs to
    the conversation of the document and was sent by the requester. *)
Lemma openWith_keeps (env : Env) (requester other : User.t) (text : string)
    (d : Conversation.doc) (st : Store) :
  Forall2 sameParties (conversations st)
    (conversations (snd (respond (Routes.openWith env requester other text d) st))) /\
  (messages (snd (respond (Routes.openWith env requester other text d) st)) = messages st \/
   exists m, messages (snd (respond (Routes.openWith env requester other text d) st))
             = messages st ++ [m] /\
             Message.conversationId m = Conversation._id (Conversation.fields d) /\
             Message.senderId m = User._id requester).
Proof.
  rewrite respond_snd. unfold Routes.openWith. cbn [andThen getStore await].
  destruct (Message.save _ _ _ _ _) as [[[m' synced] appended]|e] eqn:Hsave;
    [|split; [apply Forall2_sameParties_refl|left; reflexivity]].
  apply save_new in Hsave as (_ & Hm & Hsynced & Happended).
  cbn [andThen putStore await].
  assert (Hmessage : Message.conversationId m' = Conversation._id (Conversation.fields d) /\
                     Message.senderId m' = User._id requester)
    by (subst m'; split; reflexivity).
  pose proof (updateLastMessage_parties (clock env 3) text (User._id requester) d synced) as Hupd.
  destruct (Conversation.updateLastMessage _ _ _ _ _) as [[d' cs']|e]; simpl.
  - split.
    + eapply Forall2_sameParties_trans; [|exact Hupd]. subst synced. apply postSave_sameParties.
    + right. exists m'. split; [exact Happended|exact Hmessage].
  - split.
    + subst synced. apply postSave_sameParties.
    + right. exists m'. split; [exact Happended|exact Hmessage].
Qed.

Lemma openWith_tidy (env : Env) (requester other : User.t) (text : string)
    (d : Conversation.doc) (st : Store) :
  In (Conversation.fields d) (conversations st) ->
  In (User._id requester) (participantIds (Conversation.fields d)) ->
  tidy (conversations st) (messages st) ->
  tidy (conversations (snd (respond (Routes.openWith env requester other text d) st)))
       (messages (snd (respond (Routes.openWith env requester other text d) st))).
Proof.
  intros Hin Hpart Htidy.
  destruct (openWith_keeps env requester other text d st) as (Hsame & [->|(m & -> & Hconv & Hs)]).
  - eapply tidy_sameParties; [exact Hsame|exact Htidy].
  - eapply tidy_sameParties; [exact Hsame|]. apply tidy_message; [|exact Htidy].
    exists (Conversation.fields d). split; [exact Hin|]. split; [congruence|].
    rewrite Hs. exact Hpart.
Qed.

Lemma made_starts (env : Env) (requester other : User.t) (sid title : option string)
    (st : Store) :
  Conversation.findBetweenUsers (users st) (conversations st) (User._id requester) (User._id other)
  = None ->
  exists c, made env requester other sid title st
            = (Conversation.mkDoc c None, conversations st ++ [c]) /\
            startsBetween (conversations st) c /\
            In (User._id requester) (participantIds c).
Proof.
  intros Hnone. unfold made, Conversation.createConversation.
  eexists. split; [reflexivity|]. split; [|left; reflexivity].
  split; [reflexivity|]. exists (User._id requester), (User._id other).
  split; [reflexivity|].
  rewrite findBetweenUsers_find in Hnone.
  unfold between. destruct (List.find _ _); [discriminate|reflexivity].
Qed.

Lemma postConversation_tidy (env : Env) (requester : User.t) (body : Routes.ConversationBody)
    (st : Store) :
  tidy (conversations st) (messages st) ->
  tidy (conversations (snd (Routes.postConversation env requester body st)))
       (messages (snd (Routes.postConversation env requester body st))).
Proof.
  intros Htidy. rewrite postConversation_cases.
  destruct (Routes.conversationValidation body); [|exact Htidy].
  destruct (String.eqb _ _) eqn:Hself; [exact Htidy|]. apply String.eqb_neq in Hself.
  destruct (User.findById _ _) as [other|] eqn:Hother; [|exact Htidy].
  apply findById_id in Hother.
  destruct (User.isActive other); [|exact Htidy].
  rewrite findOrCreate_cases.
  assert (Hcreate : forall title,
            Conversation.findBetweenUsers (users st) (conversations st) (User._id requester)
              (Routes.b_participantId body) = None ->
            tidy (conversations
                    (snd (respond (Routes.openWith env requester other
                                     (Text.trim (Routes.b_initialMessage body))
                                     (fst (made env requester other (Routes.b_serviceId body) title st)))
                            (setConversations
                               (snd (made env requester other (Routes.b_serviceId body) title st))
                               st))))
                 (messages
                    (snd (respond (Routes.openWith env requester other
                                     (Text.trim (Routes.b_initialMessage body))
                                     (fst (made env requester other (Routes.b_serviceId body) title st)))
                            (setConversations
                               (snd (made env requester other (Routes.b_serviceId body) title st))
                               st))))).
  { intros title Hnone. rewrite <- Hother in Hnone.
    destruct (made_starts env requester other (Routes.b_serviceId body) title st)
      as (c & -> & Hstart & Hpart); [exact Hnone|].
    cbn [fst snd]. apply openWith_tidy.
    - simpl. apply in_or_app. right. left. reflexivity.
    - exact Hpart.
    - simpl. apply tidy_start; assumption. }
  destruct (Conversation.findBetweenUsers _ _ _ _) as [d|] eqn:Hfind.
  - apply openWith_tidy; [| |exact Htidy].
    + apply findBetweenUsers_In in Hfind. apply Hfind.
    + rewrite findBetweenUsers_find in Hfind.
      destruct (List.find _ _) as [c|] eqn:Hc; [|discriminate].
      inversion Hfind; subst d. simpl. apply List.find_some in Hc as [_ Hc].
      apply between_members in Hc. apply Hc.
  - destruct (Routes.b_serviceId body) as [sid|].
    + destruct (Service.findById _ _) as [service|]; [|exact Htidy].
      destruct (Service.isActive service); [|exact Htidy].
      apply Hcreate. reflexivity.
    + apply Hcreate. reflexivity.
Qed.

Lemma serve_tidy (env : Env) (requester : User.t) (r : Request) (st : Store) :
  tidy (conversations st) (messages st) ->
  tidy (conversations (snd (serve env requester r st)))
       (messages (snd (serve env requester r st))).
Proof.
  intros Htidy. destruct r as [cid|cid page limit|cid body|body|cid| |q cid]; simpl.
  - rewrite getConversation_messages. rewrite getConversation_cases.
    destruct (stored st cid) as [c|]; [|exact Htidy].
    destruct (Conversation.isActive c); [|exact Htidy].
    destruct (Conversation.hasParticipant _ _) as [[|]|e]; try exact Htidy.
    cbv zeta.
    assert (Hmarked : tidy (snd (Conversation.markAsRead (User._id requester)
                                   (Conversation.mkDoc c (Some (users st))) (conversations st)))
                           (messages st))
      by (eapply tidy_sameParties; [apply save_sameParties|exact Htidy]).
    destruct (Routes.otherParticipant _ _ _); exact Hmarked.
  - rewrite getMessages_conversations. rewrite getMessages_cases.
    destruct (Routes.pageValidation page limit); [|exact Htidy].
    destruct (stored st cid) as [c|]; [|exact Htidy].
    destruct (Conversation.hasUserId _ c); [|exact Htidy].
    cbv zeta.
    assert (Hmarked : tidy (conversations st)
                           (Message.markConversationAsRead (clock env 0) cid (User._id requester)
                              (messages st)))
      by (eapply tidy_thread; [apply markConversationAsRead_thread|exact Htidy]).
    destruct (Routes.mapOutcome _ _); exact Hmarked.
  - rewrite postMessage_cases.
    destruct (Routes.messageValidation body); [|exact Htidy].
    destruct (stored st cid) as [c|] eqn:Hc; [|exact Htidy].
    destruct (Conversation.hasUserId _ c) eqn:Hpart; [|exact Htidy].
    destruct (Message.validationErrors _); [|exact Htidy].
    assert (Hsent : tidy (conversations (afterSend env requester cid body c st))
                         (messages (afterSend env requester cid body c st))).
    { unfold afterSend. simpl.
      eapply tidy_sameParties;
        [eapply Forall2_sameParties_trans; [apply postSave_sameParties|apply save_sameParties]|].
      apply tidy_message; [|exact Htidy].
      eapply stored_linked; [exact Hc|exact Hpart|reflexivity|reflexivity]. }
    destruct (Routes.formatSent _ _); exact Hsent.
  - apply postConversation_tidy. exact Htidy.
  - rewrite putRead_cases.
    destruct (stored st cid) as [c|]; [|exact Htidy].
    destruct (Conversation.hasUserId _ c); [|exact Htidy].
    unfold afterRead. simpl.
    eapply tidy_sameParties; [apply save_sameParties|].
    eapply tidy_thread; [apply markConversationAsRead_thread|exact Htidy].
  - exact Htidy.
  - rewrite getSearch_store. exact Htidy.
Qed.

Lemma reachable_tidy (w : World) :
  reachable w -> tidy (conversations (db w)) (messages (db w)).
Proof.
  induction 1 as [us ss t|w w' Hw IH Hstep]; simpl.
  - split; [constructor|]. split; [|constructor].
    intros c1 c2 a b [].
  - destruct Hstep as [env requester r w Htick Hfresh|us ss w]; simpl.
    + apply serve_tidy. exact IH.
    + exact IH.
Qed.

End Keeping.

(** In every world the routes reach, each stored message belongs to a
    stored conversation and was sent by one of its participants. *)
Theorem messages_belong_to_their_conversation `{Platform} (w : World) :
  reachable w ->
  forall m, In m (messages (db w)) ->
    exists c, In c (conversations (db w)) /\
              Conversation._id c = Message.conversationId m /\
              In (Message.senderId m) (participantIds c).
Proof.
  intros Hreach m Hm. apply reachable_tidy in Hreach as (_ & _ & Hlinks).
  rewrite Forall_forall in Hlinks. exact (Hlinks m Hm).
Qed.

(** In every world the routes reach, two users share at most one
    conversation. *)
Theorem one_conversation_per_pair `{Platform} (w : World) :
  reachable w ->
  forall c1 c2 a b,
    In c1 (conversations (db w)) -> In c2 (conversations (db w)) -> a <> b ->
    In a (participantIds c1) -> In b (participantIds c1) ->
    In a (participantIds c2) -> In b (participantIds c2) ->
    c1 = c2.
Proof.
  intros Hreach c1 c2 a b Hin1 Hin2 Hab Ha1 Hb1 Ha2 Hb2.
  pose proof (reachable_keeps w Hreach) as ((Hids & _) & _).
  apply reachable_tidy in Hreach as (_ & Hone & _).
  eapply NoDup_map_same; [exact Hids|exact Hin1|exact Hin2|].
  eapply Hone; eauto.
Qed.

(** In every world the routes reach, the stored conversations bear
    pairwise distinct identifiers and are all active; and whatever happens
    next, a stored conversation stays stored and active with the
    participants it has: no route adds or removes a participant, or
    deactivates a conversation. *)
Theorem conversations_keep_their_participants `{Platform} (w : World) :
  reachable w ->
  NoDup (List.map Conversation._id (conversations (db w))) /\
  (forall c, In c (conversations (db w)) -> Conversation.isActive c = true) /\
  (forall w' cid c, step w w' -> stored (db w) cid = Some c ->
     exists c', stored (db w') cid = Some c' /\
       Conversation.participants c' = Conversation.participants c /\
       Conversation.isActive c' = true).
Proof.
  intros Hreach. pose proof (reachable_keeps w Hreach) as (Hs & _).
  split; [apply Hs|]. split.
  - intros c Hc. apply reachable_tidy in Hreach as (Hpairs & _ & _).
    rewrite Forall_forall in Hpairs. apply (Hpairs c Hc).
  - intros w' cid c Hstep Hc.
    pose proof (reachable_step w w' Hreach Hstep) as Hreach'.
    apply step_keeps in Hstep as [Hlead _].
    destruct (Hlead Hs) as [_ Hgrow]. destruct (Hgrow cid c Hc) as (c' & Hc' & Hparts & _).
    exists c'. split; [exact Hc'|]. split; [exact Hparts|].
    apply reachable_tidy in Hreach' as (Hpairs & _ & _).
    rewrite Forall_forall in Hpairs. apply (Hpairs c'). eapply stored_In. exact Hc'.
Qed.

(** * Editing a message *)



(** * Participants added and removed *)

Section Participants.
Context `{Platform}.

Lemma arrayFilter_plain (c : Conversation.t) (uid : string) (ps : list Conversation.Participant) :
  arrayFilter (Conversation.otherUser (Conversation.mkDoc c None) uid) ps
  = Return (withoutUser uid ps).
Proof.
  induction ps as [|p ps IH]; simpl; [reflexivity|].
  rewrite IH. simpl. destruct (String.eqb (Conversation.userId p) uid); reflexivity.
Qed.

Lemma removeParticipant_plain (uid : string) (c : Conversation.t) :
  Conversation.removeParticipant uid (Conversation.mkDoc c None)
  = Return (Conversation.mkDoc
              (Conversation.setParticipants (withoutUser uid (Conversation.participants c)) c)
              None).
Proof.
  unfold Conversation.removeParticipant. cbn [Conversation.fields].
  rewrite arrayFilter_plain. reflexivity.
Qed.

Lemma withoutUser_outsider (uid : string) (ps : list Conversation.Participant) :
  ~ In uid (List.map Conversation.userId ps) -> withoutUser uid ps = ps.
Proof.
  induction ps as [|p ps IH]; simpl; intros Hout; [reflexivity|].
  destruct (String.eqb (Conversation.userId p) uid) eqn:Hp.
  - apply String.eqb_eq in Hp. exfalso. apply Hout. left. exact Hp.
  - simpl. rewrite IH; [reflexivity|]. intros Hin. apply Hout. right. exact Hin.
Qed.

Lemma withoutUser_ids (uid v : string) (ps : list Conversation.Participant) :
  In v (List.map Conversation.userId (withoutUser uid ps))
  <-> v <> uid /\ In v (List.map Conversation.userId ps).
Proof.
  unfold withoutUser. rewrite !in_map_iff. split.
  - intros (p & Hv & Hp). apply filter_In in Hp as [Hp Hne].
    apply negb_true_iff, String.eqb_neq in Hne. split; [congruence|]. exists p. tauto.
  - intros (Hne & p & Hv & Hp). exists p. split; [exact Hv|]. apply filter_In.
    split; [exact Hp|]. apply negb_true_iff, String.eqb_neq. congruence.
Qed.

End Participants.

(** On a document loaded without [populate]: [addParticipant] appends a
    user who is not yet a participant, and does nothing for one who is, so
    that adding twice is adding once; [removeParticipant] takes the user
    out, leaving the other participants in place, and undoes an addition;
    neither touches the counters. *)
Theorem participants_are_added_once_and_removed `{Platform} (uid name : string)
    (c : Conversation.t) :
  (In uid (participantIds c) ->
   Conversation.addParticipant uid name (Conversation.mkDoc c None)
   = Return (Conversation.mkDoc c None)) /\
  (~ In uid (participantIds c) ->
   exists c',
     Conversation.addParticipant uid name (Conversation.mkDoc c None)
     = Return (Conversation.mkDoc c' None) /\
     Conversation.participants c'
     = Conversation.participants c ++ [Conversation.mkParticipant uid name] /\
     Conversation.unreadCount c' = Conversation.unreadCount c /\
     Conversation.hasParticipant (Conversation.mkDoc c' None) uid = Return true /\
     (forall name', Conversation.addParticipant uid name' (Conversation.mkDoc c' None)
                    = Return (Conversation.mkDoc c' None)) /\
     Conversation.removeParticipant uid (Conversation.mkDoc c' None)
     = Return (Conversation.mkDoc c None)) /\
  (exists c',
     Conversation.removeParticipant uid (Conversation.mkDoc c None)
     = Return (Conversation.mkDoc c' None) /\
     Conversation.unreadCount c' = Conversation.unreadCount c /\
     forall v, In v (participantIds c') <-> v <> uid /\ In v (participantIds c)).
Proof.
  assert (Hmember : forall x n, In uid (participantIds x) ->
            Conversation.addParticipant uid n (Conversation.mkDoc x None)
            = Return (Conversation.mkDoc x None)).
  { intros x n Hin. unfold Conversation.addParticipant.
    fold (Conversation.hasParticipant (Conversation.mkDoc x None) uid).
    rewrite hasParticipant_plain. apply hasUserId_In in Hin. rewrite Hin. reflexivity. }
  split; [apply Hmember|]. split.
  - intros Hout.
    exists (Conversation.setParticipants
              (Conversation.participants c ++ [Conversation.mkParticipant uid name]) c).
    assert (Hnow : In uid (participantIds
                      (Conversation.setParticipants
                         (Conversation.participants c ++ [Conversation.mkParticipant uid name]) c))).
    { unfold participantIds. simpl. rewrite List.map_app. apply in_or_app. right. left. reflexivity. }
    split; [apply addParticipant_plain; exact Hout|].
    split; [reflexivity|]. split; [reflexivity|].
    split; [rewrite hasParticipant_plain; apply hasUserId_In in Hnow; rewrite Hnow; reflexivity|].
    split; [intros name'; apply Hmember; exact Hnow|].
    rewrite removeParticipant_plain. simpl. unfold withoutUser.
    rewrite List.filter_app. simpl. rewrite String.eqb_refl. simpl. rewrite app_nil_r.
    fold (withoutUser uid (Conversation.participants c)).
    rewrite withoutUser_outsider by exact Hout. destruct c. reflexivity.
  - eexists. split; [apply removeParticipant_plain|]. split; [reflexivity|].
    intros v. unfold participantIds. simpl. apply withoutUser_ids.
Qed.

(** * A message sent is a message listed *)

Lemma mapOutcome_returns {A B : Type} (f : A -> Outcome B) (l : list A) :
  Forall (fun x => exists y, f x = Return y) l -> exists l', Routes.mapOutcome f l = Return l'.
Proof.
  induction 1 as [|x l (y & Hy) Hrest (l' & IH)]; simpl; [eexists; reflexivity|].
  rewrite Hy, IH. simpl. eexists. reflexivity.
Qed.

Lemma mapOutcome_throws {A B : Type} (f : A -> Outcome B) (l : list A) (x : A) (e : Exception) :
  In x l -> f x = Throw e -> exists e', Routes.mapOutcome f l = Throw e'.
Proof.
  induction l as [|y l IH]; intros Hin Hx; [destruct Hin|]. simpl.
  destruct Hin as [->|Hin]; [rewrite Hx; simpl; eexists; reflexivity|].
  destruct (f y) as [z|e0]; simpl; [|eexists; reflexivity].
  destruct (IH Hin Hx) as (e' & ->). simpl. eexists. reflexivity.
Qed.

Lemma Forall2_In_left {A B : Type} (R : A -> B -> Prop) (l : list A) (l' : list B) (x : A) :
  Forall2 R l l' -> In x l -> exists y, In y l' /\ R x y.
Proof.
  induction 1 as [|a b l l' Hab Hrest IH]; intros Hin; [destruct Hin|].
  destruct Hin as [->|Hin]; [exists b; split; [left; reflexivity|exact Hab]|].
  destruct (IH Hin) as (y & Hy & Hxy). exists y. split; [right; exact Hy|exact Hxy].
Qed.

Lemma formatMessage_returns (us : list User.t) (ms : list Message.t) (reader : User.t)
    (m : Message.t) :
  User.findById us (Message.senderId m) <> None ->
  exists view, Routes.formatMessage us ms reader m = Return view.
Proof.
  intros Hsender. unfold Routes.formatMessage, Routes.senderOf.
  destruct (User.findById us (Message.senderId m)); [|contradiction].
  simpl. eexists. reflexivity.
Qed.

Lemma composed_inConversation (env : Env) (sender : User.t) (cid : string)
    (body : Routes.MessageBody) :
  Message.inConversation cid (composed env sender cid body) = true.
Proof. unfold Message.inConversation. simpl. apply String.eqb_refl. Qed.

(** After a message was sent with status 201 to a conversation of fewer
    than 50 messages, whose senders are all stored users, the first page of
    the conversation, as any participant asks for it, shows the message
    with its trimmed content, not yet read, and counts one message more. *)
Theorem sent_message_is_listed `{Platform} (env env' : Env) (sender reader : User.t)
    (cid : string) (body : Routes.MessageBody) (st st1 : Store) (resp : Response)
    (c : Conversation.t) :
  stored st cid = Some c ->
  In (User._id reader) (participantIds c) ->
  (totalOf cid (messages st) < 50)%Z ->
  (forall m, In m (messages st) -> Message.conversationId m = cid ->
     User.findById (users st) (Message.senderId m) <> None) ->
  Routes.postMessage env sender cid body st = (resp, st1) ->
  status resp = 201%Z ->
  exists shown pagination view,
    fst (Routes.getMessages env' reader cid None None st1)
    = mkResponse 200 true None [] (MessagesPayload shown pagination) /\
    Z.of_nat (pg_totalItems pagination) = (totalOf cid (messages st) + 1)%Z /\
    In view shown /\
    mv_id view = newId env 0 /\
    mv_content view = Text.trim (Routes.b_content body) /\
    s_id (mv_sender view) = User._id sender /\
    mv_isFromCurrentUser view = String.eqb (User._id sender) (User._id reader) /\
    mv_isRead view = false.
Proof.
  intros Hc Hreader Hfew Hsenders Hrun Hok.
  rewrite postMessage_cases in Hrun.
  destruct (Routes.messageValidation body); [|inversion Hrun; subst; discriminate].
  rewrite Hc in Hrun.
  destruct (Conversation.hasUserId (User._id sender) c); [|inversion Hrun; subst; discriminate].
  destruct (Message.validationErrors _); [|inversion Hrun; subst; discriminate].
  destruct (Routes.formatSent _ _) as [sentView|e] eqn:Hsent;
    inversion Hrun; subst resp st1; clear Hrun; [|discriminate].
  assert (Hknown : User.findById (users st) (User._id sender) <> None).
  { unfold Routes.formatSent, Routes.senderOf in Hsent. simpl in Hsent.
    destruct (User.findById (users st) (User._id sender)); [discriminate|discriminate Hsent]. }
  rewrite getMessages_cases. cbn [Routes.pageValidation app].
  rewrite (stored_afterSend env sender cid body c st Hc).
  apply hasUserId_In in Hreader.
  change (Conversation.hasUserId (User._id reader)
            (summarised (clock env 1) (Text.trim (Routes.b_content body)) (User._id sender) c))
    with (Conversation.hasUserId (User._id reader) c).
  rewrite Hreader. cbv zeta.
  change (messages (afterSend env sender cid body c st))
    with (messages st ++ [composed env sender cid body]).
  change (users (afterSend env sender cid body c st)) with (users st).
  set (fetched := Message.getForConversation cid _ _ _).
  assert (Hall : fetched = newestOf cid (messages st ++ [composed env sender cid body])).
  { unfold fetched, Message.getForConversation, newestOf. simpl skipn.
    apply firstn_all2. rewrite sortNewestFirst_length, List.filter_app, length_app.
    unfold totalOf in Hfew. cbn [List.filter]. rewrite composed_inConversation.
    change (Z.to_nat (default 50%Z None)) with 50%nat. simpl. lia. }
  assert (Hin : forall m, In m fetched ->
            m = composed env sender cid body \/
            In m (messages st) /\ Message.conversationId m = cid).
  { intros m Hm. rewrite Hall in Hm. unfold newestOf in Hm.
    rewrite sortNewestFirst_In in Hm. apply filter_In in Hm as [Hm Hconv].
    apply String.eqb_eq in Hconv.
    apply in_app_or in Hm as [Hm|[<-|[]]]; [right; split; assumption|left; reflexivity]. }
  destruct (mapOutcome_returns
              (Routes.formatMessage (users st) (messages st ++ [composed env sender cid body]) reader)
              (rev fetched)) as (shown & Hshown).
  { apply Forall_forall. intros m Hm. apply in_rev in Hm.
    apply formatMessage_returns. destruct (Hin m Hm) as [->|[Hstored Hconv]].
    - exact Hknown.
    - apply Hsenders; assumption. }
  rewrite Hshown. cbn [fst].
  pose proof (mapOutcome_Forall2 _ _ _ Hshown) as Hviews.
  destruct (Forall2_In_left _ _ _ (composed env sender cid body) Hviews) as (view & Hview & Hfmt).
  { apply -> in_rev. rewrite Hall. unfold newestOf. rewrite sortNewestFirst_In.
    apply filter_In. split; [apply in_or_app; right; left; reflexivity|].
    apply composed_inConversation. }
  do 3 eexists. split; [reflexivity|]. cbn [pg_totalItems].
  split.
  { rewrite List.filter_app, length_app. cbn [List.filter].
    rewrite composed_inConversation. unfold totalOf. simpl. lia. }
  split; [exact Hview|].
  unfold Routes.formatMessage, Routes.senderOf in Hfmt. simpl in Hfmt.
  destruct (User.findById (users st) (User._id sender)) as [u|] eqn:Hu; [|discriminate].
  apply findById_id in Hu. simpl in Hfmt. inversion Hfmt; subst view. simpl.
  rewrite Hu, trim_idempotent. repeat split.
Qed.

(** * Opening a conversation *)

Lemma findOther_found (us : list User.t) (uid : string) (ps : list Conversation.Participant)
    (p : Conversation.Participant) :
  Routes.findOther us uid ps = Return (Some p) ->
  In p ps /\ Conversation.userId p <> uid.
Proof.
  induction ps as [|x ps IH]; simpl; [discriminate|].
  unfold Conversation.populatedUser.
  destruct (User.findById us (Conversation.userId x)) as [u|] eqn:Hu; simpl; [|discriminate].
  apply findById_id in Hu. rewrite Hu.
  destruct (String.eqb (Conversation.userId x) uid) eqn:Hx; simpl.
  - intros Hrest. destruct (IH Hrest) as [Hin Hne]. split; [right; exact Hin|exact Hne].
  - intros Hp. inversion Hp; subst p. apply String.eqb_neq in Hx.
    split; [left; reflexivity|exact Hx].
Qed.

Lemma otherParticipant_other (us : list User.t) (uid : string)
    (ps : list Conversation.Participant) (other : Sender) :
  Routes.otherParticipant us uid ps = Return other ->
  s_id other <> uid /\ In (s_id other) (List.map Conversation.userId ps) /\
  exists u, User.findById us (s_id other) = Some u /\
            s_firstName other = User.firstName u /\ s_lastName other = User.lastName u.
Proof.
  unfold Routes.otherParticipant.
  destruct (Routes.findOther us uid ps) as [[p|]|e] eqn:Hfind; simpl; try discriminate.
  apply findOther_found in Hfind as [Hin Hne].
  unfold Routes.senderOf.
  destruct (User.findById us (Conversation.userId p)) as [u|] eqn:Hu; [|discriminate].
  intros Hother. inversion Hother; subst other. simpl.
  pose proof (findById_id _ _ _ Hu) as Hid. rewrite Hid.
  split; [exact Hne|]. split; [apply in_map; exact Hin|].
  exists u. split; [exact Hu|]. split; reflexivity.
Qed.

(** [GET /conversations/:conversationId] populates the participants
    before it asks [hasParticipant], which then compares printed user
    documents with the requester's identifier.  When no document prints as
    that identifier, the route answers 403 "Accès non autorisé à cette
    conversation" for every active conversation whose participants are
    stored users, to a participant as to anybody else, and writes nothing:
    the counter of the requester is not reset. *)
Theorem participants_cannot_open_their_conversation `{Platform} (requester : User.t)
    (cid : string) (st : Store) (c : Conversation.t) :
  stored st cid = Some c ->
  Conversation.isActive c = true ->
  resolves (users st) c ->
  (forall profile, docString profile <> User._id requester) ->
  Routes.getConversation requester cid st = (accessDenied, st) /\
  status accessDenied = 403%Z.
Proof.
  intros Hc Hactive Hres Hprint. split; [|reflexivity].
  rewrite getConversation_cases, Hc, Hactive.
  assert (Hnone : Conversation.hasParticipant (Conversation.mkDoc c (Some (users st)))
                    (User._id requester) = Return false).
  { unfold Conversation.hasParticipant, resolves in *. simpl.
    induction (Conversation.participants c) as [|p ps IH]; simpl; [reflexivity|].
    inversion Hres as [|? ? Hp Hps]; subst.
    unfold Conversation.sameUser at 1, Conversation.userIdString, Conversation.populatedUser.
    simpl. destruct (User.findById (users st) (Conversation.userId p)) as [u|]; [|contradiction].
    simpl. destruct (String.eqb (docString (User.profile u)) (User._id requester)) eqn:E.
    - apply String.eqb_eq in E. destruct (Hprint _ E).
    - apply IH. exact Hps. }
  rewrite Hnone. reflexivity.
Qed.

(** * A conversation that exists is used again *)

(** When an active conversation already joins the requester and the other
    user, and the printed documents of its participants are keys that the
    counters accept, [POST /conversations] answers with status 201 and the
    identifier of that conversation, whichever of the two users is named
    first in the look-up, stores the initial message in it and creates no
    conversation; the service named in the request is not looked up, so
    that it need not exist. *)
Theorem existing_conversation_is_used_again `{Platform} (env : Env) (requester other : User.t)
    (body : Routes.ConversationBody) (st : Store) (d : Conversation.doc) :
  Routes.conversationValidation body = [] ->
  Routes.b_participantId body <> User._id requester ->
  User.findById (users st) (Routes.b_participantId body) = Some other ->
  User.isActive other = true ->
  Conversation.findBetweenUsers (users st) (conversations st) (User._id requester)
    (Routes.b_participantId body) = Some d ->
  ready d ->
  countable (User._id requester) d ->
  exists st' m,
    Routes.postConversation env requester body st = (created (Conversation.fields d) other, st') /\
    In (Conversation.fields d) (conversations st) /\
    Conversation.isActive (Conversation.fields d) = true /\
    In (User._id requester) (participantIds (Conversation.fields d)) /\
    In (User._id other) (participantIds (Conversation.fields d)) /\
    Conversation.findBetweenUsers (users st) (conversations st) (Routes.b_participantId body)
      (User._id requester) = Some d /\
    length (conversations st') = length (conversations st) /\
    Forall2 sameParties (conversations st) (conversations st') /\
    messages st' = messages st ++ [m] /\
    Message.conversationId m = Conversation._id (Conversation.fields d) /\
    Message.senderId m = User._id requester /\
    Message.content m = Text.trim (Routes.b_initialMessage body).
Proof.
  intros Hvalid Hself Hother Hactive Hfind Hready Hkeys.
  rewrite postConversation_cases, Hvalid.
  apply String.eqb_neq in Hself. rewrite Hself, Hother, Hactive.
  rewrite findOrCreate_cases, Hfind.
  pose proof (validated_length body Hvalid) as Hrange.
  destruct (openWith_returns env requester other (Routes.b_initialMessage body) d st
              Hrange Hready Hkeys) as (st' & Hopen & _ & Hsame).
  unfold respond. rewrite Hopen.
  assert (Hfound : In (Conversation.fields d) (conversations st) /\
                   between (User._id requester) (Routes.b_participantId body)
                     (Conversation.fields d) = true).
  { rewrite findBetweenUsers_find in Hfind.
    destruct (List.find _ _) as [c|] eqn:Hc; [|discriminate].
    inversion Hfind; subst d. simpl. apply List.find_some in Hc. exact Hc. }
  destruct Hfound as [Hin Hboth]. apply between_members in Hboth as (Hme & Hthem & Hlive).
  exists st'. eexists. split; [reflexivity|].
  split; [exact Hin|]. split; [exact Hlive|]. split; [exact Hme|].
  split; [rewrite (findById_id _ _ _ Hother); exact Hthem|].
  split.
  { rewrite findBetweenUsers_find in *.
    rewrite (find_same_test _ _ _
               (between_swap (User._id requester) (Routes.b_participantId body))).
    exact Hfind. }
  split; [symmetry; eapply Forall2_same_length; exact Hsame|].
  split; [exact Hsame|].
  split; [eapply openWith_appends; exact Hopen|].
  simpl. rewrite trim_idempotent. repeat split.
Qed.

(** * The list of conversations *)

Lemma insertLatestFirst_In (updatedAt : string -> Z) (c x : Conversation.t)
    (l : list Conversation.t) :
  In x (Listing.insertLatestFirst updatedAt c l) <-> x = c \/ In x l.
Proof.
  induction l as [|y l IH]; simpl; [intuition|].
  destruct (updatedAt (Conversation._id y) <=? updatedAt (Conversation._id c))%Z; simpl.
  - intuition.
  - rewrite IH. intuition.
Qed.

Lemma insertLatestFirst_length (updatedAt : string -> Z) (c : Conversation.t)
    (l : list Conversation.t) :
  length (Listing.insertLatestFirst updatedAt c l) = S (length l).
Proof.
  induction l as [|y l IH]; simpl; [reflexivity|].
  destruct (updatedAt (Conversation._id y) <=? updatedAt (Conversation._id c))%Z; simpl;
    [reflexivity|rewrite IH; reflexivity].
Qed.

Lemma insertLatestFirst_sorted (updatedAt : string -> Z) (c : Conversation.t)
    (l : list Conversation.t) :
  latestFirst updatedAt l -> latestFirst updatedAt (Listing.insertLatestFirst updatedAt c l).
Proof.
  induction l as [|y l IH]; simpl; [intros _; split; [intros x []|exact I]|].
  intros [Hhead Htail].
  destruct (updatedAt (Conversation._id y) <=? updatedAt (Conversation._id c))%Z eqn:Hle; simpl.
  - apply Z.leb_le in Hle. split; [|split; assumption].
    intros x [<-|Hx]; [exact Hle|]. specialize (Hhead x Hx). lia.
  - apply Z.leb_gt in Hle. split; [|apply IH; exact Htail].
    intros x Hx. apply insertLatestFirst_In in Hx as [->|Hx]; [lia|apply Hhead; exact Hx].
Qed.

Lemma sortLatestFirst_In (updatedAt : string -> Z) (x : Conversation.t) (l : list Conversation.t) :
  In x (Listing.sortLatestFirst updatedAt l) <-> In x l.
Proof.
  induction l as [|y l IH]; simpl; [tauto|].
  rewrite insertLatestFirst_In, IH. intuition.
Qed.

Lemma sortLatestFirst_length (updatedAt : string -> Z) (l : list Conversation.t) :
  length (Listing.sortLatestFirst updatedAt l) = length l.
Proof.
  induction l as [|y l IH]; simpl; [reflexivity|].
  rewrite insertLatestFirst_length, IH. reflexivity.
Qed.

Lemma sortLatestFirst_sorted (updatedAt : string -> Z) (l : list Conversation.t) :
  latestFirst updatedAt (Listing.sortLatestFirst updatedAt l).
Proof.
  induction l as [|y l IH]; simpl; [exact I|]. apply insertLatestFirst_sorted. exact IH.
Qed.

Lemma Forall2_map_left {A B C : Type} (R : B -> C -> Prop) (f : A -> B) (l : list A)
    (l' : list C) :
  Forall2 R (List.map f l) l' -> Forall2 (fun x y => R (f x) y) l l'.
Proof.
  revert l'. induction l as [|x l IH]; simpl; intros l' Hall; inversion Hall; subst;
    constructor; auto.
Qed.

Lemma getConversations_listed (updatedAt : string -> Z) (requester : User.t) (st : Store)
    (entries : list Listing.Entry) :
  Listing.getConversations updatedAt requester st = Listing.Listed entries ->
  Forall2 (shows updatedAt (User._id requester))
    (Listing.sortLatestFirst updatedAt
       (List.filter (Listing.ofUser (User._id requester)) (conversations st)))
    entries.
Proof.
  unfold Listing.getConversations, Listing.getForUser.
  destruct (Routes.mapOutcome _ _) as [formatted|e] eqn:Hmap; [|discriminate].
  intros Hlisted. inversion Hlisted; subst entries; clear Hlisted.
  apply mapOutcome_Forall2, Forall2_map_left in Hmap.
  eapply Forall2_impl; [|exact Hmap]. intros c entry Hfmt.
  unfold Listing.formatConversation in Hfmt. cbn [Conversation.fields] in Hfmt.
  destruct (Routes.otherParticipant _ _ _) as [other|e] eqn:Hother; [|discriminate].
  simpl in Hfmt. inversion Hfmt; subst entry; clear Hfmt.
  apply otherParticipant_other in Hother as (Hne & Hin & _).
  unfold shows. simpl. repeat split; try assumption; try reflexivity.
  - destruct (Conversation.senderId (Conversation.lastMessage c)) as [s|]; [|discriminate].
    intros Hs. apply String.eqb_eq in Hs. congruence.
  - intros ->. apply String.eqb_refl.
Qed.

Lemma ofUser_listed (updatedAt : string -> Z) (uid : string) (cs : list Conversation.t)
    (c : Conversation.t) :
  In c (Listing.sortLatestFirst updatedAt (List.filter (Listing.ofUser uid) cs)) <->
  In c cs /\ In uid (participantIds c) /\ Conversation.isActive c = true.
Proof.
  rewrite sortLatestFirst_In, filter_In. unfold Listing.ofUser.
  rewrite andb_true_iff, hasUserId_In. tauto.
Qed.

(** When [GET /conversations] answers with a list, the list shows the
    active conversations in which the requester takes part, each once and
    no other, the latest updated first; an entry names a participant other
    than the requester, gives the requester's counter (0 when there is
    none) and the summary of the last message, flagged as the requester's
    own when the requester sent it. *)
Theorem conversations_are_listed_latest_first (updatedAt : string -> Z) (requester : User.t)
    (st : Store) (entries : list Listing.Entry) :
  Listing.getConversations updatedAt requester st = Listing.Listed entries ->
  exists cs,
    Forall2 (shows updatedAt (User._id requester)) cs entries /\
    latestFirst updatedAt cs /\
    length cs = length (List.filter (Listing.ofUser (User._id requester)) (conversations st)) /\
    forall c, In c cs <->
              In c (conversations st) /\ In (User._id requester) (participantIds c) /\
              Conversation.isActive c = true.
Proof.
  intros Hlisted.
  exists (Listing.sortLatestFirst updatedAt
            (List.filter (Listing.ofUser (User._id requester)) (conversations st))).
  split; [apply getConversations_listed; exact Hlisted|].
  split; [apply sortLatestFirst_sorted|]. split; [apply sortLatestFirst_length|].
  intros c. apply ofUser_listed.
Qed.

Lemma findOther_gone (us : list User.t) (uid : string) (ps : list Conversation.Participant) :
  Forall (fun p => Conversation.userId p <> uid ->
                   User.findById us (Conversation.userId p) = None) ps ->
  (exists e, Routes.findOther us uid ps = Throw e) \/
  Routes.findOther us uid ps = Return None /\
  Forall (fun p => Conversation.userId p = uid) ps.
Proof.
  induction 1 as [|p ps Hp Hrest IH]; simpl; [right; split; [reflexivity|constructor]|].
  unfold Conversation.populatedUser.
  destruct (User.findById us (Conversation.userId p)) as [u|] eqn:Hu; simpl;
    [|left; eexists; reflexivity].
  pose proof (findById_id _ _ _ Hu) as Hid. rewrite Hid.
  destruct (String.eqb (Conversation.userId p) uid) eqn:Hsame; simpl.
  - apply String.eqb_eq in Hsame.
    destruct IH as [Hthrow|[Hnone Hall]]; [left; exact Hthrow|right].
    split; [exact Hnone|constructor; assumption].
  - apply String.eqb_neq in Hsame. specialize (Hp Hsame). congruence.
Qed.

(** The listing is formatted as a whole: if, in one active conversation of
    the requester, no participant other than the requester is a stored
    user any more, [GET /conversations] answers with status 500 and lists
    nothing.  If on the contrary every such conversation has its
    participants stored, one of them other than the requester, it answers
    with a list. *)
Theorem listing_needs_every_other_participant (updatedAt : string -> Z) (requester : User.t)
    (st : Store) :
  (forall c, In c (conversations st) ->
     In (User._id requester) (participantIds c) -> Conversation.isActive c = true ->
     (exists p, In p (Conversation.participants c) /\
                Conversation.userId p <> User._id requester) ->
     Forall (fun p => Conversation.userId p <> User._id requester ->
                      User.findById (users st) (Conversation.userId p) = None)
            (Conversation.participants c) ->
     Listing.getConversations updatedAt requester st = Listing.Failed internalError /\
     status internalError = 500%Z) /\
  ((forall c, In c (conversations st) ->
      In (User._id requester) (participantIds c) -> Conversation.isActive c = true ->
      resolves (users st) c /\
      exists p, In p (Conversation.participants c) /\
                Conversation.userId p <> User._id requester) ->
   exists entries, Listing.getConversations updatedAt requester st = Listing.Listed entries).
Proof.
  split.
  - intros c Hc Hpart Hactive (p & Hp & Hne) Hgone. split; [|reflexivity].
    unfold Listing.getConversations, Listing.getForUser.
    destruct (mapOutcome_throws
                (Listing.formatConversation updatedAt requester st)
                (List.map (fun c => Conversation.mkDoc c (Some (users st)))
                   (Listing.sortLatestFirst updatedAt
                      (List.filter (Listing.ofUser (User._id requester)) (conversations st))))
                (Conversation.mkDoc c (Some (users st)))
                (match Routes.otherParticipant (users st) (User._id requester)
                         (Conversation.participants c) with
                 | Throw e => e
                 | Return _ => Routes.nullId
                 end)) as (e' & ->); [| |reflexivity].
    + apply (in_map (fun x => Conversation.mkDoc x (Some (users st)))).
      apply sortLatestFirst_In. apply filter_In. split; [exact Hc|].
      unfold Listing.ofUser. apply hasUserId_In in Hpart. rewrite Hpart, Hactive. reflexivity.
    + unfold Listing.formatConversation, Routes.otherParticipant. cbn [Conversation.fields].
      destruct (findOther_gone (users st) (User._id requester) (Conversation.participants c) Hgone)
        as [(e & ->)|[-> Hall]]; [reflexivity|].
      exfalso. rewrite Forall_forall in Hall. apply Hne. apply Hall. exact Hp.
  - intros Hgood. unfold Listing.getConversations, Listing.getForUser.
    destruct (mapOutcome_returns
                (Listing.formatConversation updatedAt requester st)
                (List.map (fun c => Conversation.mkDoc c (Some (users st)))
                   (Listing.sortLatestFirst updatedAt
                      (List.filter (Listing.ofUser (User._id requester)) (conversations st)))))
      as (entries & ->); [|eexists; reflexivity].
    apply Forall_forall. intros d Hd. apply in_map_iff in Hd as (c & <- & Hc).
    apply sortLatestFirst_In, filter_In in Hc as [Hc Hmine].
    unfold Listing.ofUser in Hmine. apply andb_true_iff in Hmine as [Hpart Hactive].
    apply hasUserId_In in Hpart.
    destruct (Hgood c Hc Hpart Hactive) as (Hres & p & Hp & Hne).
    unfold Listing.formatConversation, Routes.otherParticipant. cbn [Conversation.fields].
    assert (Hfind : exists q, Routes.findOther (users st) (User._id requester)
                                (Conversation.participants c) = Return (Some q) /\
                              In q (Conversation.participants c)).
    { unfold resolves in Hres. clear Hc Hpart Hactive.
      induction (Conversation.participants c) as [|x ps IH]; [destruct Hp|].
      inversion Hres as [|? ? Hx Hrest]; subst. simpl.
      unfold Conversation.populatedUser.
      destruct (User.findById (users st) (Conversation.userId x)) as [u|] eqn:Hu;
        [|contradiction].
      simpl. rewrite (findById_id _ _ _ Hu).
      destruct (String.eqb (Conversation.userId x) (User._id requester)) eqn:Hsame; simpl.
      - apply String.eqb_eq in Hsame.
        destruct Hp as [->|Hp]; [contradiction|].
        destruct (IH Hrest Hp) as (q & Hq & Hin). exists q. split; [exact Hq|right; exact Hin].
      - exists x. split; [reflexivity|left; reflexivity]. }
    destruct Hfind as (q & -> & Hq). simpl. unfold Routes.senderOf.
    unfold resolves in Hres. rewrite Forall_forall in Hres. specialize (Hres q Hq).
    destruct (User.findById (users st) (Conversation.userId q)); [|contradiction].
    simpl. eexists. reflexivity.
Qed.

(** * The list after a message was sent, and after it was read *)

Lemma stored_listed (updatedAt : string -> Z) (reader : User.t) (st : Store) (cid : string)
    (c : Conversation.t) (entries : list Listing.Entry) :
  stored st cid = Some c ->
  In (User._id reader) (participantIds c) -> Conversation.isActive c = true ->
  Listing.getConversations updatedAt reader st = Listing.Listed entries ->
  exists entry, In entry entries /\ shows updatedAt (User._id reader) c entry.
Proof.
  intros Hc Hpart Hactive Hlisted.
  apply getConversations_listed in Hlisted.
  eapply Forall2_In_left; [exact Hlisted|].
  apply ofUser_listed. split; [eapply stored_In; exact Hc|]. split; assumption.
Qed.

(** The list of conversations follows the messages: after a message was
    sent with status 201, the list of another participant shows the
    conversation with a counter one higher and, as last message, the first
    100 characters of the trimmed content, not flagged as the reader's own;
    after that participant marked the conversation read, the list shows
    the counter at 0. *)
Theorem list_follows_sending_and_reading `{Platform} (env env' : Env) (sender reader : User.t)
    (cid : string) (body : Routes.MessageBody) (st st1 : Store) (resp : Response)
    (c : Conversation.t) (updatedAt updatedAt' : string -> Z)
    (entries entries' : list Listing.Entry) :
  stored st cid = Some c -> Conversation.isActive c = true ->
  NoDup (participantIds c) ->
  In (User._id reader) (participantIds c) -> User._id reader <> User._id sender ->
  Routes.postMessage env sender cid body st = (resp, st1) -> status resp = 201%Z ->
  Listing.getConversations updatedAt reader st1 = Listing.Listed entries ->
  Listing.getConversations updatedAt' reader (snd (Routes.putRead env' reader cid st1))
  = Listing.Listed entries' ->
  (exists entry, In entry entries /\
     Listing.e_id entry = cid /\
     Listing.e_unreadCount entry
     = (default 0 (Conversation.unreadCount c !! User._id reader) + 1)%Z /\
     Listing.sm_content (Listing.e_lastMessage entry)
     = Text.substring0 100 (Text.trim (Routes.b_content body)) /\
     Listing.sm_isFromCurrentUser (Listing.e_lastMessage entry) = false) /\
  (exists entry, In entry entries' /\
     Listing.e_id entry = cid /\ Listing.e_unreadCount entry = 0%Z).
Proof.
  intros Hc Hactive Hdistinct Hreader Hother Hrun Hok Hlist Hlist'.
  rewrite postMessage_cases in Hrun.
  destruct (Routes.messageValidation body); [|inversion Hrun; subst; discriminate].
  rewrite Hc in Hrun.
  destruct (Conversation.hasUserId (User._id sender) c); [|inversion Hrun; subst; discriminate].
  destruct (Message.validationErrors _); [|inversion Hrun; subst; discriminate].
  destruct (Routes.formatSent _ _) as [view|e];
    inversion Hrun; subst resp st1; clear Hrun; [|discriminate].
  pose proof (stored_afterSend env sender cid body c st Hc) as Hsent.
  pose proof (stored_id st cid c Hc) as Hid.
  split.
  - destruct (stored_listed updatedAt reader _ cid _ entries Hsent Hreader Hactive Hlist)
      as (entry & Hin & Hentry & _ & _ & Hcount & Hcontent & Hown & _).
    exists entry. split; [exact Hin|]. split; [rewrite Hentry; exact Hid|].
    split; [|split; [exact Hcontent|]].
    + rewrite Hcount. unfold summarised. simpl.
      rewrite bumps_recipient by assumption. reflexivity.
    + destruct (Listing.sm_isFromCurrentUser (Listing.e_lastMessage entry)); [|reflexivity].
      exfalso. apply Hother. destruct Hown as [Hown _]. specialize (Hown eq_refl).
      simpl in Hown. congruence.
  - rewrite putRead_cases, Hsent in Hlist'.
    apply hasUserId_In in Hreader as Hmember.
    change (Conversation.hasUserId (User._id reader)
              (summarised (clock env 1) (Text.trim (Routes.b_content body)) (User._id sender) c))
      with (Conversation.hasUserId (User._id reader) c) in Hlist'.
    rewrite Hmember in Hlist'. cbn [snd] in Hlist'.
    pose proof (stored_afterRead env' reader cid _ _ Hsent) as Hread.
    destruct (stored_listed updatedAt' reader _ cid _ entries' Hread Hreader Hactive Hlist')
      as (entry & Hin & Hentry & _ & _ & Hcount & _).
    exists entry. split; [exact Hin|]. split; [rewrite Hentry; exact Hid|].
    rewrite Hcount. simpl. rewrite lookup_insert_eq. reflexivity.
Qed.

(** [GET /conversations/:conversationId/messages] marks the messages of the
    conversation read, those outside the page it returns included, but
    leaves the reader's counter as it was: [GET /unread-count] no longer
    counts the conversation, while the counter the list of conversations
    shows is unchanged. *)
Theorem reading_the_messages_keeps_the_counter `{Platform} (env : Env) (reader : User.t)
    (cid : string) (page limit : option Z) (st : Store) (c : Conversation.t) :
  stored st cid = Some c ->
  In (User._id reader) (participantIds c) ->
  Routes.pageValidation page limit = [] ->
  stored (snd (Routes.getMessages env reader cid page limit st)) cid = Some c /\
  (forall m, In m (messages (snd (Routes.getMessages env reader cid page limit st))) ->
     Message.conversationId m = cid -> Message.senderId m <> User._id reader ->
     Message.isRead m = true) /\
  fst (Routes.getUnreadCount reader (snd (Routes.getMessages env reader cid page limit st)))
  = unreadTotal
      (Z.of_nat (length (List.filter
                           (fun m => Message.unreadFor (User._id reader) (conversations st) m
                                     && negb (Message.inConversation cid m))
                           (messages st)))).
Proof.
  intros Hc Hpart Hvalid.
  assert (Hstore : snd (Routes.getMessages env reader cid page limit st)
                   = setMessages (Message.markConversationAsRead (clock env 0) cid
                                    (User._id reader) (messages st)) st).
  { rewrite getMessages_cases, Hvalid, Hc. apply hasUserId_In in Hpart. rewrite Hpart.
    cbv zeta. destruct (Routes.mapOutcome _ _); reflexivity. }
  rewrite Hstore. split; [exact Hc|]. split.
  - intros m Hm Hconv Hsender. simpl in Hm.
    eapply markConversationAsRead_done; eassumption.
  - rewrite getUnreadCount_counts. simpl. f_equal. f_equal.
    apply unread_after_marking. apply Forall2_sameParties_refl.
Qed.

(** * The access token *)

Lemma split_spaceless (s : string) : spaceless s = true -> Auth.split " "%char s = [s].
Proof.
  induction s as [|c s IH]; simpl; [reflexivity|].
  intros Hs. apply andb_true_iff in Hs as [Hc Hs]. apply negb_true_iff in Hc.
  rewrite Hc, (IH Hs). reflexivity.
Qed.

Lemma split_first_word (a b : string) :
  spaceless a = true -> Auth.split " "%char (a +:+ String " "%char b) = a :: Auth.split " "%char b.
Proof.
  induction a as [|c a IH]; simpl; [reflexivity|].
  intros Hs. apply andb_true_iff in Hs as [Hc Hs]. apply negb_true_iff in Hc.
  rewrite Hc, (IH Hs). reflexivity.
Qed.

(** The token is the second of the fields of the header that single spaces
    separate: [scheme token] gives [token], whatever the scheme, which is
    not compared with [Bearer]; a header that is absent, empty or a single
    word gives none, nor does one with two spaces after the scheme. *)
Theorem token_is_the_second_word (scheme t rest : string) :
  spaceless scheme = true -> spaceless t = true -> t <> "" ->
  Auth.token (Some (scheme +:+ " " +:+ t)) = Some t /\
  Auth.token (Some (scheme +:+ " " +:+ t +:+ " " +:+ rest)) = Some t /\
  Auth.token (Some (scheme +:+ "  " +:+ t)) = None /\
  Auth.token (Some scheme) = None /\
  Auth.token None = None.
Proof.
  intros Hscheme Ht Hne.
  assert (Hcase : forall tail pieces,
            Auth.split " "%char (scheme +:+ String " "%char tail) = scheme :: pieces ->
            Auth.token (Some (scheme +:+ String " "%char tail))
            = match pieces with
              | EmptyString :: _ => None
              | piece :: _ => Some piece
              | [] => None
              end).
  { intros tail pieces Hsplit. unfold Auth.token. rewrite Hsplit.
    destruct scheme; simpl; destruct pieces as [|[|? ?] ?]; reflexivity. }
  split; [|split; [|split; [|split]]].
  - change (scheme +:+ " " +:+ t) with (scheme +:+ String " "%char t).
    rewrite (Hcase t [t]) by (rewrite split_first_word, split_spaceless by assumption; reflexivity).
    destruct t; [contradiction|reflexivity].
  - change (scheme +:+ " " +:+ t +:+ " " +:+ rest)
      with (scheme +:+ String " "%char (t +:+ String " "%char rest)).
    rewrite (Hcase _ (t :: Auth.split " "%char rest))
      by (rewrite !split_first_word by assumption; reflexivity).
    destruct t; [contradiction|reflexivity].
  - change (scheme +:+ "  " +:+ t) with (scheme +:+ String " "%char (String " "%char t)).
    rewrite (Hcase _ (EmptyString :: Auth.split " "%char t))
      by (rewrite split_first_word by assumption; reflexivity).
    reflexivity.
  - unfold Auth.token. rewrite split_spaceless by assumption.
    destruct scheme; reflexivity.
  - reflexivity.
Qed.

Section Guard.
Context `{Platform} `{Auth.Tokens}.

Lemma authenticateToken_next (authorization : option string) (us : list User.t) (u : User.t) :
  Auth.authenticateToken authorization us = Auth.Next u <->
  exists t, Auth.token authorization = Some t /\
            Auth.verify t = Auth.Decoded (User._id u) /\
            User.findById us (User._id u) = Some u /\
            User.isActive u = true.
Proof.
  unfold Auth.authenticateToken. split.
  - destruct (Auth.token authorization) as [t|]; [|discriminate].
    destruct (Auth.verify t) as [uid|name] eqn:Hverify.
    + destruct (User.findById us uid) as [user|] eqn:Huser; [|discriminate].
      destruct (User.isActive user) eqn:Hactive; simpl; [|discriminate].
      intros Hnext. inversion Hnext; subst user. exists t.
      pose proof (findById_id _ _ _ Huser) as Hid. subst uid. auto.
    + destruct (String.eqb name "JsonWebTokenError"); [discriminate|].
      destruct (String.eqb name "TokenExpiredError"); discriminate.
  - intros (t & -> & -> & -> & ->). reflexivity.
Qed.

Lemma authenticateToken_answered (authorization : option string) (us : list User.t)
    (response : Response) :
  Auth.authenticateToken authorization us = Auth.Answered response ->
  status response = 401%Z \/
  response = internalError /\
  exists t name, Auth.token authorization = Some t /\ Auth.verify t = Auth.Thrown name /\
                 name <> "JsonWebTokenError" /\ name <> "TokenExpiredError".
Proof.
  unfold Auth.authenticateToken.
  destruct (Auth.token authorization) as [t|];
    [|intros Hr; inversion Hr; left; reflexivity].
  destruct (Auth.verify t) as [uid|name] eqn:Hverify.
  - destruct (User.findById us uid) as [user|]; [|intros Hr; inversion Hr; left; reflexivity].
    destruct (User.isActive user); simpl; [discriminate|].
    intros Hr; inversion Hr; left; reflexivity.
  - destruct (String.eqb name "JsonWebTokenError") eqn:Hn1;
      [intros Hr; inversion Hr; left; reflexivity|].
    destruct (String.eqb name "TokenExpiredError") eqn:Hn2;
      [intros Hr; inversion Hr; left; reflexivity|].
    intros Hr; inversion Hr; subst response. right. split; [reflexivity|].
    apply String.eqb_neq in Hn1, Hn2. exists t, name. auto.
Qed.

End Guard.


(** Through the middleware, a request to the message routes that is
    answered with a status from 400 to 499 has written nothing, whether the
    middleware or the route refused it; and the valid message of a
    participant whose token is accepted is stored and answered with
    status 201. *)
Theorem guarded_routes_serve_authenticated_users `{Platform} `{Auth.Tokens} (env : Env)
    (authorization : option string) (r : Request) (st : Store) :
  ((400 <= status (fst (api env authorization r st)) < 500)%Z ->
   snd (api env authorization r st) = st) /\
  (forall t u cid body c,
     Auth.token authorization = Some t ->
     Auth.verify t = Auth.Decoded (User._id u) ->
     User.findById (users st) (User._id u) = Some u ->
     User.isActive u = true ->
     r = PostMessage cid body ->
     stored st cid = Some c ->
     In (User._id u) (participantIds c) ->
     Routes.messageValidation body = [] ->
     forallb Message.attachmentOk (default [] (Routes.b_attachments body)) = true ->
     castable (Routes.b_replyTo body) ->
     exists view,
       api env authorization r st = (sent view, afterSend env u cid body c st) /\
       mv_content view = Text.trim (Routes.b_content body) /\
       s_id (mv_sender view) = User._id u).
Proof.
  unfold api, Auth.guarded. split.
  - destruct (Auth.authenticateToken authorization (users st)) as [user|response];
      [apply serve_refused|reflexivity].
  - intros t u cid body c Ht Hverify Hu Hactive -> Hc Hpart Hvalid Hfiles _.
    assert (Hnext : Auth.authenticateToken authorization (users st) = Auth.Next u)
      by (apply authenticateToken_next; eauto).
    rewrite Hnext. simpl.
    destruct (postMessage_accepts env u u cid body st c Hc Hpart Hu Hvalid Hfiles)
      as (view & -> & _ & Hcontent & _ & Hsender & _).
    exists view. auto.
Qed.

(** Through the middleware, sending is all or nothing: either the answer
    has status 201 and exactly one message, with the trimmed content and
    the authenticated user as sender, was added to the collection, or the
    answer has another status and nothing at all was written. *)
Theorem sending_is_all_or_nothing `{Platform} `{Auth.Tokens} (env : Env)
    (authorization : option string) (cid : string) (body : Routes.MessageBody) (st : Store) :
  (status (fst (api env authorization (PostMessage cid body) st)) = 201%Z /\
   exists m u,
     Auth.authenticateToken authorization (users st) = Auth.Next u /\
     messages (snd (api env authorization (PostMessage cid body) st)) = messages st ++ [m] /\
     Message.content m = Text.trim (Routes.b_content body) /\
     Message.senderId m = User._id u /\ Message.conversationId m = cid /\
     users (snd (api env authorization (PostMessage cid body) st)) = users st) \/
  (status (fst (api env authorization (PostMessage cid body) st)) <> 201%Z /\
   snd (api env authorization (PostMessage cid body) st) = st).
Proof.
  unfold api, Auth.guarded.
  destruct (Auth.authenticateToken authorization (users st)) as [u|response] eqn:Hauth.
  - pose proof Hauth as Hnext.
    apply authenticateToken_next in Hnext as (t & _ & _ & Hu & _).
    cbn [serve]. rewrite postMessage_cases.
    destruct (Routes.messageValidation body); [|right; split; [discriminate|reflexivity]].
    destruct (stored st cid) as [c|]; [|right; split; [discriminate|reflexivity]].
    destruct (Conversation.hasUserId (User._id u) c); [|right; split; [discriminate|reflexivity]].
    destruct (Message.validationErrors _); [|right; split; [discriminate|reflexivity]].
    unfold Routes.formatSent, Routes.senderOf.
    change (Message.senderId (composed env u cid body)) with (User._id u).
    rewrite Hu. cbn [bind fst snd]. left. split; [reflexivity|].
    exists (composed env u cid body), u. split; [reflexivity|]. split; [reflexivity|].
    simpl. rewrite trim_idempotent. repeat split.
  - right. cbn [fst snd]. split; [|reflexivity].
    apply authenticateToken_answered in Hauth as [->|[-> _]]; discriminate.
Qed.

(** * Whom a conversation can be opened with *)


(** * Instances *)

Lemma secondContact_reachable : reachable secondContact.
Proof.
  unfold secondContact.
  apply (reachable_step firstContact _ firstContact_reachable).
  apply (step_serve laterEnv bob (PostConversation reply) firstContact).
  - split; [simpl; lia|]. intros k. simpl. lia.
  - unfold freshConversation. vm_compute. intros [Hid|[]]. discriminate Hid.
Qed.

Lemma pages_partition_the_conversation_witness :
  concat (List.map (fun k => pageOf talkId 1 (messages chat) (Z.of_nat k + 1))
            (seq 0 (Z.to_nat (Routes.pages (totalOf talkId (messages chat)) 1))))
  = newestOf talkId (messages chat) /\
  (forall page, (1 <= page)%Z ->
     (length (pageOf talkId 1 (messages chat) page) <= Z.to_nat 1)%nat) /\
  (forall page, (1 <= page <= Routes.pages (totalOf talkId (messages chat)) 1)%Z ->
     pageOf talkId 1 (messages chat) page <> []) /\
  (forall page, (Routes.pages (totalOf talkId (messages chat)) 1 < page)%Z ->
     pageOf talkId 1 (messages chat) page = []).
Proof. apply (pages_partition_the_conversation talkId 1 (messages chat)). lia. Defined.

Lemma unread_total_after_marking_read_witness :
  Routes.getUnreadCount bob (snd (Routes.putRead laterEnv bob talkId chat))
  = (unreadTotal
       (Z.of_nat (length (List.filter
                            (fun m => Message.unreadFor (User._id bob) (conversations chat) m
                                      && negb (Message.inConversation talkId m))
                            (messages chat)))),
     snd (Routes.putRead laterEnv bob talkId chat)).
Proof.
  apply (unread_total_after_marking_read laterEnv bob talkId chat chatTalk).
  - reflexivity.
  - simpl. right. left. reflexivity.
Defined.

Lemma valid_message_is_accepted_witness :
  exists view,
    Routes.postMessage sampleEnv alice talkId bonjour sampleStore
    = (sent view, afterSend sampleEnv alice talkId bonjour talk sampleStore) /\
    mv_id view = newId sampleEnv 0 /\
    mv_content view = Text.trim (Routes.b_content bonjour) /\
    mv_messageType view = default "text" (Routes.b_messageType bonjour) /\
    s_id (mv_sender view) = User._id alice /\
    s_name (mv_sender view) = User.fullName alice /\
    mv_isFromCurrentUser view = true /\
    mv_isRead view = false /\
    mv_createdAt view = clock sampleEnv 0.
Proof.
  apply (valid_message_is_accepted sampleEnv alice alice talkId bonjour sampleStore talk).
  - reflexivity.
  - simpl. left. reflexivity.
  - reflexivity.
  - reflexivity.
  - reflexivity.
  - exact I.
Defined.

Lemma unknown_attachment_type_is_a_server_error_witness :
  Routes.postMessage sampleEnv alice talkId withVideo sampleStore = (internalError, sampleStore) /\
  status internalError = 500%Z.
Proof.
  apply (unknown_attachment_type_is_a_server_error sampleEnv alice talkId withVideo sampleStore talk
           [Message.mkAttachment (Some "video") "/uploads/a.mp4" "a.mp4" 1024]).
  - reflexivity.
  - simpl. left. reflexivity.
  - reflexivity.
  - reflexivity.
  - reflexivity.
Defined.

Lemma refused_requests_write_nothing_witness :
  snd (serve sampleEnv carol (PostMessage talkId bonjour) sampleStore) = sampleStore.
Proof.
  apply (refused_requests_write_nothing sampleEnv carol (PostMessage talkId bonjour) sampleStore).
  vm_compute. split; [discriminate|reflexivity].
Defined.

Lemma unknown_conversation_is_not_found_witness :
  Routes.getConversation alice strayId sampleStore = (conversationNotFound, sampleStore) /\
  status conversationNotFound = 404%Z /\
  (stored sampleStore strayId = None ->
   (Routes.pageValidation None None = [] ->
    Routes.getMessages sampleEnv alice strayId None None sampleStore
    = (conversationNotFound, sampleStore)) /\
   (Routes.messageValidation bonjour = [] ->
    Routes.postMessage sampleEnv alice strayId bonjour sampleStore
    = (conversationNotFound, sampleStore)) /\
   Routes.putRead sampleEnv alice strayId sampleStore = (conversationNotFound, sampleStore) /\
   (Routes.searchValidation "bon" (Some strayId) = [] ->
    Routes.getSearch alice "bon" (Some strayId) sampleStore
    = (conversationNotFound, sampleStore))).
Proof.
  apply (unknown_conversation_is_not_found sampleEnv alice strayId sampleStore None None
           bonjour "bon").
  - reflexivity.
  - left. reflexivity.
Defined.

Lemma messages_belong_to_their_conversation_witness :
  length (messages (db secondContact)) = 2%nat /\
  forall m, In m (messages (db secondContact)) ->
    exists c, In c (conversations (db secondContact)) /\
              Conversation._id c = Message.conversationId m /\
              In (Message.senderId m) (participantIds c).
Proof.
  split; [reflexivity|].
  exact (messages_belong_to_their_conversation secondContact secondContact_reachable).
Defined.

Lemma one_conversation_per_pair_witness :
  length (conversations (db secondContact)) = 1%nat /\
  forall c1 c2 a b,
    In c1 (conversations (db secondContact)) -> In c2 (conversations (db secondContact)) ->
    a <> b ->
    In a (participantIds c1) -> In b (participantIds c1) ->
    In a (participantIds c2) -> In b (participantIds c2) ->
    c1 = c2.
Proof.
  split; [reflexivity|].
  exact (one_conversation_per_pair secondContact secondContact_reachable).
Defined.

Lemma conversations_keep_their_participants_witness :
  NoDup (List.map Conversation._id (conversations (db secondContact))) /\
  (forall c, In c (conversations (db secondContact)) -> Conversation.isActive c = true) /\
  (forall w' cid c, step secondContact w' -> stored (db secondContact) cid = Some c ->
     exists c', stored (db w') cid = Some c' /\
       Conversation.participants c' = Conversation.participants c /\
       Conversation.isActive c' = true).
Proof. exact (conversations_keep_their_participants secondContact secondContact_reachable). Defined.


Lemma sent_message_is_listed_witness :
  exists shown pagination view,
    fst (Routes.getMessages laterEnv bob talkId None None
           (snd (Routes.postMessage sampleEnv alice talkId bonjour sampleStore)))
    = mkResponse 200 true None [] (MessagesPayload shown pagination) /\
    Z.of_nat (pg_totalItems pagination) = (totalOf talkId (messages sampleStore) + 1)%Z /\
    In view shown /\
    mv_id view = newId sampleEnv 0 /\
    mv_content view = Text.trim (Routes.b_content bonjour) /\
    s_id (mv_sender view) = User._id alice /\
    mv_isFromCurrentUser view = String.eqb (User._id alice) (User._id bob) /\
    mv_isRead view = false.
Proof.
  apply (sent_message_is_listed sampleEnv laterEnv alice bob talkId bonjour sampleStore
           (snd (Routes.postMessage sampleEnv alice talkId bonjour sampleStore))
           (fst (Routes.postMessage sampleEnv alice talkId bonjour sampleStore)) talk).
  - reflexivity.
  - simpl. right. left. reflexivity.
  - reflexivity.
  - intros m [].
  - apply surjective_pairing.
  - reflexivity.
Defined.

Lemma participants_cannot_open_their_conversation_witness :
  In (User._id bob) (participantIds chatTalk) /\
  Routes.getConversation bob talkId chat = (accessDenied, chat) /\
  status accessDenied = 403%Z.
Proof.
  split; [right; left; reflexivity|].
  apply (participants_cannot_open_their_conversation bob talkId chat chatTalk).
  - reflexivity.
  - reflexivity.
  - unfold resolves. simpl. constructor; [discriminate|constructor; [discriminate|constructor]].
  - intros profile Heq. simpl in Heq. discriminate.
Defined.

Lemma existing_conversation_is_used_again_witness :
  exists st' m,
    Routes.postConversation laterEnv bob aboutNothing chat = (created chatTalk alice, st') /\
    In chatTalk (conversations chat) /\
    Conversation.isActive chatTalk = true /\
    In (User._id bob) (participantIds chatTalk) /\
    In (User._id alice) (participantIds chatTalk) /\
    Conversation.findBetweenUsers (users chat) (conversations chat)
      (Routes.b_participantId aboutNothing) (User._id bob)
    = Some (Conversation.mkDoc chatTalk (Some (users chat))) /\
    length (conversations st') = length (conversations chat) /\
    Forall2 sameParties (conversations chat) (conversations st') /\
    messages st' = messages chat ++ [m] /\
    Message.conversationId m = Conversation._id chatTalk /\
    Message.senderId m = User._id bob /\
    Message.content m = Text.trim (Routes.b_initialMessage aboutNothing).
Proof.
  apply (existing_conversation_is_used_again laterEnv bob alice aboutNothing chat
           (Conversation.mkDoc chatTalk (Some (users chat)))).
  - reflexivity.
  - discriminate.
  - reflexivity.
  - reflexivity.
  - reflexivity.
  - unfold ready, resolves. simpl.
    constructor; [discriminate|constructor; [discriminate|constructor]].
  - unfold countable. simpl.
    constructor; [|constructor; [|constructor]];
      intros profile Hp; injection Hp as <-; right; reflexivity.
Defined.

Lemma conversations_are_listed_latest_first_witness :
  exists cs,
    Forall2 (shows (fun _ => 0%Z) (User._id alice)) cs [chatEntry] /\
    latestFirst (fun _ => 0%Z) cs /\
    length cs = length (List.filter (Listing.ofUser (User._id alice)) (conversations chat)) /\
    forall c, In c cs <->
              In c (conversations chat) /\ In (User._id alice) (participantIds c) /\
              Conversation.isActive c = true.
Proof.
  apply (conversations_are_listed_latest_first (fun _ => 0%Z) alice chat [chatEntry]).
  reflexivity.
Defined.

Lemma listing_needs_every_other_participant_witness :
  Listing.getConversations (fun _ => 0%Z) alice withoutBob = Listing.Failed internalError /\
  exists entries, Listing.getConversations (fun _ => 0%Z) alice chat = Listing.Listed entries.
Proof.
  destruct (listing_needs_every_other_participant (fun _ => 0%Z) alice withoutBob) as [Hfails _].
  destruct (listing_needs_every_other_participant (fun _ => 0%Z) alice chat) as [_ Hlists].
  split.
  - apply (Hfails chatTalk).
    + left. reflexivity.
    + left. reflexivity.
    + reflexivity.
    + exists (Conversation.mkParticipant (User._id bob) "Bob Durand").
      split; [right; left; reflexivity|discriminate].
    + constructor; [intros Hne; exfalso; apply Hne; reflexivity|].
      constructor; [intros _; reflexivity|constructor].
  - apply Hlists. intros c [<-|[]] _ _. split.
    + unfold resolves. simpl.
      constructor; [discriminate|constructor; [discriminate|constructor]].
    + exists (Conversation.mkParticipant (User._id bob) "Bob Durand").
      split; [right; left; reflexivity|discriminate].
Defined.

Lemma token_is_the_second_word_witness :
  Auth.token (Some ("Bearer" +:+ " " +:+ "jeton-alice")) = Some "jeton-alice" /\
  Auth.token (Some ("Bearer" +:+ " " +:+ "jeton-alice" +:+ " " +:+ "x")) = Some "jeton-alice" /\
  Auth.token (Some ("Bearer" +:+ "  " +:+ "jeton-alice")) = None /\
  Auth.token (Some "Bearer") = None /\
  Auth.token None = None.
Proof.
  apply (token_is_the_second_word "Bearer" "jeton-alice" "x");
    [reflexivity|reflexivity|discriminate].
Defined.


Lemma guarded_routes_serve_authenticated_users_witness :
  fst (@api samplePlatform sampleTokens sampleEnv (Some "Bearer jeton-dave")
         (PostMessage talkId bonjour) withDave) = Auth.accountDisabled /\
  snd (@api samplePlatform sampleTokens sampleEnv (Some "Bearer jeton-dave")
         (PostMessage talkId bonjour) withDave) = withDave /\
  exists view,
    @api samplePlatform sampleTokens sampleEnv (Some "Bearer jeton-alice")
      (PostMessage talkId bonjour) sampleStore
    = (sent view, afterSend sampleEnv alice talkId bonjour talk sampleStore) /\
    mv_content view = Text.trim (Routes.b_content bonjour) /\
    s_id (mv_sender view) = User._id alice.
Proof.
  destruct (@guarded_routes_serve_authenticated_users samplePlatform sampleTokens sampleEnv
              (Some "Bearer jeton-dave") (PostMessage talkId bonjour) withDave) as [Hrefused _].
  destruct (@guarded_routes_serve_authenticated_users samplePlatform sampleTokens sampleEnv
              (Some "Bearer jeton-alice") (PostMessage talkId bonjour) sampleStore)
    as [_ Haccepted].
  split; [reflexivity|]. split; [apply Hrefused; vm_compute; split; [discriminate|reflexivity]|].
  exact (Haccepted "jeton-alice" alice talkId bonjour talk eq_refl eq_refl eq_refl eq_refl
           eq_refl eq_refl (or_introl eq_refl) eq_refl eq_refl I).
Defined.

Lemma list_follows_sending_and_reading_witness :
  (exists entry,
     In entry [Listing.mkEntry talkId
                 (mkSender (User._id alice) "Alice Martin" "Alice" "Martin" None) None
                 (Listing.mkSummary "Bonjour" 101 false) 1 0] /\
     Listing.e_id entry = talkId /\
     Listing.e_unreadCount entry
     = (default 0 (Conversation.unreadCount talk !! User._id bob) + 1)%Z /\
     Listing.sm_content (Listing.e_lastMessage entry)
     = Text.substring0 100 (Text.trim (Routes.b_content bonjour)) /\
     Listing.sm_isFromCurrentUser (Listing.e_lastMessage entry) = false) /\
  (exists entry,
     In entry [Listing.mkEntry talkId
                 (mkSender (User._id alice) "Alice Martin" "Alice" "Martin" None) None
                 (Listing.mkSummary "Bonjour" 101 false) 0 0] /\
     Listing.e_id entry = talkId /\ Listing.e_unreadCount entry = 0%Z).
Proof.
  apply (list_follows_sending_and_reading sampleEnv laterEnv alice bob talkId bonjour sampleStore
           (snd (Routes.postMessage sampleEnv alice talkId bonjour sampleStore))
           (fst (Routes.postMessage sampleEnv alice talkId bonjour sampleStore))
           talk (fun _ => 0%Z) (fun _ => 0%Z)).
  - reflexivity.
  - reflexivity.
  - constructor; [simpl; intuition discriminate|constructor; [simpl; tauto|constructor]].
  - simpl. right. left. reflexivity.
  - discriminate.
  - apply surjective_pairing.
  - reflexivity.
  - reflexivity.
  - reflexivity.
Defined.

Lemma reading_the_messages_keeps_the_counter_witness :
  stored (snd (Routes.getMessages laterEnv bob talkId None None chat)) talkId = Some chatTalk /\
  (forall m, In m (messages (snd (Routes.getMessages laterEnv bob talkId None None chat))) ->
     Message.conversationId m = talkId -> Message.senderId m <> User._id bob ->
     Message.isRead m = true) /\
  fst (Routes.getUnreadCount bob (snd (Routes.getMessages laterEnv bob talkId None None chat)))
  = unreadTotal
      (Z.of_nat (length (List.filter
                           (fun m => Message.unreadFor (User._id bob) (conversations chat) m
                                     && negb (Message.inConversation talkId m))
                           (messages chat)))).
Proof.
  apply (reading_the_messages_keeps_the_counter laterEnv bob talkId None None chat chatTalk).
  - reflexivity.
  - simpl. right. left. reflexivity.
  - reflexivity.
Defined.

Lemma initial_message_misses_the_counter_witness :
  Conversation.unreadCount chatTalk !! User._id alice = Some 1%Z /\
  exists (m : Message.t) (c' : Conversation.t),
    messages (snd (Routes.postConversation laterEnv bob reply chat)) = messages chat ++ [m] /\
    Message.content m = Text.trim (Routes.b_initialMessage reply) /\
    Message.senderId m = User._id bob /\
    Message.conversationId m = Conversation._id chatTalk /\
    stored (snd (Routes.postConversation laterEnv bob reply chat)) (Conversation._id chatTalk)
    = Some c' /\
    Conversation.lastMessage c'
    = Conversation.mkLastMessage (Text.substring0 100 (Message.content m))
        (Some (User._id bob)) (clock laterEnv 3) /\
    In (User._id alice) (participantIds chatTalk) /\
    User._id alice <> User._id bob /\
    Conversation.unreadCount c' !! User._id alice
    = Conversation.unreadCount chatTalk !! User._id alice.
Proof.
  split; [reflexivity|].
  apply (initial_message_misses_the_counter laterEnv bob alice reply chat
           (snd (Routes.postConversation laterEnv bob reply chat))
           (Conversation.mkDoc chatTalk (Some (users chat)))
           (fst (Routes.postConversation laterEnv bob reply chat))).
  - discriminate.
  - reflexivity.
  - reflexivity.
  - reflexivity.
  - intros profile Heq. simpl in Heq. discriminate.
  - apply surjective_pairing.
  - reflexivity.
Defined.

Lemma second_call_fails_on_a_dotted_document_witness :
  status (fst (Routes.postConversation sampleEnv alice toEve withEve)) = 201%Z /\
  exists m,
    Routes.postConversation laterEnv alice toEve eveContact
    = (internalError, afterInitial m eveContact) /\
    status internalError = 500%Z /\
    Message.conversationId m = Conversation._id eveTalk /\
    Message.senderId m = User._id alice /\
    Message.content m = Text.trim (Routes.b_initialMessage toEve).
Proof.
  split; [reflexivity|].
  apply (second_call_fails_on_a_dotted_document laterEnv alice eve toEve eveContact
           (Conversation.mkDoc eveTalk (Some (users eveContact)))).
  - reflexivity.
  - discriminate.
  - reflexivity.
  - reflexivity.
  - reflexivity.
  - apply Exists_cons_tl. apply Exists_cons_hd. exists (User.profile eve).
    split; [reflexivity|]. split; [|reflexivity].
    intros Heq. simpl in Heq. discriminate.
Defined.

Lemma self_check_compares_spellings_witness :
  (snd (Routes.postConversation sampleEnv alice toMyself emptyStore) = emptyStore /\
   status (fst (Routes.postConversation sampleEnv alice toMyself emptyStore)) = 400%Z) /\
  Routes.conversationValidation aloud = [] /\
  Routes.b_participantId aloud <> User._id alice /\
  canonicalText (Routes.b_participantId aloud) = User._id alice /\
  status (fst (Routes.postConversation sampleEnv alice aloud emptyStore)) <> 400%Z /\
  exists c st1 st' m,
    Routes.findOrCreate sampleEnv alice (User._id alice) alice None emptyStore
    = (Return (inr (Conversation.mkDoc c None)), st1) /\
    conversations st1 = conversations emptyStore ++ [c] /\
    participantIds c = [User._id alice; User._id alice] /\
    respond (Routes.openWith sampleEnv alice alice (Text.trim (Routes.b_initialMessage aloud))
               (Conversation.mkDoc c None)) st1
    = (created c alice, st') /\
    length (conversations st') = S (length (conversations emptyStore)) /\
    messages st' = messages emptyStore ++ [m] /\
    Message.senderId m = User._id alice /\
    Message.conversationId m = Conversation._id c.
Proof.
  split; [exact (proj1 (self_check_compares_spellings sampleEnv alice toMyself emptyStore)
                   eq_refl)|].
  split; [reflexivity|]. split; [discriminate|]. split; [reflexivity|].
  destruct (self_check_compares_spellings sampleEnv alice aloud emptyStore)
    as (_ & Hother & Hpast).
  split; [apply Hother; [reflexivity|discriminate]|].
  apply Hpast; [|reflexivity]. unfold lengthInRange. simpl. lia.
Defined.
